(** * AgroSense backend: a shallow embedding of the feature pipeline,
    the prediction service, the dataset generator and the augmenter.

  Sources embedded:
  - [app/backend/train.py]        ([PlantDiseaseModel], [main])
  - [app/backend/server.py]       ([preprocess_input], [predict_disease], [get_diseases])
  - [app/backend/augment_data.py] ([augment_dataset])
  - [app/backend/dataset.py]      ([generate_sample])

  Python exceptions are values of [exn] carried by [result]; Python dicts and
  pandas frames are insertion-ordered association lists; floats are IEEE
  binary64 ([PrimFloat.float]).  What lives in third-party libraries and
  cannot be computed bit for bit here (the scaler's statistics, the
  classifier, the random generators, decimal rounding, the clock) is a
  field of the classes [Libraries] and [Randomness]. *)

From Stdlib Require Import ZArith List String Ascii Bool Lia.
From Stdlib Require Import OrdersEx Sorted Floats Uint63 DecimalString Decimal.
From Stdlib Require Import Permutation.
From Stdlib Require Import DecimalN.
Import ListNotations.

Set Warnings "-inexact-float".

Open Scope string_scope.
Open Scope Z_scope.

(* ================================================================== *)
(** * Part I: definitions                                              *)
(* ================================================================== *)

(** ** Python: exceptions, dicts, [str] of an integer *)

Module Py.

Inductive exn : Type :=
| ValueError (msg : string)
| KeyError (key : string)
| IndexError (msg : string)
| TypeError (msg : string)
| AttributeError (msg : string)
| HTTPException (status_code : Z) (detail : string).

Inductive result (A : Type) : Type :=
| Ok (a : A)
| Raise (e : exn).
Arguments Ok {A} a.
Arguments Raise {A} e.

Definition bind {A B : Type} (r : result A) (k : A -> result B) : result B :=
  match r with
  | Ok a => k a
  | Raise e => Raise e
  end.

Definition fmap {A B : Type} (f : A -> B) (r : result A) : result B :=
  bind r (fun a => Ok (f a)).

Fixpoint mapM {A B : Type} (f : A -> result B) (l : list A) : result (list B) :=
  match l with
  | [] => Ok []
  | x :: r =>
      bind (f x) (fun y => bind (mapM f r) (fun ys => Ok (y :: ys)))
  end.

(** A [for] loop that threads a state and stops at the first exception. *)
Fixpoint foldM {A S : Type} (f : S -> A -> result S) (l : list A) (s : S) : result S :=
  match l with
  | [] => Ok s
  | x :: r => bind (f s x) (foldM f r)
  end.

(** [l[0]] *)
Definition getitem0 {A : Type} (l : list A) : result A :=
  match l with
  | x :: _ => Ok x
  | [] => Raise (IndexError "index 0 is out of bounds")
  end.

(** [str(e)]: the message, and for a [KeyError] the [repr] of its key. *)
Definition str_exn (e : exn) : string :=
  match e with
  | ValueError m | IndexError m | TypeError m | AttributeError m => m
  | KeyError k => "'" ++ k ++ "'"
  | HTTPException _ d => d
  end.

(** [str(n)] for an [int]. *)
Definition str_int (z : Z) : string := NilZero.string_of_int (Z.to_int z).

Definition str_bool (b : bool) : string := if b then "True" else "False".

(** A [dict] with [str] keys: insertion ordered, a key occurs once. *)
Definition dict (V : Type) : Type := list (string * V).

Fixpoint dict_get {V : Type} (k : string) (d : dict V) : option V :=
  match d with
  | [] => None
  | (k', v) :: r => if String.eqb k' k then Some v else dict_get k r
  end.

(** [k in d] *)
Definition dict_mem {V : Type} (k : string) (d : dict V) : bool :=
  match dict_get k d with Some _ => true | None => false end.

(** [d[k] = v]: an existing key keeps its place, a new one goes last. *)
Fixpoint dict_set {V : Type} (k : string) (v : V) (d : dict V) : dict V :=
  match d with
  | [] => [(k, v)]
  | (k', v') :: r =>
      if String.eqb k' k then (k', v) :: r else (k', v') :: dict_set k v r
  end.

Definition keys {V : Type} (d : dict V) : list string := map fst d.

(** [x in l] for a list of strings. *)
Definition str_in (x : string) (l : list string) : bool :=
  existsb (String.eqb x) l.

(** No string occurs twice in [l]. *)
Fixpoint nodupb (l : list string) : bool :=
  match l with
  | [] => true
  | x :: r => negb (str_in x r) && nodupb r
  end.

End Py.
Import Py.

Declare Scope py_scope.
Delimit Scope py_scope with py.
Notation "x <- e ;; k" := (bind e (fun x => k))
(at level 61, e at next level, right associativity) : py_scope.
Notation "' p <- e ;; k" := (bind e (fun p => k))
(at level 61, p pattern, e at next level, right associativity) : py_scope.
Open Scope py_scope.

(** ** scikit-learn's [LabelEncoder] on [str] labels

  [fit] stores [sorted(set(y))] in [classes_]; [transform] looks every
  label up in the table [{val: i for i, val in enumerate(classes_)}] and
  raises [ValueError] on a label that is not there; [inverse_transform]
  indexes [classes_].  Strings compare by code point, which on UTF-8 bytes
  is the lexicographic byte order of [String_as_OT.compare]. *)

Module LabelEncoder.

Record t : Type := Build { classes_ : list string }.

Fixpoint insert_unique (v : string) (l : list string) : list string :=
  match l with
  | [] => [v]
  | x :: r =>
      match String_as_OT.compare v x with
      | Lt => v :: l
      | Eq => l
      | Gt => x :: insert_unique v r
      end
  end.

(** [sorted(set(y))] *)
Definition sorted_set (y : list string) : list string :=
  fold_right insert_unique [] y.

(** Index of the first cell equal to [v]; [length l] when there is none. *)
Fixpoint position (v : string) (l : list string) : nat :=
  match l with
  | [] => O
  | x :: r => if String.eqb x v then O else S (position v r)
  end.

Definition fit (y : list string) : t := Build (sorted_set y).

Definition encode1 (le : t) (v : string) : result Z :=
  if str_in v (classes_ le)
  then Ok (Z.of_nat (position v (classes_ le)))
  else Raise (ValueError ("y contains previously unseen labels: '" ++ v ++ "'")).

Definition transform (le : t) (y : list string) : result (list Z) :=
  mapM (encode1 le) y.

(** [fit_transform]: [classes_, y = _unique(y, return_inverse=True)]. *)
Definition fit_transform (y : list string) : t * list Z :=
  let le := fit y in
  (le, map (fun v => Z.of_nat (position v (classes_ le))) y).

Definition decode1 (le : t) (i : Z) : result string :=
  if (0 <=? i) && (i <? Z.of_nat (List.length (classes_ le)))
  then Ok (nth (Z.to_nat i) (classes_ le) "")
  else Raise (ValueError "y contains previously unseen labels").

Definition inverse_transform (le : t) (y : list Z) : result (list string) :=
  mapM (decode1 le) y.

End LabelEncoder.

(** ** pandas: cells, typed columns, frames

    A [Series] carries its dtype: [object], [bool], [int64] or [float64].
    A [DataFrame] is its columns in order, each name once.  An [ndarray] is
    the row-major matrix the scaler returns. *)

Inductive value : Type :=
| VStr (s : string)
| VBool (b : bool)
| VInt (z : Z)
| VFloat (f : float)
| VNone.

Inductive Series : Type :=
| SObject (cells : list value)
| SBool (cells : list bool)
| SInt (cells : list Z)
| SFloat (cells : list float).

Definition DataFrame : Type := dict Series.

Definition ndarray : Type := list (list float).

(** The frame [pd.DataFrame(X_scaled, columns=X.columns, index=X.index)]. *)
Record ScaledFrame : Type := MkScaled {
  sf_columns : list string;
  sf_values : ndarray
}.

(** [select_dtypes(include=['object', 'bool'])] keeps these columns. *)
Definition is_categorical (s : Series) : bool :=
  match s with
  | SObject _ | SBool _ => true
  | SInt _ | SFloat _ => false
  end.

Definition Series_len (s : Series) : nat :=
  match s with
  | SObject l => List.length l
  | SBool l => List.length l
  | SInt l => List.length l
  | SFloat l => List.length l
  end.

(** [pd.DataFrame([record])]: one row, the dtype of each column inferred
    from its one cell. *)
Definition series_of_value (v : value) : Series :=
  match v with
  | VStr _ | VNone => SObject [v]
  | VBool b => SBool [b]
  | VInt z => SInt [z]
  | VFloat f => SFloat [f]
  end.

Definition DataFrame_of_record (d : dict value) : DataFrame :=
  map (fun kv => (fst kv, series_of_value (snd kv))) d.

(** [df.drop(columns=cols)] for names that are all columns of [df]. *)
Definition drop_columns (cols : list string) (df : DataFrame) : DataFrame :=
  filter (fun cs => negb (str_in (fst cs) cols)) df.

(** Rows [idx] of a column, in that order (positional indexing; the index
    lists come from the splitter and are in range). *)
Definition take_rows {A : Type} (idx : list nat) (l : list A) : list A :=
  flat_map (fun i => match nth_error l i with Some x => [x] | None => [] end) idx.

Definition Series_take (idx : list nat) (s : Series) : Series :=
  match s with
  | SObject l => SObject (take_rows idx l)
  | SBool l => SBool (take_rows idx l)
  | SInt l => SInt (take_rows idx l)
  | SFloat l => SFloat (take_rows idx l)
  end.

Definition DataFrame_take (idx : list nat) (df : DataFrame) : DataFrame :=
  map (fun cs => (fst cs, Series_take idx (snd cs))) df.

(** ** A dataset row

    The dict [generate_sample] returns and the row the augmenter reads back:
    the seventeen columns of the CSV header, typed as the generator fills
    them. *)

Module Sample.

Record t : Type := Build {
  sample_id : string;
  timestamp : string;
  crop_type : string;
  plant_age_days : Z;
  location_region : string;
  soil_ph : float;
  soil_moisture_pct : float;
  ambient_temperature_c : float;
  ambient_humidity_pct : float;
  leaf_color : string;
  lesion_present : bool;
  lesion_count : Z;
  spot_size_mm : float;
  nutrient_deficiency_signs : string;
  other_notes : string;
  label_disease : string;
  severity : string
}.

End Sample.

(** [f"{n:06d}"] *)
Definition format_06d (n : Z) : string :=
  let digits := NilZero.string_of_uint (N.to_uint (Z.to_N (Z.abs n))) in
  let pad (w : nat) := String.concat "" (repeat "0" (w - String.length digits)) ++ digits in
  if n <? 0 then "-" ++ pad 5%nat else pad 6%nat.

(** ** What the libraries and the operating system provide *)

Class Libraries : Type := {
  (** [str(x)] of a float (its shortest round-trip decimal). *)
  float_str : float -> string;

  (** [sklearn.preprocessing.StandardScaler]: the object [StandardScaler()],
      [fit_transform] (the fitted scaler and the scaled matrix) and
      [transform]. *)
  StandardScaler : Type;
  StandardScaler_new : StandardScaler;
  scaler_fit_transform : StandardScaler -> DataFrame -> result (StandardScaler * ndarray);
  scaler_transform : StandardScaler -> DataFrame -> result ndarray;

  (** The random forest: [GridSearchCV(...).fit(X, y).best_estimator_], and
      the fitted estimator's [predict], [predict_proba] and [classes_]. *)
  Classifier : Type;
  grid_search_fit : ndarray -> option Series -> result Classifier;
  clf_predict : Classifier -> ndarray -> result (list string);
  clf_predict_proba : Classifier -> ndarray -> result (list (list float));
  clf_classes_ : Classifier -> list string;

  (** [train_test_split(..., test_size=0.2, random_state=42, stratify=y)]:
      the row positions it puts in the train and in the test split, for a
      frame of [n] rows with labels [y]. *)
  stratified_split : nat -> option Series -> result (list nat * list nat);

  (** The four scores of [evaluate], from [y_test] and [y_pred]. *)
  Metrics : Type;
  score : option Series -> list string -> Metrics;

  (** [datetime.now(...).isoformat()] *)
  now_isoformat : string
}.

(** The random generators and the clock: [G] is the state of Python's
    [random], of numpy's generator and of the clock. *)
Class Randomness : Type := {
  G : Type;
  (** [random._randbelow(n)] *)
  randbelow : nat -> G -> nat * G;
  (** [random.random()] *)
  random_random : G -> float * G;
  (** The row position [df.sample(n=1)] picks in a frame of [n] rows. *)
  np_choice : nat -> G -> nat * G;
  (** [(datetime.now() - timedelta(days=d)).isoformat()] *)
  isoformat_days_ago : Z -> G -> string * G;
  (** [round(x, ndigits)] of a float. *)
  round_ndigits : float -> Z -> float
}.

Section Backend.

Context {L : Libraries} {R : Randomness}.

(** ** train.py *)

Definition value_str (v : value) : string :=
  match v with
  | VStr s => s
  | VBool b => str_bool b
  | VInt z => str_int z
  | VFloat f => float_str f
  | VNone => "None"
  end.

(** [s.astype(str)] *)
Definition astype_str (s : Series) : list string :=
  match s with
  | SObject l => map value_str l
  | SBool l => map str_bool l
  | SInt l => map str_int l
  | SFloat l => map float_str l
  end.

Record PlantDiseaseModel : Type := MkModel {
  model : option Classifier;
  label_encoders : dict LabelEncoder.t;
  scaler : StandardScaler;
  feature_columns : option (list string);
  target_column : string
}.

(** [PlantDiseaseModel.__init__] *)
Definition PlantDiseaseModel_init : PlantDiseaseModel :=
  MkModel None [] StandardScaler_new None "label_disease".

Definition drop_cols : list string :=
  ["sample_id"; "timestamp"; "other_notes"; "severity"].

(** The lambda of the [fit=False] branch:
    [le.transform([x])[0] if x in le.classes_ else -1]. *)
Definition transform_or_sentinel (le : LabelEncoder.t) (x : string) : result Z :=
  if str_in x (LabelEncoder.classes_ le)
  then ys <- LabelEncoder.transform le [x] ;; getitem0 ys
  else Ok (-1).

(** One turn of [for col in categorical_cols], on the encoders of [self]
    and the frame [X]. *)
Definition encode_column (fit : bool) (st : dict LabelEncoder.t * DataFrame)
    (col : string) : result (dict LabelEncoder.t * DataFrame) :=
  let (encoders, X) := st in
  match dict_get col X with
  | None => Raise (KeyError col)
  | Some s =>
      if fit then
        let (le, codes) := LabelEncoder.fit_transform (astype_str s) in
        Ok (dict_set col le encoders, dict_set col (SInt codes) X)
      else
        match dict_get col encoders with
        | Some le =>
            codes <- mapM (transform_or_sentinel le) (astype_str s) ;;
            Ok (encoders, dict_set col (SInt codes) X)
        | None => Ok (encoders, X)
        end
  end.

(** [X] and [y] of [preprocess]: the non-feature columns dropped, the
    target column split off. *)
Definition features_and_target (self : PlantDiseaseModel) (df : DataFrame)
    : DataFrame * option Series :=
  let feature_df :=
    drop_columns (filter (fun c => dict_mem c df) drop_cols) df in
  if dict_mem (target_column self) feature_df
  then (drop_columns [target_column self] feature_df,
        dict_get (target_column self) feature_df)
  else (feature_df, None).

Definition categorical_cols (X : DataFrame) : list string :=
  keys (filter (fun cs => is_categorical (snd cs)) X).

(** [preprocess] up to the scaling step: the updated [self], the frame [X]
    that the scaler receives, and [y]. *)
Definition encode_features (self : PlantDiseaseModel) (df : DataFrame) (fit : bool)
    : result (PlantDiseaseModel * DataFrame * option Series) :=
  let (X, y) := features_and_target self df in
  let columns := if fit then Some (keys X) else feature_columns self in
  '(encoders, X') <-
     foldM (encode_column fit) (categorical_cols X) (label_encoders self, X) ;;
  Ok (MkModel (model self) encoders (scaler self) columns (target_column self),
      X', y).

Definition preprocess (self : PlantDiseaseModel) (df : DataFrame) (fit : bool)
    : result (PlantDiseaseModel * (ScaledFrame * option Series)) :=
  '(self', X, y) <- encode_features self df fit ;;
  if fit then
    '(sc, X_scaled) <- scaler_fit_transform (scaler self') X ;;
    Ok (MkModel (model self') (label_encoders self') sc
                (feature_columns self') (target_column self'),
        (MkScaled (keys X) X_scaled, y))
  else
    X_scaled <- scaler_transform (scaler self') X ;;
    Ok (self', (MkScaled (keys X) X_scaled, y)).

(** [train]: the grid search, [self.model = grid_search.best_estimator_]. *)
Definition train (self : PlantDiseaseModel) (X_train : ScaledFrame)
    (y_train : option Series) : result PlantDiseaseModel :=
  clf <- grid_search_fit (sf_values X_train) y_train ;;
  Ok (MkModel (Some clf) (label_encoders self) (scaler self)
              (feature_columns self) (target_column self)).

Definition evaluate (self : PlantDiseaseModel) (X_test : ScaledFrame)
    (y_test : option Series) : result Metrics :=
  match model self with
  | None => Raise (AttributeError "'NoneType' object has no attribute 'predict'")
  | Some clf =>
      y_pred <- clf_predict clf (sf_values X_test) ;;
      Ok (score y_test y_pred)
  end.

(** The bundle [save_model] dumps and the server loads. *)
Record Artifact : Type := MkArtifact {
  art_model : option Classifier;
  art_label_encoders : dict LabelEncoder.t;
  art_scaler : StandardScaler;
  art_feature_columns : option (list string)
}.

Definition save_model (self : PlantDiseaseModel) : Artifact :=
  MkArtifact (model self) (label_encoders self) (scaler self) (feature_columns self).

Definition train_test_split (X : ScaledFrame) (y : option Series)
    : result (ScaledFrame * ScaledFrame * option Series * option Series) :=
  '(train_idx, test_idx) <- stratified_split (List.length (sf_values X)) y ;;
  Ok (MkScaled (sf_columns X) (take_rows train_idx (sf_values X)),
      MkScaled (sf_columns X) (take_rows test_idx (sf_values X)),
      option_map (Series_take train_idx) y,
      option_map (Series_take test_idx) y).

Record TrainingReport : Type := MkReport {
  metrics : Metrics;
  trained_at : string;
  train_samples : nat;
  test_samples : nat
}.

(** [main], from the frame [load_data] read to the artifact and the
    metrics file it writes. *)
Definition main (df : DataFrame) : result (Artifact * TrainingReport) :=
  let model0 := PlantDiseaseModel_init in
  '(model1, (X, y)) <- preprocess model0 df true ;;
  '(X_train, X_test, y_train, y_test) <- train_test_split X y ;;
  model2 <- train model1 X_train y_train ;;
  m <- evaluate model2 X_test y_test ;;
  Ok (save_model model2,
      MkReport m now_isoformat
               (List.length (sf_values X_train)) (List.length (sf_values X_test))).

(** ** server.py *)

Record PredictionInput : Type := MkInput {
  crop_type : string;
  plant_age_days : Z;
  location_region : string;
  soil_ph : float;
  soil_moisture_pct : float;
  ambient_temperature_c : float;
  ambient_humidity_pct : float;
  leaf_color : string;
  lesion_present : bool;
  lesion_count : Z;
  spot_size_mm : float;
  nutrient_deficiency_signs : string
}.

(** [input_data.model_dump()] *)
Definition model_dump (i : PredictionInput) : dict value :=
  [ ("crop_type", VStr (crop_type i));
    ("plant_age_days", VInt (plant_age_days i));
    ("location_region", VStr (location_region i));
    ("soil_ph", VFloat (soil_ph i));
    ("soil_moisture_pct", VFloat (soil_moisture_pct i));
    ("ambient_temperature_c", VFloat (ambient_temperature_c i));
    ("ambient_humidity_pct", VFloat (ambient_humidity_pct i));
    ("leaf_color", VStr (leaf_color i));
    ("lesion_present", VBool (lesion_present i));
    ("lesion_count", VInt (lesion_count i));
    ("spot_size_mm", VFloat (spot_size_mm i));
    ("nutrient_deficiency_signs", VStr (nutrient_deficiency_signs i)) ].

Record TreatmentInfo : Type := MkTreatment {
  treatment_text : string;
  prevention : string;
  chemicals : list string
}.

Record PredictionResponse : Type := MkResponse {
  prediction : string;
  confidence : float;
  all_probabilities : dict float;
  treatment : option TreatmentInfo;
  timestamp : string
}.

(** [for col in feature_columns: if col not in df.columns: df[col] = 0]
    on the one-row frame of a request. *)
Fixpoint ensure_columns (cols : list string) (df : DataFrame) : DataFrame :=
  match cols with
  | [] => df
  | col :: rest =>
      ensure_columns rest
        (if dict_mem col df then df else dict_set col (SInt [0]) df)
  end.

(** [df[feature_columns]] *)
Definition select_columns (cols : list string) (df : DataFrame) : result DataFrame :=
  mapM (fun col =>
          match dict_get col df with
          | Some s => Ok (col, s)
          | None => Raise (KeyError col)
          end) cols.

(** One turn of [for col, encoder in label_encoders.items()]: the whole
    column becomes [-1] when [transform] raises [ValueError]. *)
Definition encode_input_column (df : DataFrame) (ce : string * LabelEncoder.t)
    : result DataFrame :=
  let (col, encoder) := ce in
  match dict_get col df with
  | Some s =>
      match LabelEncoder.transform encoder (astype_str s) with
      | Ok codes => Ok (dict_set col (SInt codes) df)
      | Raise (ValueError _) =>
          Ok (dict_set col (SInt (repeat (-1) (Series_len s))) df)
      | Raise e => Raise e
      end
  | None => Ok df
  end.

(** [preprocess_input] up to the frame in [feature_columns] order. *)
Definition select_features (input_data : dict value) (model_data : Artifact)
    : result DataFrame :=
  let df := DataFrame_of_record input_data in
  match art_feature_columns model_data with
  | None => Raise (TypeError "'NoneType' object is not iterable")
  | Some cols => select_columns cols (ensure_columns cols df)
  end.

(** [preprocess_input] up to the scaling step: the frame the scaler receives. *)
Definition encode_input (input_data : dict value) (model_data : Artifact)
    : result DataFrame :=
  df <- select_features input_data model_data ;;
  foldM encode_input_column (art_label_encoders model_data) df.

Definition preprocess_input (input_data : dict value) (model_data : Artifact)
    : result ndarray :=
  df <- encode_input input_data model_data ;;
  scaler_transform (art_scaler model_data) df.

(** [max(probabilities)]: the first largest cell. *)
Definition max_float (l : list float) : result float :=
  match l with
  | [] => Raise (ValueError "max() arg is an empty sequence")
  | x :: r => Ok (fold_left (fun m y => if PrimFloat.ltb m y then y else m) r x)
  end.

(** [{cls: float(prob) for cls, prob in zip(classes, probabilities)}] *)
Definition prob_dict_of (classes : list string) (probabilities : list float) : dict float :=
  fold_left (fun d cp => dict_set (fst cp) (snd cp) d) (combine classes probabilities) [].

Definition default_treatment : TreatmentInfo :=
  MkTreatment "No treatment information available."
              "General preventive measures recommended." [].

(** The [try] block of [predict_disease]. *)
Definition predict_body (md : Artifact) (treatments : dict TreatmentInfo)
    (input_data : PredictionInput) : result PredictionResponse :=
  let input_dict := model_dump input_data in
  X <- preprocess_input input_dict md ;;
  match art_model md with
  | None => Raise (AttributeError "'NoneType' object has no attribute 'predict'")
  | Some clf =>
      predictions <- clf_predict clf X ;;
      prediction <- getitem0 predictions ;;
      probas <- clf_predict_proba clf X ;;
      probabilities <- getitem0 probas ;;
      let prob_dict := prob_dict_of (clf_classes_ clf) probabilities in
      confidence <- max_float probabilities ;;
      let treatment_info :=
        match dict_get prediction treatments with
        | Some t => t
        | None => default_treatment
        end in
      Ok (MkResponse prediction confidence prob_dict (Some treatment_info) now_isoformat)
  end.

(** [POST /predict], with the global [model_data] ([None] when the artifact
    could not be loaded at startup) and the global [treatments]. *)
Definition predict_disease (model_data : option Artifact)
    (treatments : dict TreatmentInfo) (input_data : PredictionInput)
    : result PredictionResponse :=
  match model_data with
  | None => Raise (HTTPException 500 "Model not loaded")
  | Some md =>
      match predict_body md treatments input_data with
      | Ok r => Ok r
      | Raise e => Raise (HTTPException 500 ("Prediction failed: " ++ str_exn e))
      end
  end.

(** [GET /diseases]: the labels and their count. *)
Definition get_diseases (model_data : option Artifact) : result (list string * nat) :=
  match model_data with
  | None => Raise (HTTPException 500 "Model not loaded")
  | Some md =>
      match art_model md with
      | None => Raise (AttributeError "'NoneType' object has no attribute 'classes_'")
      | Some clf =>
          let diseases := clf_classes_ clf in
          Ok (diseases, List.length diseases)
      end
  end.

(** ** Computations that draw random numbers

    A [Rand] returns a value and the next generator state, or raises. *)

Definition Rand (A : Type) : Type := G -> result (A * G).

Definition ret {A : Type} (a : A) : Rand A := fun g => Ok (a, g).

Definition throw {A : Type} (e : exn) : Rand A := fun _ => Raise e.

Definition rbind {A B : Type} (m : Rand A) (k : A -> Rand B) : Rand B :=
  fun g =>
    match m g with
    | Ok (a, g') => k a g'
    | Raise e => Raise e
    end.

Definition draw {A : Type} (f : G -> A * G) : Rand A := fun g => Ok (f g).

Notation "x <~ e ;; k" := (rbind e (fun x => k))
  (at level 61, e at next level, right associativity).
Notation "' p <~ e ;; k" := (rbind e (fun p => k))
  (at level 61, p pattern, e at next level, right associativity).

(** A [for] loop over [l] that collects one result per turn. *)
Fixpoint for_each {A B : Type} (f : A -> Rand B) (l : list A) : Rand (list B) :=
  match l with
  | [] => ret []
  | x :: r => y <~ f x ;; ys <~ for_each f r ;; ret (y :: ys)
  end.

(** [random.choice(seq)] *)
Definition random_choice {A : Type} (seq : list A) : Rand A :=
  k <~ draw (randbelow (List.length seq)) ;;
  match nth_error seq (Nat.modulo k (List.length seq)) with
  | Some x => ret x
  | None => throw (IndexError "Cannot choose from an empty sequence")
  end.

(** [random.randint(a, b)] *)
Definition random_randint (a b : Z) : Rand Z :=
  if b <? a then throw (ValueError "empty range for randrange()")
  else
    let width := Z.to_nat (b - a + 1) in
    k <~ draw (randbelow width) ;;
    ret (a + Z.of_nat (Nat.modulo k width)).

(** [random.uniform(a, b)]: [a + (b - a) * random()] *)
Definition random_uniform (a b : float) : Rand float :=
  u <~ draw random_random ;;
  ret (a + (b - a) * u)%float.

(** [d[k]] *)
Definition getitem {V : Type} (k : string) (d : dict V) : Rand V :=
  match dict_get k d with
  | Some v => ret v
  | None => throw (KeyError k)
  end.

(** ** dataset.py *)

Definition CROPS_DISEASES : dict (list string) :=
  [ ("Tomato", ["Healthy"; "Early_Blight"; "Late_Blight"; "Leaf_Mold";
                "Septoria_Leaf_Spot"; "Bacterial_Spot"; "Yellow_Leaf_Curl_Virus"]);
    ("Potato", ["Healthy"; "Early_Blight"; "Late_Blight"; "Bacterial_Wilt"]);
    ("Wheat", ["Healthy"; "Rust"; "Powdery_Mildew"; "Septoria_Tritici_Blotch"]);
    ("Rice", ["Healthy"; "Bacterial_Leaf_Blight"; "Brown_Spot"; "Leaf_Smut"]);
    ("Corn", ["Healthy"; "Northern_Leaf_Blight"; "Gray_Leaf_Spot"; "Common_Rust"]);
    ("Cotton", ["Healthy"; "Bacterial_Blight"; "Fusarium_Wilt"; "Verticillium_Wilt"]);
    ("Soybean", ["Healthy"; "Frogeye_Leaf_Spot"; "Downy_Mildew"; "Bacterial_Blight"]);
    ("Pepper", ["Healthy"; "Bacterial_Spot"; "Phytophthora_Blight"]) ].

Definition REGIONS : list string :=
  ["North"; "South"; "East"; "West"; "Central";
   "Northeast"; "Northwest"; "Southeast"; "Southwest"].

Definition LEAF_COLORS : dict (list string) :=
  [ ("Healthy", ["Dark_Green"; "Green"]);
    ("Diseased", ["Yellow"; "Yellow_Green"; "Brown"; "Light_Green"; "Pale_Green"]) ].

Definition NUTRIENT_DEFICIENCY : list string :=
  ["None"; "Nitrogen"; "Phosphorus"; "Potassium"; "Magnesium"; "Iron"; "Calcium"].

Definition SEVERITY : list string := ["Mild"; "Moderate"; "Severe"].

(** [round(random.uniform(a, b), ndigits)] *)
Definition rounded_uniform (a b : float) (ndigits : Z) : Rand float :=
  x <~ random_uniform a b ;;
  ret (round_ndigits x ndigits).

(** The visual observations of [generate_sample]:
    [(leaf_color, lesion_present, lesion_count, spot_size, nutrient_def, severity)]. *)
Definition visual_observations (is_healthy : bool)
    : Rand (string * bool * Z * float * string * string) :=
  if is_healthy then
    colors <~ getitem "Healthy" LEAF_COLORS ;;
    leaf_color <~ random_choice colors ;;
    deficiency <~ random_choice (tl NUTRIENT_DEFICIENCY) ;;
    nutrient_def <~ random_choice ["None"; "None"; "None"; deficiency] ;;
    ret (leaf_color, false, 0, 0%float, nutrient_def, "None")
  else
    diseased <~ getitem "Diseased" LEAF_COLORS ;;
    healthy <~ getitem "Healthy" LEAF_COLORS ;;
    leaf_color <~ random_choice (diseased ++ healthy)%list ;;
    lesion_present <~ random_choice [true; true; false] ;;
    lesion_count <~ (if lesion_present : bool then random_randint 0 25 else ret 0) ;;
    spot_size <~ (if lesion_present : bool then rounded_uniform 0 15 1 else ret 0%float) ;;
    nutrient_def <~ random_choice NUTRIENT_DEFICIENCY ;;
    severity <~ random_choice SEVERITY ;;
    ret (leaf_color, lesion_present, lesion_count, spot_size, nutrient_def, severity).

Definition generate_sample (sample_id : Z) : Rand Sample.t :=
  crop_type <~ random_choice (keys CROPS_DISEASES) ;;
  diseases <~ getitem crop_type CROPS_DISEASES ;;
  disease <~ random_choice diseases ;;
  let is_healthy := String.eqb disease "Healthy" in
  days_ago <~ random_randint 0 365 ;;
  timestamp <~ draw (isoformat_days_ago days_ago) ;;
  plant_age <~ random_randint 20 150 ;;
  region <~ random_choice REGIONS ;;
  soil_ph <~ rounded_uniform 5.5 8.0 2 ;;
  soil_moisture <~ rounded_uniform 15 85 1 ;;
  temperature <~ rounded_uniform 15 38 1 ;;
  humidity <~ rounded_uniform 30 95 1 ;;
  '(leaf_color, lesion_present, lesion_count, spot_size, nutrient_def, severity) <~
     visual_observations is_healthy ;;
  ret (Sample.Build ("SAMPLE_" ++ format_06d sample_id) timestamp crop_type
         plant_age region soil_ph soil_moisture temperature humidity
         leaf_color lesion_present lesion_count spot_size nutrient_def
         "" disease severity).

(** ** augment_data.py *)

(** [min(a, b)] and [max(a, b)] on floats: the first argument unless the
    second is strictly smaller (larger). *)
Definition py_min (a b : float) : float := if PrimFloat.ltb b a then b else a.
Definition py_max (a b : float) : float := if PrimFloat.ltb a b then b else a.

(** [round(max(lo, min(hi, x)), ndigits)] with float bounds. *)
Definition clamp_round (lo hi x : float) (ndigits : Z) : float :=
  round_ndigits (py_max lo (py_min hi x)) ndigits.

(** The same with [int] bounds [lo < hi]: a bound that wins stays an [int],
    [round] returns it unchanged, and the float column stores that number. *)
Definition clamp_round_int (lo hi x : float) (ndigits : Z) : float :=
  if PrimFloat.ltb x hi
  then (if PrimFloat.ltb lo x then round_ndigits x ndigits else lo)
  else hi.

(** [df.sample(n=1).iloc[0].to_dict()] *)
Definition sample_row (df : list Sample.t) : Rand Sample.t :=
  match df with
  | [] => throw (ValueError "a must be greater than 0 unless no samples are taken")
  | _ :: _ =>
      k <~ draw (np_choice (List.length df)) ;;
      match nth_error df (Nat.modulo k (List.length df)) with
      | Some row => ret row
      | None => throw (IndexError "single positional indexer is out-of-bounds")
      end
  end.

(** The lesion fields of an augmented row. *)
Definition vary_lesions (base_sample : Sample.t) : Rand (Z * float) :=
  if Sample.lesion_present base_sample then
    dc <~ random_randint (-3) 3 ;;
    ds <~ random_uniform (-1) 1 ;;
    let size := (Sample.spot_size_mm base_sample + ds)%float in
    ret (Z.max 0 (Sample.lesion_count base_sample + dc),
         if PrimFloat.ltb 0 size then round_ndigits size 1 else 0%float)
  else
    ret (Sample.lesion_count base_sample, Sample.spot_size_mm base_sample).

(** The body of [for i in range(samples_needed)]. *)
Definition augment_one (df : list Sample.t) (original_size : nat) (i : nat)
    : Rand Sample.t :=
  base_sample <~ sample_row df ;;
  let sample_id := "SAMPLE_" ++ format_06d (Z.of_nat original_size + Z.of_nat i + 1) in
  days_ago <~ random_randint 0 365 ;;
  timestamp <~ draw (isoformat_days_ago days_ago) ;;
  d_age <~ random_randint (-10) 10 ;;
  d_ph <~ random_uniform (-0.3) 0.3 ;;
  d_moisture <~ random_uniform (-5) 5 ;;
  d_temperature <~ random_uniform (-2) 2 ;;
  d_humidity <~ random_uniform (-5) 5 ;;
  '(lesion_count, spot_size) <~ vary_lesions base_sample ;;
  ret (Sample.Build sample_id timestamp
         (Sample.crop_type base_sample)
         (Z.max 20 (Sample.plant_age_days base_sample + d_age))
         (Sample.location_region base_sample)
         (clamp_round 5.5 8.0 (Sample.soil_ph base_sample + d_ph)%float 2)
         (clamp_round_int 15 85 (Sample.soil_moisture_pct base_sample + d_moisture)%float 1)
         (clamp_round_int 15 38 (Sample.ambient_temperature_c base_sample + d_temperature)%float 1)
         (clamp_round_int 30 95 (Sample.ambient_humidity_pct base_sample + d_humidity)%float 1)
         (Sample.leaf_color base_sample)
         (Sample.lesion_present base_sample)
         lesion_count spot_size
         (Sample.nutrient_deficiency_signs base_sample)
         (Sample.other_notes base_sample)
         (Sample.label_disease base_sample)
         (Sample.severity base_sample)).

(** [augment_dataset], from the frame read from [input_file] to the frame
    written to [output_file]; [None] when it returns without writing. *)
Definition augment_dataset (df : list Sample.t) (target_size : Z)
    : Rand (option (list Sample.t)) :=
  let original_size := List.length df in
  if Z.of_nat original_size >=? target_size then ret None
  else
    let samples_needed := target_size - Z.of_nat original_size in
    augmented_samples <~
      for_each (augment_one df original_size) (seq 0 (Z.to_nat samples_needed)) ;;
    let final_df := (df ++ augmented_samples)%list in
    ret (Some final_df).

(** A feature column: neither dropped nor the target. *)
Definition is_feature (self : PlantDiseaseModel) (col : string) : bool :=
  negb (str_in col drop_cols) && negb (String.eqb col (target_column self)).

(** The code a fitted encoder gives one label on the inference paths:
    its rank in [classes_], or the sentinel [-1]. *)
Definition sentinel_code (le : LabelEncoder.t) (x : string) : Z :=
  if str_in x (LabelEncoder.classes_ le)
  then Z.of_nat (LabelEncoder.position x (LabelEncoder.classes_ le))
  else -1.

(** The column the server writes back for an encoded column. *)
Definition encode_input_series (le : LabelEncoder.t) (s : Series) : Series :=
  match LabelEncoder.transform le (astype_str s) with
  | Ok codes => SInt codes
  | Raise _ => SInt (repeat (-1) (Series_len s))
  end.

(** How the handlers signal that the artifact is not loaded (the spec's
    ServiceUnavailable kind).  The code has one exception class for every
    failure of a handler; this one is told apart by its [detail]. *)
Definition service_unavailable : exn := HTTPException 500 "Model not loaded".

(** A random computation that returns from every generator state. *)
Definition returns {A : Type} (m : Rand A) : Prop :=
  forall g, exists a g', m g = Ok (a, g').

End Backend.

(** ** A stand-in for the libraries

    Small executable instances of [Libraries] and [Randomness], and a few
    frames, to run the embedding on concrete inputs: a scaler that turns
    cells into floats without centering them; a grid search that refuses, as
    the five-fold [StratifiedKFold] behind [GridSearchCV(cv=5)] does, labels
    none of whose classes has five members, and otherwise answers with a
    classifier that predicts its first class; a splitter that holds out
    every fifth row; a counter in place of the random generators.  No
    general theorem depends on them. *)

Module Demo.

Definition float_of_Z (z : Z) : float :=
  if z <? 0
  then PrimFloat.opp (PrimFloat.of_uint63 (Uint63.of_Z (- z)))
  else PrimFloat.of_uint63 (Uint63.of_Z z).

Definition float_cells (s : Series) : result (list float) :=
  match s with
  | SObject _ => Raise (ValueError "could not convert string to float")
  | SBool l => Ok (map (fun b : bool => if b then 1%float else 0%float) l)
  | SInt l => Ok (map float_of_Z l)
  | SFloat l => Ok l
  end.

Definition to_matrix (X : DataFrame) : result ndarray :=
  columns <- mapM (fun cs => float_cells (snd cs)) X ;;
  let n := match columns with c :: _ => List.length c | [] => O end in
  Ok (map (fun i => map (fun c => nth i c 0%float) columns) (seq 0 n)).

Definition labels_of (y : option Series) : list string :=
  match y with
  | Some (SObject l) =>
      map (fun v => match v with VStr s => s | _ => "" end) l
  | _ => []
  end.

Definition held_out (i : nat) : bool := Nat.eqb (Nat.modulo i 5) 4.

(** [n_splits=5 > y_counts] for every class of [labels]. *)
Definition too_few_for_5_folds (labels : list string) : bool :=
  forallb (fun c => (List.length (filter (String.eqb c) labels) <? 5)%nat)
          (LabelEncoder.sorted_set labels).

#[local] Instance libraries : Libraries := {|
  float_str := fun _ => "0.0";
  StandardScaler := list string;
  StandardScaler_new := [];
  scaler_fit_transform := fun _ X => fmap (fun m => (keys X, m)) (to_matrix X);
  scaler_transform := fun _ X => to_matrix X;
  Classifier := list string;
  grid_search_fit :=
    fun _ y =>
      if too_few_for_5_folds (labels_of y)
      then Raise (ValueError
             "n_splits=5 cannot be greater than the number of members in each class.")
      else Ok (LabelEncoder.sorted_set (labels_of y));
  clf_predict := fun clf X => Ok (map (fun _ => hd "" clf) X);
  clf_predict_proba :=
    fun clf X => Ok (map (fun _ => map (fun _ => 0.5%float) clf) X);
  clf_classes_ := fun clf => clf;
  stratified_split :=
    fun n _ => Ok (filter (fun i => negb (held_out i)) (seq 0 n),
                   filter held_out (seq 0 n));
  Metrics := nat;
  score := fun _ y_pred => List.length y_pred;
  now_isoformat := "2024-01-01T00:00:00"
|}.

#[local] Instance randomness : Randomness := {|
  G := nat;
  randbelow := fun _ g => (g, S g);
  random_random := fun g => (0.5%float, S g);
  np_choice := fun _ g => (g, S g);
  isoformat_days_ago := fun _ g => ("2024-01-01T00:00:00", g);
  round_ndigits := fun x _ => x
|}.

Definition strs (l : list string) : Series := SObject (map VStr l).

(** The scenario of the spec: six rows, one categorical column. *)
Definition scenario_df : DataFrame :=
  [ ("leaf_color", strs ["Green"; "Yellow"; "Green"; "Yellow"; "Yellow"; "Green"]);
    ("label_disease", strs ["Healthy"; "Early_Blight"; "Healthy";
                            "Early_Blight"; "Early_Blight"; "Healthy"]) ].

Definition fit_of (df : DataFrame) : PlantDiseaseModel * (ScaledFrame * option Series) :=
  match preprocess PlantDiseaseModel_init df true with
  | Ok r => r
  | Raise _ => (PlantDiseaseModel_init, (MkScaled [] [], None))
  end.

Definition scenario_model : PlantDiseaseModel :=
  Eval vm_compute in fst (fit_of scenario_df).

(** Ten rows in some of the generator's columns, to run the preprocessing
    on (too few for the five folds of the grid search). *)
Definition train_df : DataFrame :=
  [ ("sample_id", strs ["S1"; "S2"; "S3"; "S4"; "S5"; "S6"; "S7"; "S8"; "S9"; "S10"]);
    ("crop_type", strs ["Tomato"; "Tomato"; "Rice"; "Rice"; "Corn";
                        "Tomato"; "Rice"; "Corn"; "Corn"; "Rice"]);
    ("plant_age_days", SInt [30; 45; 60; 75; 90; 35; 50; 65; 80; 95]);
    ("leaf_color", strs ["Green"; "Green"; "Green"; "Green"; "Purple";
                         "Yellow"; "Yellow"; "Yellow"; "Yellow"; "Brown"]);
    ("lesion_present", SBool [false; false; false; false; false;
                              true; true; false; true; true]);
    ("label_disease", strs ["Healthy"; "Healthy"; "Healthy"; "Healthy"; "Healthy";
                            "Early_Blight"; "Early_Blight"; "Early_Blight";
                            "Early_Blight"; "Early_Blight"]);
    ("severity", strs ["None"; "None"; "None"; "None"; "None";
                       "Mild"; "Severe"; "Mild"; "Moderate"; "Mild"]) ].

Definition train_model : PlantDiseaseModel :=
  Eval vm_compute in fst (fit_of train_df).

(** Twenty plots. *)
Definition field_plots : Series :=
  strs ["Plot_01"; "Plot_02"; "Plot_03"; "Plot_04"; "Plot_05";
        "Plot_06"; "Plot_07"; "Plot_08"; "Plot_09"; "Plot_10";
        "Plot_11"; "Plot_12"; "Plot_13"; "Plot_14"; "Plot_15";
        "Plot_16"; "Plot_17"; "Plot_18"; "Plot_19"; "Plot_20"].

(** Twenty rows, ten of each label, every one from a plot of its own. *)
Definition field_df : DataFrame :=
  [ ("sample_id", strs ["S01"; "S02"; "S03"; "S04"; "S05"; "S06"; "S07"; "S08";
                        "S09"; "S10"; "S11"; "S12"; "S13"; "S14"; "S15"; "S16";
                        "S17"; "S18"; "S19"; "S20"]);
    ("crop_type", strs ["Tomato"; "Tomato"; "Rice"; "Rice"; "Corn";
                        "Tomato"; "Rice"; "Corn"; "Corn"; "Rice";
                        "Tomato"; "Tomato"; "Rice"; "Rice"; "Corn";
                        "Tomato"; "Rice"; "Corn"; "Corn"; "Rice"]);
    ("plant_age_days", SInt [30; 45; 60; 75; 90; 35; 50; 65; 80; 95;
                             32; 47; 62; 77; 92; 37; 52; 67; 82; 97]);
    ("location_region", field_plots);
    ("leaf_color", strs ["Green"; "Green"; "Dark_Green"; "Green"; "Green";
                         "Dark_Green"; "Green"; "Green"; "Dark_Green"; "Green";
                         "Yellow"; "Brown"; "Yellow"; "Yellow"; "Brown";
                         "Yellow"; "Green"; "Yellow"; "Brown"; "Yellow"]);
    ("lesion_present", SBool [false; false; false; false; false;
                              false; false; false; false; false;
                              true; true; false; true; true;
                              true; true; false; true; true]);
    ("label_disease", strs ["Healthy"; "Healthy"; "Healthy"; "Healthy"; "Healthy";
                            "Healthy"; "Healthy"; "Healthy"; "Healthy"; "Healthy";
                            "Early_Blight"; "Early_Blight"; "Early_Blight";
                            "Early_Blight"; "Early_Blight"; "Early_Blight";
                            "Early_Blight"; "Early_Blight"; "Early_Blight";
                            "Early_Blight"]);
    ("severity", strs ["None"; "None"; "None"; "None"; "None";
                       "None"; "None"; "None"; "None"; "None";
                       "Mild"; "Severe"; "Mild"; "Moderate"; "Mild";
                       "Mild"; "Severe"; "Mild"; "Moderate"; "Mild"]) ].

Definition field_run : Artifact * TrainingReport :=
  Eval vm_compute in
    match main field_df with
    | Ok r => r
    | Raise _ => (save_model PlantDiseaseModel_init, MkReport O "" O O)
    end.

(** A request with every feature, one without [plant_age_days], and one
    whose leaf colour was never seen. *)
Definition request : dict value :=
  [ ("crop_type", VStr "Rice"); ("plant_age_days", VInt 40);
    ("leaf_color", VStr "Yellow"); ("lesion_present", VBool true) ].

Definition partial_request : dict value :=
  [ ("leaf_color", VStr "Green"); ("crop_type", VStr "Corn");
    ("lesion_present", VBool false) ].

Definition purple_request : dict value := [ ("leaf_color", VStr "Purple") ].

(** A frame with a text column the scenario model has no encoder for. *)
Definition regional_df : DataFrame :=
  [ ("leaf_color", strs ["Green"; "Yellow"]);
    ("location_region", strs ["North"; "South"]) ].

Definition base_row : Sample.t :=
  Sample.Build "SAMPLE_000001" "2024-01-01T00:00:00" "Tomato" 45 "North"
    6.5 40 25 60 "Yellow" true 5 2.5 "Nitrogen" "" "Early_Blight" "Mild".

(** A row as the generator writes it for a healthy plant. *)
Definition healthy_row : Sample.t :=
  Sample.Build "SAMPLE_000001" "2024-01-01T00:00:00" "Rice" 60 "North"
    6.5 40 25 60 "Green" false 0 0 "None" "" "Healthy" "None".

End Demo.

(** ** The rest of the backend: writing a dataset, the record store

    What the operating system, the clock and the document store provide to
    [generate_dataset] and to the record handlers. *)

Class Environment : Type := {
  (** [os.path.dirname] and [os.makedirs(..., exist_ok=True)]. *)
  dirname : string -> string;
  makedirs : string -> result unit;
  (** [print] of one line: it raises when the standard output refuses the
      text, a [UnicodeEncodeError] for a character its encoding lacks. *)
  print : string -> result unit;
  (** [os.path.abspath] *)
  abspath : string -> result string;
  (** Writing the header and the rows through [csv.DictWriter]. *)
  write_csv : string -> list string -> list Sample.t -> result unit;
  (** [datetime] values, [isoformat] and [datetime.fromisoformat]. *)
  datetime : Type;
  isoformat : datetime -> string;
  fromisoformat : string -> result datetime;
  (** The [$avg] accumulator of the store, on the values of a field. *)
  mongo_avg : list float -> float
}.

(** The body of [SubmissionCreate]: an observation, the predicted label and
    its confidence. *)
Module Submission.

Record t : Type := Build {
  crop_type : string;
  plant_age_days : Z;
  location_region : string;
  soil_ph : float;
  soil_moisture_pct : float;
  ambient_temperature_c : float;
  ambient_humidity_pct : float;
  leaf_color : string;
  lesion_present : bool;
  lesion_count : Z;
  spot_size_mm : float;
  nutrient_deficiency_signs : string;
  predicted_disease : string;
  confidence : float
}.

End Submission.

(** A stored document: [record_obj.model_dump()] with the timestamp as its
    ISO text. *)
Module Document.

Record t : Type := Build {
  id : string;
  fields : Submission.t;
  timestamp : string
}.

End Document.

(** A [SubmissionRecord], and the dict [get_record] returns. *)
Module SubmissionRecord.

Record t {E : Environment} : Type := Build {
  id : string;
  fields : Submission.t;
  timestamp : datetime
}.
Arguments Build {E} id fields timestamp.

End SubmissionRecord.


(** The collection [db.predictions]: its documents in insertion order. *)
Definition Collection : Type := list Document.t.

Section Services.

Context {L : Libraries} {R : Randomness} {E : Environment}.

(** *** dataset.py, [generate_dataset] *)

Definition fieldnames : list string :=
  ["sample_id"; "timestamp"; "crop_type"; "plant_age_days"; "location_region";
   "soil_ph"; "soil_moisture_pct"; "ambient_temperature_c"; "ambient_humidity_pct";
   "leaf_color"; "lesion_present"; "lesion_count"; "spot_size_mm";
   "nutrient_deficiency_signs"; "other_notes"; "label_disease"; "severity"].

(** The [try] block of [generate_dataset]: writing the file, then the two
    lines that report it. *)
Definition write_and_report (num_samples : Z) (output_file : string)
    (samples : list Sample.t) : result unit :=
  _ <- write_csv output_file fieldnames samples ;;
  _ <- print ("✓ Successfully generated " ++ str_int num_samples
              ++ " samples to " ++ output_file) ;;
  location <- abspath output_file ;;
  print ("✓ File location: " ++ location).

(** [generate_dataset]: the samples it returns, or [None] when its [try]
    block raised and the handler could report it.  An exception of
    [os.makedirs], of the first [print] or of the handler's own [print] is
    not caught. *)
Definition generate_dataset (num_samples : Z) (output_file : string)
    : Rand (option (list Sample.t)) :=
  fun g =>
    let output_dir := dirname output_file in
    _ <- (if String.eqb output_dir "" then Ok tt else makedirs output_dir) ;;
    _ <- print ("Generating " ++ str_int num_samples ++ " samples...") ;;
    '(samples, g') <-
       for_each (fun i => generate_sample (Z.of_nat i + 1))
                (seq 0 (Z.to_nat num_samples)) g ;;
    match write_and_report num_samples output_file samples with
    | Ok _ => Ok (Some samples, g')
    | Raise e =>
        _ <- print ("✗ Error writing file: " ++ str_exn e) ;;
        Ok (None, g')
    end.

(** *** server.py, the record handlers

    A handler receives the collection and returns its response (and the
    collection it leaves, when it writes).  [fault] is the exception the
    driver raises during the handler's store calls, if it raises one. *)

Definition driver {A : Type} (fault : option exn) (a : A) : result A :=
  match fault with
  | Some e => Raise e
  | None => Ok a
  end.

(** [except Exception as e: raise HTTPException(500, prefix + str(e))] *)
Definition or_500 {A : Type} (prefix : string) (r : result A) : result A :=
  match r with
  | Ok a => Ok a
  | Raise e => Raise (HTTPException 500 (prefix ++ str_exn e))
  end.

(** The same behind [except HTTPException: raise]. *)
Definition reraise_or_500 {A : Type} (prefix : string) (r : result A) : result A :=
  match r with
  | Raise (HTTPException status_code detail) => Raise (HTTPException status_code detail)
  | _ => or_500 prefix r
  end.

(** [POST /records]; [new_id] and [now] are what [uuid.uuid4()] and
    [datetime.now(timezone.utc)] return. *)
Definition create_record (fault : option exn) (db : Collection)
    (input_data : Submission.t) (new_id : string) (now : datetime)
    : result (SubmissionRecord.t * Collection) :=
  or_500 "Failed to save record: "
    (let record_obj := SubmissionRecord.Build new_id input_data now in
     let doc := Document.Build new_id input_data (isoformat now) in
     db' <- driver fault (db ++ [doc])%list ;;
     Ok (record_obj, db')).

(** [find_one({"id": record_id})] *)
Definition find_one (record_id : string) (db : Collection) : option Document.t :=
  find (fun doc => String.eqb (Document.id doc) record_id) db.

(** [delete_one({"id": record_id})]: [deleted_count] and the collection left. *)
Fixpoint delete_one (record_id : string) (db : Collection) : nat * Collection :=
  match db with
  | [] => (O, [])
  | doc :: rest =>
      if String.eqb (Document.id doc) record_id then (1%nat, rest)
      else let (n, rest') := delete_one record_id rest in (n, doc :: rest')
  end.

(** [GET /records/{record_id}] *)
Definition get_record (fault : option exn) (db : Collection) (record_id : string)
    : result SubmissionRecord.t :=
  reraise_or_500 "Failed to fetch record: "
    (record <- driver fault (find_one record_id db) ;;
     match record with
     | None => Raise (HTTPException 404 "Record not found")
     | Some doc =>
         ts <- fromisoformat (Document.timestamp doc) ;;
         Ok (SubmissionRecord.Build (Document.id doc) (Document.fields doc) ts)
     end).

(** [DELETE /records/{record_id}]: the message, the id, the collection left. *)
Definition delete_record (fault : option exn) (db : Collection) (record_id : string)
    : result (string * string * Collection) :=
  reraise_or_500 "Failed to delete record: "
    ('(deleted_count, db') <- driver fault (delete_one record_id db) ;;
     if Nat.eqb deleted_count 0
     then Raise (HTTPException 404 "Record not found")
     else Ok ("Record deleted successfully", record_id, db')).







(** *** The dataset file as text

    The lines dataset.py writes through [csv.DictWriter], and the lines
    augment_data.py writes through [DataFrame.to_csv] for the frame
    [pd.read_csv] made of them.  A row stands for both the dict the
    generator wrote and the row of the frame: [read_csv] gives every cell
    the value it was written from, except that it reads a text of
    [STR_NA_VALUES] as a missing value; such a cell is kept here as that
    text and written as pandas writes a missing value, empty.  No cell of a
    dataset row holds a comma, a quote or a line break, so none is quoted. *)

Definition CRLF : string := String (ascii_of_nat 13) (String (ascii_of_nat 10) EmptyString).
Definition LF : string := String (ascii_of_nat 10) EmptyString.

(** One line: the cells joined by commas, then the line terminator. *)
Definition csv_line (lineterminator : string) (cells : list string) : string :=
  String.concat "," cells ++ lineterminator.

(** [str] of each value of the dict [generate_sample] returns, in the order
    of [fieldnames]. *)
Definition sample_cells (s : Sample.t) : list string :=
  [ Sample.sample_id s; Sample.timestamp s; Sample.crop_type s;
    str_int (Sample.plant_age_days s); Sample.location_region s;
    float_str (Sample.soil_ph s); float_str (Sample.soil_moisture_pct s);
    float_str (Sample.ambient_temperature_c s);
    float_str (Sample.ambient_humidity_pct s);
    Sample.leaf_color s; str_bool (Sample.lesion_present s);
    str_int (Sample.lesion_count s); float_str (Sample.spot_size_mm s);
    Sample.nutrient_deficiency_signs s; Sample.other_notes s;
    Sample.label_disease s; Sample.severity s ].

(** [writer.writeheader(); writer.writerows(samples)] on a file opened with
    [newline='']: the [csv] module ends every line with CR LF. *)
Definition written_lines (samples : list Sample.t) : list string :=
  csv_line CRLF fieldnames :: map (fun s => csv_line CRLF (sample_cells s)) samples.

(** The texts [pd.read_csv] reads as a missing value. *)
Definition STR_NA_VALUES : list string :=
  [ ""; "#N/A"; "#N/A N/A"; "#NA"; "-1.#IND"; "-1.#QNAN"; "-NaN"; "-nan";
    "1.#IND"; "1.#QNAN"; "<NA>"; "N/A"; "NA"; "NULL"; "NaN"; "None";
    "n/a"; "nan"; "null" ].

(** A text cell of the frame as [to_csv] writes it ([na_rep=''] for a
    missing value). *)
Definition na_rep (cell : string) : string :=
  if str_in cell STR_NA_VALUES then EmptyString else cell.

Definition frame_cells (row : Sample.t) : list string :=
  [ na_rep (Sample.sample_id row); na_rep (Sample.timestamp row);
    na_rep (Sample.crop_type row);
    str_int (Sample.plant_age_days row); na_rep (Sample.location_region row);
    float_str (Sample.soil_ph row); float_str (Sample.soil_moisture_pct row);
    float_str (Sample.ambient_temperature_c row);
    float_str (Sample.ambient_humidity_pct row);
    na_rep (Sample.leaf_color row); str_bool (Sample.lesion_present row);
    str_int (Sample.lesion_count row); float_str (Sample.spot_size_mm row);
    na_rep (Sample.nutrient_deficiency_signs row); na_rep (Sample.other_notes row);
    na_rep (Sample.label_disease row); na_rep (Sample.severity row) ].

(** [final_df.to_csv(output_file, index=False)]: the header and one line a
    row, ended by [os.linesep], a single LF on the POSIX systems the
    script's paths are written for. *)
Definition to_csv_lines (df : list Sample.t) : list string :=
  csv_line LF fieldnames :: map (fun row => csv_line LF (frame_cells row)) df.

(** augment_data.py on a file that dataset.py wrote for [samples], whose
    lines are [written_lines samples]: the lines of the file it writes, or
    [None] when it writes none. *)
Definition augment_file (samples : list Sample.t) (target_size : Z)
    : Rand (option (list string)) :=
  let df := samples in
  rbind (augment_dataset df target_size)
        (fun final_df => ret (option_map to_csv_lines final_df)).

(** *** Vocabulary of the properties *)

(** What one augmented row keeps of the row it was drawn from. *)
Definition derived_from (base_sample row : Sample.t) : Prop :=
  Sample.crop_type row = Sample.crop_type base_sample /\
  Sample.location_region row = Sample.location_region base_sample /\
  Sample.leaf_color row = Sample.leaf_color base_sample /\
  Sample.lesion_present row = Sample.lesion_present base_sample /\
  Sample.nutrient_deficiency_signs row = Sample.nutrient_deficiency_signs base_sample /\
  Sample.other_notes row = Sample.other_notes base_sample /\
  Sample.label_disease row = Sample.label_disease base_sample /\
  Sample.severity row = Sample.severity base_sample /\
  20 <= Sample.plant_age_days row /\
  Sample.plant_age_days base_sample - 10 <= Sample.plant_age_days row /\
  Sample.plant_age_days row <= Z.max 20 (Sample.plant_age_days base_sample + 10) /\
  (if Sample.lesion_present base_sample
   then 0 <= Sample.lesion_count row
   else Sample.lesion_count row = Sample.lesion_count base_sample /\
        Sample.spot_size_mm row = Sample.spot_size_mm base_sample).

(** A dataset numbered the way [generate_dataset] numbers its samples: the
    row at position [i] (from 0) has id [SAMPLE_] followed by [i + 1] on six
    digits. *)
Definition numbered (df : list Sample.t) : Prop :=
  forall i row,
    nth_error df i = Some row ->
    Sample.sample_id row = "SAMPLE_" ++ format_06d (Z.of_nat i + 1).

End Services.

(** ** A stand-in for the environment

    [dirname] cuts a path at its last slash, a directory can always be
    made, a file can be written unless its name is empty, a [datetime] is
    its ISO text, and [$avg] is the arithmetic mean. *)

Module DemoStore.

Fixpoint dirname_of (path : string) : option string :=
  match path with
  | EmptyString => None
  | String c rest =>
      match dirname_of rest with
      | Some d => Some (String c d)
      | None => if Ascii.eqb c "/" then Some EmptyString else None
      end
  end.

#[local] Instance environment : Environment := {|
  dirname := fun path => match dirname_of path with Some d => d | None => EmptyString end;
  makedirs := fun _ => Ok tt;
  print := fun _ => Ok tt;
  abspath := fun path => Ok ("/app/backend/" ++ path);
  write_csv :=
    fun file _ _ =>
      if String.eqb file EmptyString
      then Raise (ValueError "No such file or directory")
      else Ok tt;
  datetime := string;
  isoformat := fun t => t;
  fromisoformat := fun s => Ok s;
  mongo_avg :=
    fun values =>
      PrimFloat.div (fold_right PrimFloat.add 0%float values)
                    (Demo.float_of_Z (Z.of_nat (List.length values)))
|}.

Definition submission (crop disease : string) : Submission.t :=
  Submission.Build crop 45 "North" 6.5 40 25 60 "Yellow" true 5 2.5 "Nitrogen"
    disease 0.5.

(** Three stored records. *)
Definition db : Collection :=
  [ Document.Build "r1" (submission "Tomato" "Early_Blight") "2024-01-01T00:00:00";
    Document.Build "r2" (submission "Rice" "Healthy") "2024-01-05T00:00:00";
    Document.Build "r3" (submission "Tomato" "Early_Blight") "2024-01-09T00:00:00" ].

(** The body of a [POST /predict] request. *)
Definition input : PredictionInput :=
  MkInput "Rice" 40 "North" 6.5 40 25 60 "Yellow" true 5 2.5 "Nitrogen".

(** [Demo.request] with its fields in another order and one more field. *)
Definition request' : dict value :=
  [ ("lesion_present", VBool true); ("leaf_color", VStr "Yellow");
    ("soil_ph", VFloat 6.5); ("plant_age_days", VInt 40);
    ("crop_type", VStr "Rice") ].

End DemoStore.

(* ================================================================== *)
(** * Part II: properties                                              *)
(* ================================================================== *)

Section Properties.

Context {L : Libraries} {R : Randomness}.

(** ** Results and dicts *)

Lemma str_in_iff (x : string) (l : list string) :
  str_in x l = true <-> In x l.
Proof.
  unfold str_in. rewrite existsb_exists. split.
  - intros [y [Hy Heq]]. apply String.eqb_eq in Heq. now subst.
  - intros H. exists x. split; [exact H | apply String.eqb_refl].
Qed.

Lemma str_in_false_iff (x : string) (l : list string) :
  str_in x l = false <-> ~ In x l.
Proof.
  rewrite <- str_in_iff. destruct (str_in x l); split; congruence.
Qed.

Lemma nodupb_sound (l : list string) : nodupb l = true -> NoDup l.
Proof.
  induction l as [| x r IH]; cbn [nodupb]; intros H; constructor.
  - apply andb_prop in H. destruct H as [H _].
    apply negb_true_iff in H. now apply str_in_false_iff.
  - apply IH. apply andb_prop in H. tauto.
Qed.

Lemma dict_get_set_same {V : Type} (k : string) (v : V) (d : dict V) :
  dict_get k (dict_set k v d) = Some v.
Proof.
  induction d as [| [k' v'] d IH]; simpl.
  - now rewrite String.eqb_refl.
  - destruct (String.eqb k' k) eqn:E; simpl; rewrite E; auto.
Qed.

Lemma dict_get_set_other {V : Type} (k k0 : string) (v : V) (d : dict V) :
  k0 <> k -> dict_get k0 (dict_set k v d) = dict_get k0 d.
Proof.
  intros Hne. induction d as [| [k' v'] d IH]; simpl.
  - destruct (String.eqb_spec k k0); congruence.
  - destruct (String.eqb_spec k' k) as [-> | Hk]; simpl.
    + destruct (String.eqb_spec k k0); congruence.
    + destruct (String.eqb_spec k' k0); auto.
Qed.

Lemma keys_dict_set_present {V : Type} (k : string) (v : V) (d : dict V) :
  In k (keys d) -> keys (dict_set k v d) = keys d.
Proof.
  unfold keys. induction d as [| [k' v'] d IH]; simpl; [tauto |].
  intros H. destruct (String.eqb_spec k' k) as [-> | Hk]; simpl; [reflexivity |].
  f_equal. apply IH. destruct H; congruence.
Qed.

Lemma dict_get_Some_In {V : Type} (k : string) (v : V) (d : dict V) :
  dict_get k d = Some v -> In (k, v) d.
Proof.
  induction d as [| [k' v'] d IH]; simpl; [discriminate |].
  destruct (String.eqb_spec k' k) as [-> | Hk]; intros H.
  - left. congruence.
  - right. auto.
Qed.

Lemma dict_get_Some_key {V : Type} (k : string) (v : V) (d : dict V) :
  dict_get k d = Some v -> In k (keys d).
Proof.
  intros H. apply dict_get_Some_In in H.
  unfold keys. change k with (fst (k, v)). now apply in_map.
Qed.

Lemma dict_get_None_iff {V : Type} (k : string) (d : dict V) :
  dict_get k d = None <-> ~ In k (keys d).
Proof.
  unfold keys. induction d as [| [k' v'] d IH]; simpl; [tauto |].
  destruct (String.eqb_spec k' k) as [-> | Hk].
  - split; [discriminate | tauto].
  - rewrite IH. tauto.
Qed.

Lemma In_dict_get {V : Type} (k : string) (v : V) (d : dict V) :
  NoDup (keys d) -> In (k, v) d -> dict_get k d = Some v.
Proof.
  unfold keys. induction d as [| [k' v'] d IH]; simpl; [tauto |].
  intros Hnd [Heq | Hin].
  - inversion Heq; subst. now rewrite String.eqb_refl.
  - inversion Hnd as [| ? ? Hnotin Hnd']; subst.
    destruct (String.eqb_spec k' k) as [-> | Hk]; [| auto].
    exfalso. apply Hnotin. change k with (fst (k, v)). now apply in_map.
Qed.

Lemma dict_mem_iff {V : Type} (k : string) (d : dict V) :
  dict_mem k d = true <-> In k (keys d).
Proof.
  unfold dict_mem. destruct (dict_get k d) eqn:E.
  - split; [intros _; eapply dict_get_Some_key; eauto | reflexivity].
  - apply dict_get_None_iff in E. split; [discriminate | tauto].
Qed.

(** ** The label encoder *)

Lemma insert_unique_In (a v : string) (l : list string) :
  In v (LabelEncoder.insert_unique a l) <-> v = a \/ In v l.
Proof.
  induction l as [| x r IH]; simpl.
  - intuition congruence.
  - destruct (String_as_OT.compare_spec a x) as [Heq | Hlt | Hgt]; simpl.
    + unfold String_as_OT.eq in Heq. subst. intuition congruence.
    + intuition congruence.
    + rewrite IH. intuition congruence.
Qed.

Lemma insert_unique_sorted (a : string) (l : list string) :
  StronglySorted String_as_OT.lt l ->
  StronglySorted String_as_OT.lt (LabelEncoder.insert_unique a l).
Proof.
  induction l as [| x r IH]; simpl; intros Hs.
  - constructor; constructor.
  - inversion Hs as [| ? ? Hr Hx]; subst.
    destruct (String_as_OT.compare_spec a x) as [Heq | Hlt | Hgt].
    + exact Hs.
    + constructor; [exact Hs |].
      constructor; [exact Hlt |].
      eapply Forall_impl; [| exact Hx].
      intros y Hy. eapply (@RelationClasses.StrictOrder_Transitive _ _ String_as_OT.lt_strorder); eauto.
    + constructor; [auto |].
      apply Forall_forall. intros y Hy. apply insert_unique_In in Hy.
      destruct Hy as [-> | Hy]; [exact Hgt |].
      rewrite Forall_forall in Hx. auto.
Qed.

Lemma sorted_set_sorted (y : list string) :
  StronglySorted String_as_OT.lt (LabelEncoder.sorted_set y).
Proof.
  induction y as [| a y IH]; simpl.
  - constructor.
  - now apply insert_unique_sorted.
Qed.

Lemma sorted_set_In (v : string) (y : list string) :
  In v (LabelEncoder.sorted_set y) <-> In v y.
Proof.
  induction y as [| a y IH]; simpl; [tauto |].
  rewrite insert_unique_In, IH. intuition congruence.
Qed.

Lemma sorted_NoDup (l : list string) :
  StronglySorted String_as_OT.lt l -> NoDup l.
Proof.
  induction 1 as [| x r Hr IH Hx]; constructor; auto.
  intros Hin. rewrite Forall_forall in Hx. specialize (Hx x Hin).
  exact (@RelationClasses.StrictOrder_Irreflexive _ _ String_as_OT.lt_strorder x Hx).
Qed.

Lemma position_nth_error (l : list string) (i : nat) (v : string) :
  NoDup l -> nth_error l i = Some v -> LabelEncoder.position v l = i.
Proof.
  revert i. induction l as [| x r IH]; intros i Hnd Hi.
  - destruct i; discriminate.
  - inversion Hnd as [| ? ? Hnotin Hnd']; subst. destruct i as [| i]; simpl in *.
    + inversion Hi; subst. now rewrite String.eqb_refl.
    + destruct (String.eqb_spec x v) as [-> | Hne].
      * exfalso. apply Hnotin. eapply nth_error_In; eauto.
      * f_equal. auto.
Qed.

Lemma nth_error_position (l : list string) (v : string) :
  In v l -> nth_error l (LabelEncoder.position v l) = Some v.
Proof.
  induction l as [| x r IH]; simpl; [tauto |].
  intros H. destruct (String.eqb_spec x v) as [-> | Hne]; simpl; [reflexivity |].
  apply IH. destruct H; congruence.
Qed.

Lemma position_lt (l : list string) (v : string) :
  In v l -> (LabelEncoder.position v l < List.length l)%nat.
Proof.
  intros H. apply nth_error_Some. rewrite (nth_error_position _ _ H). discriminate.
Qed.

Lemma encode1_seen (le : LabelEncoder.t) (v : string) :
  In v (LabelEncoder.classes_ le) ->
  LabelEncoder.encode1 le v =
    Ok (Z.of_nat (LabelEncoder.position v (LabelEncoder.classes_ le))).
Proof.
  intros H. unfold LabelEncoder.encode1.
  apply str_in_iff in H. now rewrite H.
Qed.

Lemma encode1_unseen (le : LabelEncoder.t) (v : string) :
  ~ In v (LabelEncoder.classes_ le) ->
  exists msg, LabelEncoder.encode1 le v = Raise (ValueError msg).
Proof.
  intros H. unfold LabelEncoder.encode1.
  apply str_in_false_iff in H. rewrite H. eauto.
Qed.

Lemma decode1_position (le : LabelEncoder.t) (v : string) :
  In v (LabelEncoder.classes_ le) ->
  LabelEncoder.decode1 le
    (Z.of_nat (LabelEncoder.position v (LabelEncoder.classes_ le))) = Ok v.
Proof.
  intros H. unfold LabelEncoder.decode1.
  pose proof (position_lt _ _ H) as Hlt.
  replace (0 <=? _) with true by (symmetry; apply Z.leb_le; lia).
  replace (_ <? _) with true by (symmetry; apply Z.ltb_lt; lia).
  simpl. rewrite Nat2Z.id. f_equal.
  apply nth_error_nth. now apply nth_error_position.
Qed.

(** ** Frames: dropping and selecting columns *)

Lemma dict_get_filter {V : Type} (f : string -> bool) (k : string) (d : dict V) :
  dict_get k (filter (fun kv => f (fst kv)) d) = if f k then dict_get k d else None.
Proof.
  induction d as [| [k' v'] d IH]; simpl.
  - now destruct (f k).
  - destruct (f k') eqn:Ef; simpl.
    + destruct (String.eqb_spec k' k) as [-> | Hk]; [now rewrite Ef | exact IH].
    + destruct (String.eqb_spec k' k) as [-> | Hk]; [now rewrite Ef in * | exact IH].
Qed.

Lemma NoDup_keys_filter {V : Type} (f : string * V -> bool) (d : dict V) :
  NoDup (keys d) -> NoDup (keys (filter f d)).
Proof.
  unfold keys. induction d as [| kv d IH]; simpl; intros Hnd; [constructor |].
  inversion Hnd as [| ? ? Hnotin Hnd']; subst.
  destruct (f kv); simpl; [constructor |]; auto.
  intros Hin. apply Hnotin. apply in_map_iff in Hin. destruct Hin as [x [Hx Hin]].
  apply filter_In in Hin. apply in_map_iff. exists x. tauto.
Qed.

Lemma dict_get_drop_columns (cols : list string) (k : string) (df : DataFrame) :
  dict_get k (drop_columns cols df) = if str_in k cols then None else dict_get k df.
Proof.
  unfold drop_columns.
  rewrite (dict_get_filter (fun c => negb (str_in c cols))).
  now destruct (str_in k cols).
Qed.

Lemma features_and_target_get (self : PlantDiseaseModel) (df : DataFrame) (col : string) :
  dict_get col (fst (features_and_target self df)) =
    if is_feature self col then dict_get col df else None.
Proof.
  assert (Hdrop : forall k,
    dict_get k (drop_columns (filter (fun c => dict_mem c df) drop_cols) df) =
      if str_in k drop_cols then None else dict_get k df).
  { intros k. rewrite dict_get_drop_columns.
    destruct (str_in k (filter _ drop_cols)) eqn:E1; destruct (str_in k drop_cols) eqn:E2; auto.
    - apply str_in_iff in E1. apply filter_In in E1. destruct E1 as [E1 _].
      apply str_in_iff in E1. congruence.
    - apply str_in_false_iff in E1. apply str_in_iff in E2.
      destruct (dict_get k df) eqn:E3; auto.
      exfalso. apply E1. apply filter_In. split; auto. unfold dict_mem. now rewrite E3. }
  unfold features_and_target, is_feature.
  destruct (dict_mem (target_column self) _) eqn:Et; cbn [fst].
  - rewrite dict_get_drop_columns, Hdrop.
    change (str_in col [target_column self])
      with (String.eqb col (target_column self) || false).
    rewrite orb_false_r.
    destruct (str_in col drop_cols), (String.eqb col (target_column self)); reflexivity.
  - rewrite Hdrop. destruct (str_in col drop_cols) eqn:Ed; cbn [negb andb]; auto.
    destruct (String.eqb_spec col (target_column self)) as [Heq | Hne]; cbn [negb]; auto.
    unfold dict_mem in Et. rewrite Hdrop, <- Heq, Ed in Et.
    destruct (dict_get col df); [discriminate | reflexivity].
Qed.

Lemma features_and_target_NoDup (self : PlantDiseaseModel) (df : DataFrame) :
  NoDup (keys df) -> NoDup (keys (fst (features_and_target self df))).
Proof.
  intros Hnd. unfold features_and_target, drop_columns.
  destruct (dict_mem _ _); simpl; repeat apply NoDup_keys_filter; exact Hnd.
Qed.

Lemma categorical_cols_In (X : DataFrame) (col : string) :
  In col (categorical_cols X) <-> exists s, In (col, s) X /\ is_categorical s = true.
Proof.
  unfold categorical_cols, keys. rewrite in_map_iff. split.
  - intros [[c s] [Hc Hin]]. simpl in Hc. subst. apply filter_In in Hin. eauto.
  - intros [s [Hin Hcat]]. exists (col, s). split; [reflexivity |].
    apply filter_In. auto.
Qed.

Lemma categorical_cols_NoDup (X : DataFrame) :
  NoDup (keys X) -> NoDup (categorical_cols X).
Proof.
  apply NoDup_keys_filter.
Qed.

(** ** Fitting: the loop over the categorical columns *)

Lemma in_keys_get {V : Type} (k : string) (d : dict V) :
  In k (keys d) -> exists v, dict_get k d = Some v.
Proof.
  intros H. destruct (dict_get k d) eqn:E; [eauto |].
  apply dict_get_None_iff in E. contradiction.
Qed.

Lemma foldM_encode_fit (cols : list string) :
  forall (encs : dict LabelEncoder.t) (X : DataFrame),
    NoDup cols ->
    (forall c, In c cols -> In c (keys X)) ->
    exists encs' X',
      foldM (encode_column true) cols (encs, X) = Ok (encs', X') /\
      keys X' = keys X /\
      (forall c s, In c cols -> dict_get c X = Some s ->
         dict_get c encs' = Some (LabelEncoder.fit (astype_str s)) /\
         dict_get c X' =
           Some (SInt (snd (LabelEncoder.fit_transform (astype_str s))))) /\
      (forall c, ~ In c cols ->
         dict_get c encs' = dict_get c encs /\ dict_get c X' = dict_get c X).
Proof.
  induction cols as [| col rest IH]; intros encs X Hnd Hin.
  - exists encs, X. simpl. repeat split; intros; try contradiction; auto.
  - inversion Hnd as [| ? ? Hnotin Hnd']; subst.
    destruct (in_keys_get col X (Hin col (or_introl eq_refl))) as [s0 Hs0].
    pose (le0 := LabelEncoder.fit (astype_str s0)).
    pose (X1 := dict_set col (SInt (snd (LabelEncoder.fit_transform (astype_str s0)))) X).
    assert (Hk1 : keys X1 = keys X).
    { apply keys_dict_set_present. eapply dict_get_Some_key; eauto. }
    destruct (IH (dict_set col le0 encs) X1 Hnd') as (encs' & X' & Hrun & Hkeys & Hdone & Hrest).
    { intros c Hc. rewrite Hk1. apply Hin. now right. }
    exists encs', X'. split; [| split; [| split]].
    + cbn [foldM]. unfold encode_column at 1. rewrite Hs0. cbn [bind]. exact Hrun.
    + congruence.
    + intros c s [-> | Hc] Hget.
      * rewrite Hs0 in Hget. inversion Hget; subst s0.
        destruct (Hrest c Hnotin) as [He Hx]. rewrite He, Hx.
        unfold X1, le0. now rewrite !dict_get_set_same.
      * assert (c <> col) by (intros ->; contradiction).
        apply Hdone; [exact Hc |]. unfold X1. now rewrite dict_get_set_other.
    + intros c Hc.
      assert (Hc' : ~ In c rest) by (intros ?; apply Hc; now right).
      destruct (Hrest c Hc') as [He Hx].
      assert (c <> col) by (intros ->; apply Hc; now left).
      rewrite He, Hx. unfold X1. now rewrite !dict_get_set_other.
Qed.

Lemma encode_features_fit (self : PlantDiseaseModel) (df : DataFrame) :
  NoDup (keys df) ->
  exists encs' X',
    encode_features self df true =
      Ok (MkModel (model self) encs' (scaler self)
                  (Some (keys (fst (features_and_target self df))))
                  (target_column self),
          X', snd (features_and_target self df)) /\
    keys X' = keys (fst (features_and_target self df)) /\
    (forall col s, dict_get col df = Some s -> is_feature self col = true ->
       is_categorical s = true ->
       dict_get col encs' = Some (LabelEncoder.fit (astype_str s)) /\
       dict_get col X' =
         Some (SInt (snd (LabelEncoder.fit_transform (astype_str s))))) /\
    (forall col, ~ In col (categorical_cols (fst (features_and_target self df))) ->
       dict_get col encs' = dict_get col (label_encoders self) /\
       dict_get col X' = dict_get col (fst (features_and_target self df))).
Proof.
  intros Hnd.
  pose proof (features_and_target_NoDup self df Hnd) as HndX.
  pose proof (features_and_target_get self df) as Hget.
  unfold encode_features.
  destruct (features_and_target self df) as [X y]. cbn [fst snd] in *.
  destruct (foldM_encode_fit (categorical_cols X) (label_encoders self) X)
    as (encs' & X' & Hrun & Hkeys & Hdone & Hrest).
  { now apply categorical_cols_NoDup. }
  { intros c Hc. apply categorical_cols_In in Hc. destruct Hc as [s [Hs _]].
    unfold keys. change c with (fst (c, s)). now apply in_map. }
  exists encs', X'. rewrite Hrun. cbn [bind]. repeat split; auto.
  - apply Hdone; [| rewrite Hget, H0; exact H].
    apply categorical_cols_In. exists s. split; [| assumption].
    apply dict_get_Some_In. rewrite Hget, H0. exact H.
  - apply Hdone; [| rewrite Hget, H0; exact H].
    apply categorical_cols_In. exists s. split; [| assumption].
    apply dict_get_Some_In. rewrite Hget, H0. exact H.
  - now apply Hrest.
  - now apply Hrest.
Qed.

Lemma preprocess_fit_inv (self self' : PlantDiseaseModel) (df : DataFrame)
    (Xy : ScaledFrame * option Series) :
  preprocess self df true = Ok (self', Xy) ->
  exists self1 X y sc X_scaled,
    encode_features self df true = Ok (self1, X, y) /\
    scaler_fit_transform (scaler self1) X = Ok (sc, X_scaled) /\
    self' = MkModel (model self1) (label_encoders self1) sc
                    (feature_columns self1) (target_column self1) /\
    Xy = (MkScaled (keys X) X_scaled, y).
Proof.
  unfold preprocess. intros H.
  destruct (encode_features self df true) as [[[self1 X] y] | e]; [| discriminate].
  cbn [bind] in H.
  destruct (scaler_fit_transform (scaler self1) X) as [[sc arr] | e] eqn:Hsc;
    [| discriminate].
  cbn [bind] in H. inversion H; subst.
  exists self1, X, y, sc, arr. repeat split; auto.
Qed.

(** What [preprocess(df, fit=True)] leaves in [self.label_encoders] for a
    categorical feature column. *)
Lemma preprocess_fit_encoder (self self' : PlantDiseaseModel) (df : DataFrame)
    (Xy : ScaledFrame * option Series) (col : string) (s : Series) :
  NoDup (keys df) ->
  preprocess self df true = Ok (self', Xy) ->
  dict_get col df = Some s ->
  is_feature self col = true ->
  is_categorical s = true ->
  dict_get col (label_encoders self') = Some (LabelEncoder.fit (astype_str s)).
Proof.
  intros Hnd Hpre Hget Hfeat Hcat.
  destruct (preprocess_fit_inv _ _ _ _ Hpre) as (self1 & X & y & sc & arr & Henc & _ & -> & _).
  destruct (encode_features_fit self df Hnd) as (encs' & X' & Henc' & _ & Hdone & _).
  rewrite Henc' in Henc. inversion Henc; subst. cbn [label_encoders].
  now apply Hdone.
Qed.

Lemma transform_singleton_seen (le : LabelEncoder.t) (v : string) :
  In v (LabelEncoder.classes_ le) ->
  LabelEncoder.transform le [v] =
    Ok [Z.of_nat (LabelEncoder.position v (LabelEncoder.classes_ le))].
Proof.
  intros H. unfold LabelEncoder.transform. cbn [mapM].
  rewrite (encode1_seen le v H). reflexivity.
Qed.

Lemma transform_nth (le : LabelEncoder.t) (i : nat) (v : string) :
  NoDup (LabelEncoder.classes_ le) ->
  nth_error (LabelEncoder.classes_ le) i = Some v ->
  LabelEncoder.transform le [v] = Ok [Z.of_nat i].
Proof.
  intros Hnd Hi.
  rewrite transform_singleton_seen by (eapply nth_error_In; eauto).
  now rewrite (position_nth_error _ _ _ Hnd Hi).
Qed.

(** C4.  After [preprocess(df, fit=True)], the encoder stored for a
    categorical feature column holds the distinct training values of that
    column in strictly increasing (code point) order, and [transform] sends
    the value at rank [i] of that order to the integer [i]: the [k] distinct
    values get [0..k-1] in sorted order. *)
Theorem label_encoder_sorted_codes
    (self self' : PlantDiseaseModel) (df : DataFrame)
    (Xy : ScaledFrame * option Series) (col : string) (s : Series) :
  NoDup (keys df) ->
  preprocess self df true = Ok (self', Xy) ->
  dict_get col df = Some s ->
  is_feature self col = true ->
  is_categorical s = true ->
  exists le,
    dict_get col (label_encoders self') = Some le /\
    StronglySorted String_as_OT.lt (LabelEncoder.classes_ le) /\
    (forall v, In v (LabelEncoder.classes_ le) <-> In v (astype_str s)) /\
    (forall i v, nth_error (LabelEncoder.classes_ le) i = Some v ->
       LabelEncoder.transform le [v] = Ok [Z.of_nat i]) /\
    (forall v, In v (astype_str s) ->
       exists i, (i < List.length (LabelEncoder.classes_ le))%nat /\
                 LabelEncoder.transform le [v] = Ok [Z.of_nat i]).
Proof.
  intros Hnd Hpre Hget Hfeat Hcat.
  exists (LabelEncoder.fit (astype_str s)).
  pose proof (sorted_set_sorted (astype_str s)) as Hsorted.
  split; [eapply preprocess_fit_encoder; eauto |].
  cbn [LabelEncoder.fit LabelEncoder.classes_].
  split; [exact Hsorted |].
  split; [intros v; apply sorted_set_In |].
  split.
  - intros i v Hi. apply transform_nth; [| exact Hi].
    apply sorted_NoDup. exact Hsorted.
  - intros v Hv. apply sorted_set_In in Hv.
    exists (LabelEncoder.position v (LabelEncoder.sorted_set (astype_str s))).
    split; [now apply position_lt |].
    now apply (transform_singleton_seen (LabelEncoder.Build _)).
Qed.

Lemma inverse_transform_singleton (le : LabelEncoder.t) (v : string) :
  In v (LabelEncoder.classes_ le) ->
  LabelEncoder.inverse_transform le
    [Z.of_nat (LabelEncoder.position v (LabelEncoder.classes_ le))] = Ok [v].
Proof.
  intros H. unfold LabelEncoder.inverse_transform. cbn [mapM].
  rewrite (decode1_position le v H). reflexivity.
Qed.

(** C5.  After [preprocess(df, fit=True)], for a categorical feature column:
    every value of the column encodes to a code whose inverse lookup is that
    value again, and every code [0 <= i < k] decodes to a training value
    that encodes back to [i]. *)
Theorem label_encoding_round_trip
    (self self' : PlantDiseaseModel) (df : DataFrame)
    (Xy : ScaledFrame * option Series) (col : string) (s : Series) :
  NoDup (keys df) ->
  preprocess self df true = Ok (self', Xy) ->
  dict_get col df = Some s ->
  is_feature self col = true ->
  is_categorical s = true ->
  exists le,
    dict_get col (label_encoders self') = Some le /\
    (forall v, In v (astype_str s) ->
       exists i, LabelEncoder.transform le [v] = Ok [i] /\
                 LabelEncoder.inverse_transform le [i] = Ok [v]) /\
    (forall i, 0 <= i < Z.of_nat (List.length (LabelEncoder.classes_ le)) ->
       exists v, In v (astype_str s) /\
                 LabelEncoder.inverse_transform le [i] = Ok [v] /\
                 LabelEncoder.transform le [v] = Ok [i]).
Proof.
  intros Hnd Hpre Hget Hfeat Hcat.
  set (le := LabelEncoder.fit (astype_str s)).
  assert (Hcls : forall v, In v (LabelEncoder.classes_ le) <-> In v (astype_str s))
    by (intros v; apply sorted_set_In).
  assert (Hnd' : NoDup (LabelEncoder.classes_ le))
    by (apply sorted_NoDup, sorted_set_sorted).
  exists le. split; [eapply preprocess_fit_encoder; eauto |]. split.
  - intros v Hv. apply Hcls in Hv.
    exists (Z.of_nat (LabelEncoder.position v (LabelEncoder.classes_ le))).
    split; [now apply transform_singleton_seen | now apply inverse_transform_singleton].
  - intros i Hi.
    destruct (nth_error (LabelEncoder.classes_ le) (Z.to_nat i)) as [v |] eqn:Hv.
    + pose proof (position_nth_error _ _ _ Hnd' Hv) as Hpos.
      assert (Hin : In v (LabelEncoder.classes_ le)) by (eapply nth_error_In; eauto).
      exists v. split; [now apply Hcls |].
      replace i with (Z.of_nat (LabelEncoder.position v (LabelEncoder.classes_ le)))
        by (rewrite Hpos; lia).
      split; [now apply inverse_transform_singleton | now apply transform_singleton_seen].
    + apply nth_error_None in Hv. lia.
Qed.

(** ** The training run *)

Lemma In_take_rows {A : Type} (idx : list nat) (l : list A) (x : A) :
  In x (take_rows idx l) -> In x l.
Proof.
  unfold take_rows. rewrite in_flat_map. intros [i [_ Hx]].
  destruct (nth_error l i) eqn:E; [| contradiction].
  destruct Hx as [<- | []]. eapply nth_error_In; eauto.
Qed.

Lemma map_take_rows {A B : Type} (f : A -> B) (idx : list nat) (l : list A) :
  map f (take_rows idx l) = take_rows idx (map f l).
Proof.
  unfold take_rows. induction idx as [| i idx IH]; [reflexivity |].
  cbn [flat_map]. rewrite map_app, IH. f_equal.
  rewrite nth_error_map. now destruct (nth_error l i).
Qed.

Lemma astype_str_take (idx : list nat) (s : Series) :
  astype_str (Series_take idx s) = take_rows idx (astype_str s).
Proof.
  destruct s; cbn [Series_take astype_str]; apply map_take_rows.
Qed.

Lemma main_inv (df : DataFrame) (art : Artifact) (rep : TrainingReport) :
  main df = Ok (art, rep) ->
  exists model1 X y train_idx test_idx clf,
    preprocess PlantDiseaseModel_init df true = Ok (model1, (X, y)) /\
    stratified_split (List.length (sf_values X)) y = Ok (train_idx, test_idx) /\
    grid_search_fit (take_rows train_idx (sf_values X))
                    (option_map (Series_take train_idx) y) = Ok clf /\
    art = MkArtifact (Some clf) (label_encoders model1) (scaler model1)
                     (feature_columns model1) /\
    train_samples rep = List.length (take_rows train_idx (sf_values X)) /\
    test_samples rep = List.length (take_rows test_idx (sf_values X)).
Proof.
  unfold main. intros H.
  destruct (preprocess PlantDiseaseModel_init df true) as [[model1 [X y]] | e] eqn:Hpre;
    [| discriminate].
  cbn [bind] in H. unfold train_test_split in H.
  destruct (stratified_split (List.length (sf_values X)) y) as [[tr te] | e] eqn:Hsplit;
    [| discriminate].
  cbn [bind] in H. unfold train in H. cbn [sf_values] in H.
  destruct (grid_search_fit _ _) as [clf | e] eqn:Hgs; [| discriminate].
  cbn [bind] in H. unfold evaluate in H. cbn [model sf_values] in H.
  destruct (clf_predict clf _) as [y_pred | e]; [| discriminate].
  cbn [bind] in H. inversion H; subst.
  exists model1, X, y, tr, te, clf. repeat split; auto.
Qed.

(** A fit on the rows [idx] alone. *)

Lemma In_take_rows_inv {A : Type} (idx : list nat) (l : list A) (x : A) :
  In x (take_rows idx l) -> exists j, In j idx /\ nth_error l j = Some x.
Proof.
  unfold take_rows. rewrite in_flat_map. intros [j [Hj Hx]].
  exists j. split; [exact Hj |].
  destruct (nth_error l j) as [y |]; [| contradiction].
  destruct Hx as [<- | []]. reflexivity.
Qed.

Lemma keys_DataFrame_take (idx : list nat) (df : DataFrame) :
  keys (DataFrame_take idx df) = keys df.
Proof.
  unfold keys, DataFrame_take. rewrite map_map. apply map_ext. now intros [k v].
Qed.

Lemma dict_get_DataFrame_take (idx : list nat) (df : DataFrame) (col : string) :
  dict_get col (DataFrame_take idx df) = option_map (Series_take idx) (dict_get col df).
Proof.
  induction df as [| [k v] df IH]; [reflexivity |].
  cbn [DataFrame_take map dict_get fst snd].
  destruct (String.eqb k col); [reflexivity | exact IH].
Qed.

Lemma is_categorical_take (idx : list nat) (s : Series) :
  is_categorical (Series_take idx s) = is_categorical s.
Proof. now destruct s. Qed.

Lemma preprocess_fit_on_rows_encoder
    (self self' : PlantDiseaseModel) (df : DataFrame) (idx : list nat)
    (Xy : ScaledFrame * option Series) (col : string) (s : Series) :
  NoDup (keys df) ->
  preprocess self (DataFrame_take idx df) true = Ok (self', Xy) ->
  dict_get col df = Some s ->
  is_feature self col = true ->
  is_categorical s = true ->
  dict_get col (label_encoders self')
    = Some (LabelEncoder.fit (take_rows idx (astype_str s))).
Proof.
  intros Hnd Hpre Hget Hfeat Hcat.
  rewrite <- astype_str_take.
  apply (preprocess_fit_encoder self self' (DataFrame_take idx df) Xy col); auto.
  - now rewrite keys_DataFrame_take.
  - rewrite dict_get_DataFrame_take, Hget. reflexivity.
  - now rewrite is_categorical_take.
Qed.

(** In a column whose values are pairwise distinct, the value of a row that
    is not among [idx] is unknown to a fit on the rows [idx], and known to
    the fit of a completed run. *)
Lemma held_out_value_marks_the_fit
    (df : DataFrame) (art : Artifact) (rep : TrainingReport)
    (col : string) (s : Series) :
  NoDup (keys df) ->
  main df = Ok (art, rep) ->
  dict_get col df = Some s ->
  is_feature PlantDiseaseModel_init col = true ->
  is_categorical s = true ->
  NoDup (astype_str s) ->
  exists model1 X y train_idx test_idx,
    preprocess PlantDiseaseModel_init df true = Ok (model1, (X, y)) /\
    stratified_split (List.length (sf_values X)) y = Ok (train_idx, test_idx) /\
    art_label_encoders art = label_encoders model1 /\
    forall i model_t Xy_t,
      In i test_idx ->
      ~ In i train_idx ->
      (i < List.length (astype_str s))%nat ->
      preprocess PlantDiseaseModel_init (DataFrame_take train_idx df) true
        = Ok (model_t, Xy_t) ->
      (exists v le le_t,
         nth_error (astype_str s) i = Some v /\
         dict_get col (art_label_encoders art) = Some le /\
         dict_get col (label_encoders model_t) = Some le_t /\
         In v (LabelEncoder.classes_ le) /\
         ~ In v (LabelEncoder.classes_ le_t)) /\
      art_label_encoders art <> label_encoders model_t.
Proof.
  intros Hnd Hmain Hget Hfeat Hcat Hdistinct.
  destruct (main_inv _ _ _ Hmain)
    as (model1 & X & y & tr & te & clf & Hpre & Hsplit & _ & -> & _ & _).
  exists model1, X, y, tr, te.
  split; [exact Hpre |]. split; [exact Hsplit |]. split; [reflexivity |].
  intros i model_t Xy_t _ Hout Hi Hpre_t.
  cbn [art_label_encoders].
  pose proof (preprocess_fit_encoder _ _ _ _ col s Hnd Hpre Hget Hfeat Hcat) as Hle.
  pose proof (preprocess_fit_on_rows_encoder _ _ _ _ _ col s Hnd Hpre_t Hget Hfeat Hcat)
    as Hle_t.
  destruct (nth_error (astype_str s) i) as [v |] eqn:Hv;
    [| apply nth_error_None in Hv; lia].
  assert (Hknown : In v (LabelEncoder.classes_ (LabelEncoder.fit (astype_str s)))).
  { cbn [LabelEncoder.fit LabelEncoder.classes_]. apply sorted_set_In.
    eapply nth_error_In; eauto. }
  assert (Hunknown :
            ~ In v (LabelEncoder.classes_
                      (LabelEncoder.fit (take_rows tr (astype_str s))))).
  { cbn [LabelEncoder.fit LabelEncoder.classes_]. rewrite sorted_set_In.
    intros Hin. apply In_take_rows_inv in Hin. destruct Hin as (j & Hj & Hnth).
    assert (Hij : i = j).
    { apply (proj1 (NoDup_nth_error (astype_str s)) Hdistinct); [exact Hi |].
      now rewrite Hv, Hnth. }
    subst j. contradiction. }
  split.
  - exists v, (LabelEncoder.fit (astype_str s)),
           (LabelEncoder.fit (take_rows tr (astype_str s))).
    repeat split; assumption.
  - intros Heq. rewrite Heq, Hle_t in Hle.
    assert (Hfit : LabelEncoder.fit (take_rows tr (astype_str s))
                   = LabelEncoder.fit (astype_str s)) by congruence.
    apply Hunknown. rewrite Hfit. exact Hknown.
Qed.

(** C1 (amended).  In every training run that completes, the encoders, the
    scaler and the column list of the saved artifact are those that
    [preprocess(df, fit=True)] fitted on the whole loaded dataset, before the
    split: the scaler was fitted on the encoded frame of all rows, and the
    vocabulary of every categorical feature column is the set of that
    column's values over all rows, the rows of the test split included. *)
Theorem main_fits_on_whole_dataset
    (df : DataFrame) (art : Artifact) (rep : TrainingReport) :
  NoDup (keys df) ->
  main df = Ok (art, rep) ->
  exists model1 X_all y X_scaled train_idx test_idx,
    encode_features PlantDiseaseModel_init df true = Ok (model1, X_all, y) /\
    scaler_fit_transform StandardScaler_new X_all = Ok (art_scaler art, X_scaled) /\
    stratified_split (List.length X_scaled) y = Ok (train_idx, test_idx) /\
    art_label_encoders art = label_encoders model1 /\
    art_feature_columns art = Some (keys (fst (features_and_target PlantDiseaseModel_init df))) /\
    forall col s,
      dict_get col df = Some s ->
      is_feature PlantDiseaseModel_init col = true ->
      is_categorical s = true ->
      exists le,
        dict_get col (art_label_encoders art) = Some le /\
        (forall v, In v (LabelEncoder.classes_ le) <-> In v (astype_str s)) /\
        (forall v, In v (astype_str (Series_take test_idx s)) ->
                   In v (LabelEncoder.classes_ le)).
Proof.
  intros Hnd Hmain.
  destruct (main_inv _ _ _ Hmain)
    as (model1 & X & y & tr & te & clf & Hpre & Hsplit & _ & -> & _ & _).
  destruct (preprocess_fit_inv _ _ _ _ Hpre)
    as (self1 & X1 & y1 & sc & arr & Henc & Hsc & -> & HXy).
  inversion HXy; subst X y. cbn [sf_values] in Hsplit.
  destruct (encode_features_fit PlantDiseaseModel_init df Hnd)
    as (encs' & X' & Henc' & _ & Hdone & _).
  pose proof Henc as Henc0. rewrite Henc' in Henc0. inversion Henc0; subst self1 X1 y1.
  cbn [scaler PlantDiseaseModel_init] in Hsc.
  exists (MkModel None encs' StandardScaler_new
            (Some (keys (fst (features_and_target PlantDiseaseModel_init df))))
            "label_disease"),
         X', (snd (features_and_target PlantDiseaseModel_init df)), arr, tr, te.
  cbn [art_scaler art_label_encoders art_feature_columns label_encoders
       feature_columns scaler model target_column PlantDiseaseModel_init] in *.
  repeat split; auto.
  intros col s Hget Hfeat Hcat.
  destruct (Hdone col s Hget Hfeat Hcat) as [Hle _].
  exists (LabelEncoder.fit (astype_str s)). split; [exact Hle |].
  split; [intros v; apply sorted_set_In |].
  intros v Hv. apply sorted_set_In. rewrite astype_str_take in Hv.
  eapply In_take_rows; eauto.
Qed.

(** ** The server's frame: filling, selecting, encoding *)

Lemma dict_ext {V : Type} (d1 d2 : dict V) :
  keys d1 = keys d2 ->
  NoDup (keys d1) ->
  (forall k, In k (keys d1) -> dict_get k d1 = dict_get k d2) ->
  d1 = d2.
Proof.
  unfold keys. revert d2.
  induction d1 as [| [k1 v1] d1 IH]; intros [| [k2 v2] d2] Hk Hnd Hget;
    try discriminate; [reflexivity |].
  cbn [map fst] in Hk. inversion Hk; subst k2.
  inversion Hnd as [| ? ? Hnotin Hnd']; subst.
  pose proof (Hget k1 (or_introl eq_refl)) as Hhd.
  cbn [dict_get] in Hhd. rewrite String.eqb_refl in Hhd. inversion Hhd; subst v2.
  f_equal. apply IH; auto.
  intros k Hin. specialize (Hget k (or_intror Hin)). cbn [dict_get] in Hget.
  destruct (String.eqb_spec k1 k) as [-> | Hne]; [contradiction | exact Hget].
Qed.

Lemma dict_get_of_record (col : string) (d : dict value) :
  dict_get col (DataFrame_of_record d) = option_map series_of_value (dict_get col d).
Proof.
  unfold DataFrame_of_record. induction d as [| [k v] d IH]; [reflexivity |].
  cbn [map dict_get fst snd]. destruct (String.eqb k col); [reflexivity | exact IH].
Qed.

Lemma keys_of_record (d : dict value) : keys (DataFrame_of_record d) = keys d.
Proof.
  unfold DataFrame_of_record, keys. rewrite map_map. reflexivity.
Qed.

Lemma astype_str_of_value (v : value) :
  astype_str (series_of_value v) = [value_str v].
Proof. destruct v; reflexivity. Qed.

Lemma Series_len_of_value (v : value) : Series_len (series_of_value v) = 1%nat.
Proof. destruct v; reflexivity. Qed.

Lemma ensure_columns_get (cols : list string) :
  forall (df : DataFrame) (c : string),
    dict_get c (ensure_columns cols df) =
      match dict_get c df with
      | Some s => Some s
      | None => if str_in c cols then Some (SInt [0]) else None
      end.
Proof.
  induction cols as [| col rest IH]; intros df c.
  - cbn [ensure_columns str_in existsb]. now destruct (dict_get c df).
  - cbn [ensure_columns]. rewrite IH.
    change (str_in c (col :: rest)) with (String.eqb c col || str_in c rest).
    unfold dict_mem. destruct (dict_get col df) as [s0 |] eqn:Hcol.
    + destruct (dict_get c df) eqn:Hc; [reflexivity |].
      destruct (String.eqb_spec c col) as [-> | Hne]; [congruence | reflexivity].
    + destruct (String.eqb_spec c col) as [-> | Hne].
      * now rewrite dict_get_set_same, Hcol.
      * now rewrite dict_get_set_other.
Qed.

Lemma select_columns_ok (cols : list string) (df : DataFrame) :
  (forall c, In c cols -> exists s, dict_get c df = Some s) ->
  exists df',
    select_columns cols df = Ok df' /\
    keys df' = cols /\
    (forall c, In c cols -> dict_get c df' = dict_get c df).
Proof.
  unfold select_columns. induction cols as [| col rest IH]; intros Hall.
  - exists []. repeat split; auto. intros c [].
  - destruct (Hall col (or_introl eq_refl)) as [s Hs].
    destruct IH as (df' & Hrun & Hkeys & Hget).
    { intros c Hc. apply Hall. now right. }
    exists ((col, s) :: df'). cbn [mapM]. rewrite Hs. cbn [bind]. rewrite Hrun.
    cbn [bind]. split; [reflexivity |]. split; [unfold keys in *; cbn; congruence |].
    intros c Hc. cbn [dict_get].
    destruct (String.eqb_spec col c) as [-> | Hne]; [now rewrite Hs |].
    apply Hget. destruct Hc; congruence.
Qed.

Lemma select_features_ok (input_data : dict value) (md : Artifact) (cols : list string) :
  art_feature_columns md = Some cols ->
  exists df,
    select_features input_data md = Ok df /\
    keys df = cols /\
    (forall col, In col cols ->
       dict_get col df =
         match dict_get col input_data with
         | Some v => Some (series_of_value v)
         | None => Some (SInt [0])
         end).
Proof.
  intros Hcols. unfold select_features. rewrite Hcols.
  destruct (select_columns_ok cols (ensure_columns cols (DataFrame_of_record input_data)))
    as (df & Hrun & Hkeys & Hget).
  { intros c Hc. rewrite ensure_columns_get.
    destruct (dict_get c (DataFrame_of_record input_data)); [eauto |].
    apply str_in_iff in Hc. rewrite Hc. eauto. }
  exists df. repeat split; auto.
  intros col Hc. rewrite (Hget col Hc), ensure_columns_get, dict_get_of_record.
  destruct (dict_get col input_data); cbn [option_map]; [reflexivity |].
  apply str_in_iff in Hc. now rewrite Hc.
Qed.

Lemma encode1_raises_ValueError (le : LabelEncoder.t) (v : string) (e : exn) :
  LabelEncoder.encode1 le v = Raise e -> exists msg, e = ValueError msg.
Proof.
  unfold LabelEncoder.encode1. destruct (str_in v _); [discriminate |].
  intros H. inversion H. eauto.
Qed.

Lemma transform_raises_ValueError (le : LabelEncoder.t) (y : list string) (e : exn) :
  LabelEncoder.transform le y = Raise e -> exists msg, e = ValueError msg.
Proof.
  unfold LabelEncoder.transform. induction y as [| v y IH]; [discriminate |].
  cbn [mapM]. destruct (LabelEncoder.encode1 le v) eqn:E1; cbn [bind].
  - destruct (mapM (LabelEncoder.encode1 le) y); cbn [bind]; [discriminate |].
    intros H. inversion H; subst. now apply IH.
  - intros H. inversion H; subst. eapply encode1_raises_ValueError; eauto.
Qed.

Lemma encode_input_column_eq (df : DataFrame) (col : string) (le : LabelEncoder.t) :
  encode_input_column df (col, le) =
    Ok (match dict_get col df with
        | Some s => dict_set col (encode_input_series le s) df
        | None => df
        end).
Proof.
  unfold encode_input_column, encode_input_series.
  destruct (dict_get col df) as [s |]; [| reflexivity].
  destruct (LabelEncoder.transform le (astype_str s)) as [codes | e] eqn:E; [reflexivity |].
  destruct (transform_raises_ValueError _ _ _ E) as [msg ->]. reflexivity.
Qed.

Lemma foldM_encode_input (encoders : dict LabelEncoder.t) :
  forall df : DataFrame,
    NoDup (keys encoders) ->
    exists df',
      foldM encode_input_column encoders df = Ok df' /\
      keys df' = keys df /\
      (forall c,
         dict_get c df' =
           match dict_get c encoders, dict_get c df with
           | Some le, Some s => Some (encode_input_series le s)
           | _, o => o
           end).
Proof.
  induction encoders as [| [col le] rest IH]; intros df Hnd.
  - exists df. repeat split; auto.
  - unfold keys in Hnd. cbn [map fst] in Hnd.
    inversion Hnd as [| ? ? Hnotin Hnd']; subst.
    cbn [foldM]. rewrite encode_input_column_eq. cbn [bind].
    set (df1 := match dict_get col df with
                | Some s => dict_set col (encode_input_series le s) df
                | None => df
                end).
    destruct (IH df1 Hnd') as (df' & Hrun & Hkeys & Hget).
    assert (Hk1 : keys df1 = keys df).
    { unfold df1. destruct (dict_get col df) eqn:E; [| reflexivity].
      apply keys_dict_set_present. eapply dict_get_Some_key; eauto. }
    exists df'. split; [exact Hrun |]. split; [congruence |].
    intros c. rewrite Hget. cbn [dict_get].
    destruct (String.eqb_spec col c) as [<- | Hne].
    + assert (Hnone : dict_get col rest = None) by (now apply dict_get_None_iff).
      rewrite Hnone. unfold df1.
      destruct (dict_get col df) eqn:E; [now rewrite dict_get_set_same | now rewrite E].
    + assert (Hsame : dict_get c df1 = dict_get c df).
      { unfold df1. destruct (dict_get col df); [| reflexivity].
        apply dict_get_set_other. congruence. }
      now rewrite Hsame.
Qed.

Lemma foldM_encode_input_keys (encoders : dict LabelEncoder.t) :
  forall df : DataFrame,
    exists df', foldM encode_input_column encoders df = Ok df' /\ keys df' = keys df.
Proof.
  induction encoders as [| [col le] rest IH]; intros df.
  - exists df. split; reflexivity.
  - cbn [foldM]. rewrite encode_input_column_eq. cbn [bind].
    destruct (IH (match dict_get col df with
                  | Some s => dict_set col (encode_input_series le s) df
                  | None => df
                  end)) as (df' & Hrun & Hkeys).
    exists df'. split; [exact Hrun |]. rewrite Hkeys.
    destruct (dict_get col df) eqn:E; [| reflexivity].
    apply keys_dict_set_present. eapply dict_get_Some_key; eauto.
Qed.

(** C6.  [preprocess_input] builds, before any encoding, a frame whose
    columns are exactly [feature_columns] in that order; a feature column
    the request does not carry holds the integer [0], a column it carries
    holds the request's value; encoding keeps the column order, and the
    result is the scaler applied to that frame. *)
Theorem preprocess_input_fills_missing_in_order
    (input_data : dict value) (md : Artifact) (cols : list string) :
  art_feature_columns md = Some cols ->
  exists df df',
    select_features input_data md = Ok df /\
    keys df = cols /\
    (forall col, In col cols -> dict_get col input_data = None ->
       dict_get col df = Some (SInt [0])) /\
    (forall col v, In col cols -> dict_get col input_data = Some v ->
       dict_get col df = Some (series_of_value v)) /\
    encode_input input_data md = Ok df' /\
    keys df' = cols /\
    preprocess_input input_data md = scaler_transform (art_scaler md) df'.
Proof.
  intros Hcols.
  destruct (select_features_ok input_data md cols Hcols) as (df & Hsel & Hkeys & Hget).
  destruct (foldM_encode_input_keys (art_label_encoders md) df) as (df' & Hrun & Hkeys').
  exists df, df'.
  assert (Henc : encode_input input_data md = Ok df').
  { unfold encode_input. rewrite Hsel. exact Hrun. }
  split; [exact Hsel |]. split; [exact Hkeys |].
  split; [intros col Hin Hnone; rewrite (Hget col Hin), Hnone; reflexivity |].
  split; [intros col v Hin Hsome; rewrite (Hget col Hin), Hsome; reflexivity |].
  split; [exact Henc |]. split; [congruence |].
  unfold preprocess_input. rewrite Henc. reflexivity.
Qed.

(** ** Inference through [preprocess(df, fit=False)] *)

Lemma transform_or_sentinel_eq (le : LabelEncoder.t) (x : string) :
  transform_or_sentinel le x = Ok (sentinel_code le x).
Proof.
  unfold transform_or_sentinel, sentinel_code.
  destruct (str_in x (LabelEncoder.classes_ le)) eqn:E; [| reflexivity].
  apply str_in_iff in E. rewrite (transform_singleton_seen le x E). reflexivity.
Qed.

Lemma mapM_total {A B : Type} (f : A -> result B) (g : A -> B) (l : list A) :
  (forall x, f x = Ok (g x)) -> mapM f l = Ok (map g l).
Proof.
  intros Hf. induction l as [| x l IH]; [reflexivity |].
  cbn [mapM map]. rewrite Hf, IH. reflexivity.
Qed.

Lemma encode_column_nofit_eq (encoders : dict LabelEncoder.t) (X : DataFrame)
    (col : string) (s : Series) :
  dict_get col X = Some s ->
  encode_column false (encoders, X) col =
    Ok (encoders,
        match dict_get col encoders with
        | Some le => dict_set col (SInt (map (sentinel_code le) (astype_str s))) X
        | None => X
        end).
Proof.
  intros Hs. unfold encode_column. rewrite Hs.
  destruct (dict_get col encoders) as [le |]; [| reflexivity].
  rewrite (mapM_total _ _ _ (transform_or_sentinel_eq le)). reflexivity.
Qed.

Lemma foldM_encode_nofit (encoders : dict LabelEncoder.t) (cols : list string) :
  forall X : DataFrame,
    NoDup cols ->
    (forall c, In c cols -> In c (keys X)) ->
    exists X',
      foldM (encode_column false) cols (encoders, X) = Ok (encoders, X') /\
      keys X' = keys X /\
      (forall c s, In c cols -> dict_get c X = Some s ->
         dict_get c X' =
           Some (match dict_get c encoders with
                 | Some le => SInt (map (sentinel_code le) (astype_str s))
                 | None => s
                 end)) /\
      (forall c, ~ In c cols -> dict_get c X' = dict_get c X).
Proof.
  induction cols as [| col rest IH]; intros X Hnd Hin.
  - exists X. simpl. repeat split; intros; try contradiction; auto.
  - inversion Hnd as [| ? ? Hnotin Hnd']; subst.
    destruct (in_keys_get col X (Hin col (or_introl eq_refl))) as [s0 Hs0].
    set (X1 := match dict_get col encoders with
               | Some le => dict_set col (SInt (map (sentinel_code le) (astype_str s0))) X
               | None => X
               end).
    assert (Hk1 : keys X1 = keys X).
    { unfold X1. destruct (dict_get col encoders); [| reflexivity].
      apply keys_dict_set_present. eapply dict_get_Some_key; eauto. }
    assert (Hother : forall c, c <> col -> dict_get c X1 = dict_get c X).
    { intros c Hc. unfold X1. destruct (dict_get col encoders); [| reflexivity].
      now apply dict_get_set_other. }
    destruct (IH X1 Hnd') as (X' & Hrun & Hkeys & Hdone & Hrest).
    { intros c Hc. rewrite Hk1. apply Hin. now right. }
    exists X'. split; [| split; [| split]].
    + cbn [foldM]. rewrite (encode_column_nofit_eq _ _ _ _ Hs0). cbn [bind]. exact Hrun.
    + congruence.
    + intros c s [-> | Hc] Hget.
      * rewrite Hs0 in Hget. inversion Hget; subst s0.
        rewrite (Hrest c Hnotin). unfold X1.
        destruct (dict_get c encoders); [now rewrite dict_get_set_same | exact Hs0].
      * assert (c <> col) by (intros ->; contradiction).
        apply Hdone; [exact Hc |]. now rewrite Hother.
    + intros c Hc.
      assert (Hc' : ~ In c rest) by (intros ?; apply Hc; now right).
      assert (c <> col) by (intros ->; apply Hc; now left).
      rewrite (Hrest c Hc'). now apply Hother.
Qed.

Lemma encode_features_nofit (self : PlantDiseaseModel) (df : DataFrame) :
  NoDup (keys df) ->
  exists X',
    encode_features self df false =
      Ok (self, X', snd (features_and_target self df)) /\
    keys X' = keys (fst (features_and_target self df)) /\
    (forall col s, dict_get col df = Some s -> is_feature self col = true ->
       dict_get col X' =
         Some (if is_categorical s
               then match dict_get col (label_encoders self) with
                    | Some le => SInt (map (sentinel_code le) (astype_str s))
                    | None => s
                    end
               else s)).
Proof.
  intros Hnd.
  pose proof (features_and_target_NoDup self df Hnd) as HndX.
  pose proof (features_and_target_get self df) as Hget.
  unfold encode_features.
  destruct (features_and_target self df) as [X y]. cbn [fst snd] in *.
  destruct (foldM_encode_nofit (label_encoders self) (categorical_cols X) X)
    as (X' & Hrun & Hkeys & Hdone & Hrest).
  { now apply categorical_cols_NoDup. }
  { intros c Hc. apply categorical_cols_In in Hc. destruct Hc as [s [Hs _]].
    unfold keys. change c with (fst (c, s)). now apply in_map. }
  exists X'. rewrite Hrun. cbn [bind]. split; [destruct self; reflexivity |].
  split; [exact Hkeys |].
  intros col s Hs Hfeat.
  assert (HX : dict_get col X = Some s) by (rewrite Hget, Hfeat; exact Hs).
  destruct (is_categorical s) eqn:Hcat.
  - apply Hdone; [| exact HX].
    apply categorical_cols_In. exists s. split; [now apply dict_get_Some_In | exact Hcat].
  - rewrite Hrest; [exact HX |].
    intros Hc. apply categorical_cols_In in Hc. destruct Hc as [s' [Hs' Hcat']].
    rewrite (In_dict_get _ _ _ HndX Hs') in HX. congruence.
Qed.

Lemma preprocess_nofit_eq (self : PlantDiseaseModel) (df : DataFrame)
    (X' : DataFrame) (y : option Series) :
  encode_features self df false = Ok (self, X', y) ->
  preprocess self df false =
    (X_scaled <- scaler_transform (scaler self) X' ;;
     Ok (self, (MkScaled (keys X') X_scaled, y))).
Proof.
  intros H. unfold preprocess. rewrite H. reflexivity.
Qed.

(** C7.  On the [fit=False] path, a categorical feature column for which
    [self.label_encoders] holds no encoder is not encoded: the step returns
    without raising and the frame handed to [scaler.transform] carries that
    column's raw values unchanged. *)
Theorem unfitted_categorical_column_passes_through
    (self : PlantDiseaseModel) (df : DataFrame) (col : string) (s : Series) :
  NoDup (keys df) ->
  dict_get col df = Some s ->
  is_feature self col = true ->
  is_categorical s = true ->
  dict_get col (label_encoders self) = None ->
  exists X' y,
    encode_features self df false = Ok (self, X', y) /\
    dict_get col X' = Some s /\
    preprocess self df false =
      (X_scaled <- scaler_transform (scaler self) X' ;;
       Ok (self, (MkScaled (keys X') X_scaled, y))).
Proof.
  intros Hnd Hget Hfeat Hcat Hnone.
  destruct (encode_features_nofit self df Hnd) as (X' & Henc & _ & Hcols).
  exists X', (snd (features_and_target self df)).
  split; [exact Henc |]. split.
  - rewrite (Hcols col s Hget Hfeat), Hcat, Hnone. reflexivity.
  - now apply preprocess_nofit_eq.
Qed.

(** ** One observation through both paths *)

Lemma encode_input_series_single (le : LabelEncoder.t) (v : value) :
  encode_input_series le (series_of_value v) = SInt [sentinel_code le (value_str v)].
Proof.
  unfold encode_input_series, sentinel_code.
  rewrite astype_str_of_value, Series_len_of_value.
  unfold LabelEncoder.transform, LabelEncoder.encode1. cbn [mapM].
  destruct (str_in (value_str v) (LabelEncoder.classes_ le)); reflexivity.
Qed.

Lemma sentinel_code_unseen (le : LabelEncoder.t) (x : string) :
  ~ In x (LabelEncoder.classes_ le) -> sentinel_code le x = -1.
Proof.
  intros H. unfold sentinel_code. apply str_in_false_iff in H. now rewrite H.
Qed.

(** C3.  A request value [v] of an encoded feature column whose text is not
    in the column's training vocabulary: the server's encoding step returns
    normally and the column holds [-1]; so does the [fit=False] encoding
    step of [preprocess] on the one-row frame of that request when [v] is
    categorical. *)
Theorem unseen_category_encodes_to_sentinel
    (self : PlantDiseaseModel) (input_data : dict value) (cols : list string)
    (col : string) (le : LabelEncoder.t) (v : value) :
  NoDup (keys input_data) ->
  NoDup (keys (label_encoders self)) ->
  feature_columns self = Some cols ->
  In col cols ->
  dict_get col (label_encoders self) = Some le ->
  dict_get col input_data = Some v ->
  ~ In (value_str v) (LabelEncoder.classes_ le) ->
  (exists df',
     encode_input input_data (save_model self) = Ok df' /\
     dict_get col df' = Some (SInt [-1])) /\
  (is_feature self col = true ->
   is_categorical (series_of_value v) = true ->
   exists X' y,
     encode_features self (DataFrame_of_record input_data) false = Ok (self, X', y) /\
     dict_get col X' = Some (SInt [-1])).
Proof.
  intros Hnd Hnde Hcols Hin Hle Hv Hunseen. split.
  - destruct (select_features_ok input_data (save_model self) cols Hcols)
      as (df & Hsel & _ & Hget).
    destruct (foldM_encode_input (art_label_encoders (save_model self)) df Hnde)
      as (df' & Hrun & _ & Hget').
    exists df'. split.
    + unfold encode_input. rewrite Hsel. exact Hrun.
    + rewrite Hget'. cbn [save_model art_label_encoders]. rewrite Hle.
      rewrite (Hget col Hin), Hv, encode_input_series_single.
      now rewrite sentinel_code_unseen.
  - intros Hfeat Hcat.
    destruct (encode_features_nofit self (DataFrame_of_record input_data))
      as (X' & Henc & _ & Hcol).
    { now rewrite keys_of_record. }
    exists X', (snd (features_and_target self (DataFrame_of_record input_data))).
    split; [exact Henc |].
    rewrite (Hcol col (series_of_value v)); [| now rewrite dict_get_of_record, Hv | exact Hfeat].
    rewrite Hcat, Hle, astype_str_of_value. cbn [map].
    now rewrite sentinel_code_unseen.
Qed.

Lemma filter_all {A : Type} (f : A -> bool) (l : list A) :
  (forall x, In x l -> f x = true) -> filter f l = l.
Proof.
  induction l as [| x l IH]; intros H; [reflexivity |].
  cbn [filter]. rewrite (H x (or_introl eq_refl)). f_equal.
  apply IH. intros y Hy. apply H. now right.
Qed.

Lemma filter_none {A : Type} (f : A -> bool) (l : list A) :
  (forall x, In x l -> f x = false) -> filter f l = [].
Proof.
  induction l as [| x l IH]; intros H; [reflexivity |].
  cbn [filter]. rewrite (H x (or_introl eq_refl)).
  apply IH. intros y Hy. apply H. now right.
Qed.

Lemma features_only_frame (self : PlantDiseaseModel) (df : DataFrame) :
  (forall col, In col (keys df) -> is_feature self col = true) ->
  features_and_target self df = (df, None).
Proof.
  intros Hall. unfold features_and_target.
  assert (Hnodrop : filter (fun c => dict_mem c df) drop_cols = []).
  { apply filter_none. intros c Hc.
    destruct (dict_mem c df) eqn:E; [| reflexivity].
    apply dict_mem_iff in E. specialize (Hall c E). unfold is_feature in Hall.
    apply str_in_iff in Hc. rewrite Hc in Hall. discriminate. }
  rewrite Hnodrop.
  assert (Hid : drop_columns [] df = df).
  { unfold drop_columns. apply filter_all. intros x _. reflexivity. }
  rewrite Hid.
  destruct (dict_mem (target_column self) df) eqn:E; [| reflexivity].
  apply dict_mem_iff in E. specialize (Hall _ E). unfold is_feature in Hall.
  rewrite String.eqb_refl, andb_false_r in Hall. discriminate.
Qed.

(** C2.  For one observation whose fields are the fitted feature columns, in
    that order, and whose encoded columns carry categorical values (text or
    booleans, as at training time), the server's [preprocess_input] and the
    trainer's [preprocess(..., fit=False)] on the one-row frame of the same
    observation, with the same encoders, scaler and column list, return the
    same matrix, or raise the same exception of the scaler. *)
Theorem train_serve_preprocessing_agree
    (self : PlantDiseaseModel) (input_data : dict value) :
  NoDup (keys input_data) ->
  NoDup (keys (label_encoders self)) ->
  feature_columns self = Some (keys input_data) ->
  (forall col, In col (keys input_data) -> is_feature self col = true) ->
  (forall col v, dict_get col input_data = Some v ->
     dict_mem col (label_encoders self) = true ->
     is_categorical (series_of_value v) = true) ->
  preprocess_input input_data (save_model self) =
    fmap (fun r => sf_values (fst (snd r)))
         (preprocess self (DataFrame_of_record input_data) false).
Proof.
  intros Hnd Hnde Hcols Hfeat Hschema.
  set (df0 := DataFrame_of_record input_data).
  assert (Hk0 : keys df0 = keys input_data) by apply keys_of_record.
  (* the server's frame *)
  destruct (select_features_ok input_data (save_model self) _ Hcols)
    as (df & Hsel & Hkeys & Hget).
  destruct (foldM_encode_input (art_label_encoders (save_model self)) df Hnde)
    as (df' & Hrun & Hkeys' & Hget').
  assert (Hsrv : encode_input input_data (save_model self) = Ok df').
  { unfold encode_input. rewrite Hsel. exact Hrun. }
  (* the trainer's frame *)
  destruct (encode_features_nofit self df0) as (X' & Henc & HkX & Hcol).
  { now rewrite Hk0. }
  assert (Hfeatures : features_and_target self df0 = (df0, None)).
  { apply features_only_frame. now rewrite Hk0. }
  rewrite Hfeatures in Henc, HkX. cbn [fst snd] in Henc, HkX.
  (* both are the same frame *)
  assert (Hsame : df' = X').
  { apply dict_ext.
    - congruence.
    - rewrite Hkeys', Hkeys. exact Hnd.
    - intros c Hc. rewrite Hkeys', Hkeys in Hc.
      destruct (in_keys_get c input_data Hc) as [v Hv].
      rewrite Hget', (Hget c Hc), Hv.
      rewrite (Hcol c (series_of_value v));
        [| unfold df0; now rewrite dict_get_of_record, Hv | now apply Hfeat].
      cbn [save_model art_label_encoders].
      destruct (dict_get c (label_encoders self)) as [le |] eqn:Hle.
      + rewrite (Hschema c v Hv) by (unfold dict_mem; now rewrite Hle).
        rewrite encode_input_series_single, astype_str_of_value. reflexivity.
      + now destruct (is_categorical (series_of_value v)). }
  unfold preprocess_input. rewrite Hsrv. cbn [bind].
  rewrite (preprocess_nofit_eq self df0 X' None Henc). subst df'.
  cbn [save_model art_scaler].
  destruct (scaler_transform (scaler self) X'); reflexivity.
Qed.

(** ** The prediction service without an artifact *)

(** C8.  While the artifact is not loaded ([model_data] is [None]), [POST
    /predict] and [GET /diseases] raise the "Model not loaded"
    [HTTPException] at once, whatever the request and the treatment table:
    no preprocessing and no prediction takes place. *)
Theorem unloaded_model_is_refused
    (treatments : dict TreatmentInfo) (input_data : PredictionInput) :
  predict_disease None treatments input_data = Raise service_unavailable /\
  get_diseases None = Raise service_unavailable.
Proof.
  split; reflexivity.
Qed.

Lemma loaded_model_failure_is_prediction_failure
    (md : Artifact) (treatments : dict TreatmentInfo) (input_data : PredictionInput)
    (e : exn) :
  predict_disease (Some md) treatments input_data = Raise e ->
  exists cause, e = HTTPException 500 ("Prediction failed: " ++ str_exn cause).
Proof.
  unfold predict_disease.
  destruct (predict_body md treatments input_data) as [r | cause]; [discriminate |].
  intros H. exists cause. now inversion H.
Qed.

(** ** Random computations *)

Lemma rbind_inv {A B : Type} (m : Rand A) (k : A -> Rand B) (g g' : G) (b : B) :
  rbind m k g = Ok (b, g') ->
  exists a g1, m g = Ok (a, g1) /\ k a g1 = Ok (b, g').
Proof.
  unfold rbind. destruct (m g) as [[a g1] | e]; [eauto | discriminate].
Qed.

Lemma ret_inv {A : Type} (a b : A) (g g' : G) :
  ret a g = Ok (b, g') -> a = b /\ g = g'.
Proof.
  unfold ret. intros H. inversion H. auto.
Qed.

Lemma returns_ret {A : Type} (a : A) : returns (ret a).
Proof. intros g. exists a, g. reflexivity. Qed.

Lemma returns_draw {A : Type} (f : G -> A * G) : returns (draw f).
Proof.
  intros g. unfold draw. destruct (f g) as [a g'] eqn:E. exists a, g'. reflexivity.
Qed.

Lemma returns_rbind {A B : Type} (m : Rand A) (k : A -> Rand B) :
  returns m -> (forall a, returns (k a)) -> returns (rbind m k).
Proof.
  intros Hm Hk g. destruct (Hm g) as (a & g1 & Ha).
  destruct (Hk a g1) as (b & g2 & Hb).
  exists b, g2. unfold rbind. now rewrite Ha.
Qed.

Lemma returns_random_choice {A : Type} (x : A) (seq : list A) :
  returns (random_choice (x :: seq)).
Proof.
  unfold random_choice. apply returns_rbind; [apply returns_draw |].
  intros k.
  destruct (nth_error (x :: seq) (Nat.modulo k (List.length (x :: seq)))) eqn:E.
  - apply returns_ret.
  - apply nth_error_None in E.
    pose proof (Nat.mod_upper_bound k (List.length (x :: seq))) as Hlt.
    cbn [List.length] in *. lia.
Qed.

Lemma returns_random_randint (a b : Z) :
  a <= b -> returns (random_randint a b).
Proof.
  intros Hab. unfold random_randint.
  replace (b <? a) with false by (symmetry; apply Z.ltb_ge; lia).
  apply returns_rbind; [apply returns_draw | intros k; apply returns_ret].
Qed.

Lemma returns_random_uniform (a b : float) : returns (random_uniform a b).
Proof.
  unfold random_uniform.
  apply returns_rbind; [apply returns_draw | intros u; apply returns_ret].
Qed.

Lemma returns_for_each {A B : Type} (f : A -> Rand B) (l : list A) :
  (forall x, returns (f x)) ->
  forall g, exists ys g',
    for_each f l g = Ok (ys, g') /\ List.length ys = List.length l.
Proof.
  intros Hf. induction l as [| x l IH]; intros g.
  - exists [], g. split; reflexivity.
  - destruct (Hf x g) as (y & g1 & Hy). destruct (IH g1) as (ys & g2 & Hys & Hlen).
    exists (y :: ys), g2. cbn [for_each]. unfold rbind at 1. rewrite Hy.
    unfold rbind at 1. rewrite Hys. split; [reflexivity | cbn; lia].
Qed.

(** ** The augmenter *)

Lemma returns_sample_row (row : Sample.t) (df : list Sample.t) :
  returns (sample_row (row :: df)).
Proof.
  unfold sample_row. apply returns_rbind; [apply returns_draw |].
  intros k.
  destruct (nth_error (row :: df) (Nat.modulo k (List.length (row :: df)))) eqn:E.
  - apply returns_ret.
  - apply nth_error_None in E.
    pose proof (Nat.mod_upper_bound k (List.length (row :: df))) as Hlt.
    cbn [List.length] in *. lia.
Qed.

Lemma returns_vary_lesions (base_sample : Sample.t) :
  returns (vary_lesions base_sample).
Proof.
  unfold vary_lesions. destruct (Sample.lesion_present base_sample).
  - apply returns_rbind; [apply returns_random_randint; lia |].
    intros dc. apply returns_rbind; [apply returns_random_uniform |].
    intros ds. apply returns_ret.
  - apply returns_ret.
Qed.

Lemma returns_augment_one (row : Sample.t) (df : list Sample.t) (n i : nat) :
  returns (augment_one (row :: df) n i).
Proof.
  unfold augment_one.
  apply returns_rbind; [apply returns_sample_row | intros base_sample].
  apply returns_rbind; [apply returns_random_randint; lia | intros days_ago].
  apply returns_rbind; [apply returns_draw | intros ts].
  apply returns_rbind; [apply returns_random_randint; lia | intros d_age].
  do 4 (apply returns_rbind; [apply returns_random_uniform | intros ?]).
  apply returns_rbind; [apply returns_vary_lesions | intros [lc sz]].
  apply returns_ret.
Qed.

Lemma augment_dataset_appends (df : list Sample.t) (target_size : Z) (g : G) :
  df <> [] ->
  Z.of_nat (List.length df) < target_size ->
  exists augmented_samples g',
    augment_dataset df target_size g = Ok (Some (df ++ augmented_samples)%list, g') /\
    Z.of_nat (List.length augmented_samples) = target_size - Z.of_nat (List.length df).
Proof.
  intros Hne Hlt. unfold augment_dataset.
  replace (Z.of_nat (List.length df) >=? target_size) with false
    by (symmetry; rewrite Z.geb_leb; apply Z.leb_gt; lia).
  destruct df as [| row rest]; [congruence |].
  destruct (returns_for_each (augment_one (row :: rest) (List.length (row :: rest)))
              (seq 0 (Z.to_nat (target_size - Z.of_nat (List.length (row :: rest)))))
              (fun i => returns_augment_one row rest _ i) g)
    as (ys & g' & Hrun & Hlen).
  exists ys, g'. unfold rbind. rewrite Hrun. split; [reflexivity |].
  rewrite Hlen, length_seq. lia.
Qed.

(** C9 (amended).  An augmentation run on a dataset of 100 rows with target
    size 150 returns, writes a dataset of exactly 150 rows, and the first
    100 rows written are the 100 rows read, value for value and in the same
    order. *)
Theorem augment_100_to_150 (df : list Sample.t) (g : G) :
  List.length df = 100%nat ->
  exists final_df g',
    augment_dataset df 150 g = Ok (Some final_df, g') /\
    List.length final_df = 150%nat /\
    firstn 100 final_df = df.
Proof.
  intros Hlen.
  destruct (augment_dataset_appends df 150 g) as (extra & g' & Hrun & Hextra).
  { intros ->. discriminate. }
  { lia. }
  exists (df ++ extra)%list, g'. split; [exact Hrun |]. split.
  - rewrite length_app. lia.
  - rewrite <- Hlen, firstn_app, firstn_all, Nat.sub_diag. cbn [firstn].
    apply app_nil_r.
Qed.

(** ** The bytes of the two files *)

Lemma string_length_app (a b : string) :
  String.length (a ++ b) = (String.length a + String.length b)%nat.
Proof.
  induction a as [| x a IH]; [reflexivity |]. cbn [append String.length]. now rewrite IH.
Qed.

Lemma string_app_assoc (a b c : string) : ((a ++ b) ++ c = a ++ b ++ c)%string.
Proof.
  induction a as [| x a IH]; [reflexivity |]. cbn [append]. now rewrite IH.
Qed.

(** Two texts that are equal end alike. *)
Lemma append_suffix_inj (a b t1 t2 : string) :
  String.length t1 = String.length t2 ->
  (a ++ t1 = b ++ t2)%string -> t1 = t2.
Proof.
  revert b. induction a as [| x a IH]; intros [| y b] Hlen H; cbn [append] in H.
  - exact H.
  - exfalso. rewrite H in Hlen. cbn [String.length] in Hlen.
    rewrite string_length_app in Hlen. lia.
  - exfalso. rewrite <- H in Hlen. cbn [String.length] in Hlen.
    rewrite string_length_app in Hlen. lia.
  - inversion H. eauto.
Qed.

Lemma csv_line_snoc (lineterminator : string) (init : list string) (c : string) :
  init <> [] ->
  csv_line lineterminator (init ++ [c])
    = (String.concat "," init ++ "," ++ c ++ lineterminator)%string.
Proof.
  unfold csv_line. induction init as [| x init IH]; [congruence |]. intros _.
  destruct init as [| y init].
  - cbn [Datatypes.app String.concat]. now rewrite !string_app_assoc.
  - specialize (IH ltac:(discriminate)).
    change (String.concat "," ((x :: y :: init) ++ [c]))
      with (x ++ "," ++ String.concat "," ((y :: init) ++ [c]))%string.
    change (String.concat "," (x :: y :: init))
      with (x ++ "," ++ String.concat "," (y :: init))%string.
    rewrite !string_app_assoc. rewrite IH. reflexivity.
Qed.

(** The line [to_csv] writes for a row whose severity was read as missing
    ends with a comma and LF; every line the [csv] module wrote ends with
    CR LF. *)
Lemma to_csv_line_is_not_a_written_line (row s : Sample.t) :
  str_in (Sample.severity row) STR_NA_VALUES = true ->
  csv_line LF (frame_cells row) <> csv_line CRLF (sample_cells s).
Proof.
  intros Hna Heq.
  assert (Hcells : frame_cells row
                   = (removelast (frame_cells row) ++ [na_rep (Sample.severity row)])%list)
    by reflexivity.
  rewrite Hcells in Heq. rewrite csv_line_snoc in Heq by discriminate.
  unfold na_rep in Heq. rewrite Hna in Heq.
  unfold csv_line at 1 in Heq.
  change ("," ++ EmptyString ++ LF)%string
    with (String "," (String (ascii_of_nat 10) EmptyString)) in Heq.
  apply append_suffix_inj in Heq; [| reflexivity].
  discriminate Heq.
Qed.

(** On a file of 100 rows that dataset.py wrote, the first of them for a
    healthy plant, the output file has 151 lines and its first 100 data
    lines are not the 100 data lines of the input file. *)
Lemma augment_file_rewrites_the_rows (df : list Sample.t) (row : Sample.t) (g : G) :
  List.length df = 100%nat ->
  hd_error df = Some row ->
  str_in (Sample.severity row) STR_NA_VALUES = true ->
  exists output_lines g',
    augment_file df 150 g = Ok (Some output_lines, g') /\
    List.length output_lines = 151%nat /\
    firstn 100 (tl output_lines) <> tl (written_lines df).
Proof.
  intros Hlen Hhd Hna.
  destruct (augment_dataset_appends df 150 g) as (extra & g' & Hrun & Hextra).
  { intros ->. discriminate. }
  { lia. }
  exists (to_csv_lines (df ++ extra)), g'.
  split; [unfold augment_file, rbind; rewrite Hrun; reflexivity |].
  unfold to_csv_lines, written_lines. cbn [tl List.length].
  split; [rewrite length_map, length_app; lia |].
  rewrite firstn_map, <- Hlen, firstn_app, firstn_all, Nat.sub_diag.
  cbn [firstn]. rewrite app_nil_r.
  destruct df as [| row0 rest]; [discriminate |].
  cbn [hd_error] in Hhd. inversion Hhd; subst row0.
  cbn [map]. intros Heq. injection Heq as Hline _.
  exact (to_csv_line_is_not_a_written_line row row Hna Hline).
Qed.

(** ** The generator *)

Lemma returns_getitem {V : Type} (k : string) (d : dict V) (v : V) :
  dict_get k d = Some v -> returns (getitem k d).
Proof.
  intros H. unfold getitem. rewrite H. apply returns_ret.
Qed.

Lemma returns_rbind_ret {A B : Type} (a : A) (k : A -> Rand B) :
  returns (k a) -> returns (rbind (ret a) k).
Proof.
  intros H g. exact (H g).
Qed.

Lemma returns_rbind_post {A B : Type} (m : Rand A) (k : A -> Rand B) (P : A -> Prop) :
  returns m ->
  (forall a g g', m g = Ok (a, g') -> P a) ->
  (forall a, P a -> returns (k a)) ->
  returns (rbind m k).
Proof.
  intros Hm HP Hk g. destruct (Hm g) as (a & g1 & Ha).
  destruct (Hk a (HP a g g1 Ha) g1) as (b & g2 & Hb).
  exists b, g2. unfold rbind. now rewrite Ha.
Qed.

Lemma random_choice_In {A : Type} (seq : list A) (x : A) (g g' : G) :
  random_choice seq g = Ok (x, g') -> In x seq.
Proof.
  unfold random_choice. intros H. apply rbind_inv in H.
  destruct H as (k & g1 & _ & H).
  destruct (nth_error seq (Nat.modulo k (List.length seq))) as [y |] eqn:E;
    [| discriminate].
  apply ret_inv in H. destruct H as [-> _]. eapply nth_error_In; eauto.
Qed.

Lemma returns_rounded_uniform (a b : float) (ndigits : Z) :
  returns (rounded_uniform a b ndigits).
Proof.
  unfold rounded_uniform.
  apply returns_rbind; [apply returns_random_uniform | intros x; apply returns_ret].
Qed.

Lemma returns_visual_observations (is_healthy : bool) :
  returns (visual_observations is_healthy).
Proof.
  assert (Hh : dict_get "Healthy" LEAF_COLORS = Some ["Dark_Green"; "Green"])
    by reflexivity.
  assert (Hd : dict_get "Diseased" LEAF_COLORS =
               Some ["Yellow"; "Yellow_Green"; "Brown"; "Light_Green"; "Pale_Green"])
    by reflexivity.
  unfold visual_observations, getitem. rewrite Hh. destruct is_healthy.
  - apply returns_rbind_ret.
    apply returns_rbind; [apply returns_random_choice | intros leaf].
    cbn [tl NUTRIENT_DEFICIENCY].
    apply returns_rbind; [apply returns_random_choice | intros deficiency].
    apply returns_rbind; [apply returns_random_choice | intros nutrient].
    apply returns_ret.
  - rewrite Hd. apply returns_rbind_ret. apply returns_rbind_ret.
    cbn [app].
    apply returns_rbind; [apply returns_random_choice | intros leaf].
    apply returns_rbind; [apply returns_random_choice | intros lesion].
    apply returns_rbind.
    { destruct lesion; [apply returns_random_randint; lia | apply returns_ret]. }
    intros lesion_count. apply returns_rbind.
    { destruct lesion; [apply returns_rounded_uniform | apply returns_ret]. }
    intros spot_size.
    apply returns_rbind; [apply returns_random_choice | intros nutrient].
    apply returns_rbind; [apply returns_random_choice | intros sev].
    apply returns_ret.
Qed.

Lemma generate_sample_returns (sample_id : Z) : returns (generate_sample sample_id).
Proof.
  unfold generate_sample.
  apply returns_rbind_post with (P := fun c => In c (keys CROPS_DISEASES)).
  { apply returns_random_choice. }
  { intros a g g'. apply random_choice_In. }
  intros crop Hcrop.
  assert (Hdiseases : exists d ds, dict_get crop CROPS_DISEASES = Some (d :: ds)).
  { cbn in Hcrop. repeat (destruct Hcrop as [<- | Hcrop]; [cbn; eauto |]). contradiction. }
  destruct Hdiseases as (d & ds & Hd).
  unfold getitem. rewrite Hd. apply returns_rbind_ret.
  apply returns_rbind; [apply returns_random_choice | intros disease].
  apply returns_rbind; [apply returns_random_randint; lia | intros days_ago].
  apply returns_rbind; [apply returns_draw | intros ts].
  apply returns_rbind; [apply returns_random_randint; lia | intros age].
  apply returns_rbind; [apply returns_random_choice | intros region].
  do 4 (apply returns_rbind; [apply returns_rounded_uniform | intros ?]).
  apply returns_rbind; [apply returns_visual_observations |].
  intros [[[[[leaf lesion] lc] sz] nd] sev]. apply returns_ret.
Qed.

Lemma healthy_observations (g g' : G)
    (leaf : string) (lesion : bool) (lc : Z) (sz : float) (nd sev : string) :
  visual_observations true g = Ok ((leaf, lesion, lc, sz, nd, sev), g') ->
  lesion = false /\ lc = 0 /\ sz = 0%float /\ sev = "None".
Proof.
  unfold visual_observations. intros H.
  repeat (apply rbind_inv in H; destruct H as (? & ? & _ & H)).
  apply ret_inv in H. destruct H as [H _]. inversion H. auto.
Qed.

(** C10.  [generate_sample] returns a sample from every generator state,
    and a sample it returns with label ["Healthy"] has [lesion_present]
    false, [lesion_count] 0, [spot_size_mm] 0.0 and [severity] ["None"]. *)
Theorem healthy_sample_has_no_lesions (sample_id : Z) (g : G) :
  (exists s g', generate_sample sample_id g = Ok (s, g')) /\
  (forall s g',
     generate_sample sample_id g = Ok (s, g') ->
     Sample.label_disease s = "Healthy" ->
     Sample.lesion_present s = false /\
     Sample.lesion_count s = 0 /\
     Sample.spot_size_mm s = 0%float /\
     Sample.severity s = "None").
Proof.
  split; [apply generate_sample_returns |].
  intros s g' H Hlabel. unfold generate_sample in H.
  do 11 (apply rbind_inv in H; destruct H as (? & ? & _ & H)).
  apply rbind_inv in H. destruct H as ([[[[[leaf lesion] lc] sz] nd] sev] & g1 & Hvis & H).
  apply ret_inv in H. destruct H as [<- _].
  cbn [Sample.label_disease Sample.lesion_present Sample.lesion_count
       Sample.spot_size_mm Sample.severity] in *.
  subst. cbn [String.eqb Ascii.eqb Bool.eqb] in Hvis.
  eapply healthy_observations; eauto.
Qed.

End Properties.

(** * Further properties of the backend *)

Section MoreProperties.

Context {L : Libraries} {R : Randomness} {E : Environment}.

(** ** The trainer's pipeline *)

Lemma keys_filter_fst {V : Type} (f : string -> bool) (d : dict V) :
  keys (filter (fun kv => f (fst kv)) d) = filter f (keys d).
Proof.
  unfold keys. induction d as [| [k v] d IH]; [reflexivity |].
  cbn [filter map fst]. destruct (f k); cbn [map fst]; now rewrite IH.
Qed.

Lemma filter_filter_and {A : Type} (f g : A -> bool) (l : list A) :
  filter f (filter g l) = filter (fun x => g x && f x) l.
Proof.
  induction l as [| x l IH]; [reflexivity |].
  cbn [filter]. destruct (g x); cbn [filter andb]; [destruct (f x) |]; now rewrite IH.
Qed.

Lemma features_keys (self : PlantDiseaseModel) (df : DataFrame) :
  keys (fst (features_and_target self df)) = filter (is_feature self) (keys df).
Proof.
  assert (Hdropped :
    keys (drop_columns (filter (fun c => dict_mem c df) drop_cols) df) =
    filter (fun c => negb (str_in c drop_cols)) (keys df)).
  { unfold drop_columns.
    rewrite (keys_filter_fst (fun c => negb (str_in c (filter _ drop_cols)))).
    apply filter_ext_in. intros c Hc. f_equal.
    destruct (str_in c drop_cols) eqn:Ed.
    - apply str_in_iff. apply filter_In. split; [now apply str_in_iff |].
      now apply dict_mem_iff.
    - apply str_in_false_iff. intros Hin. apply filter_In in Hin.
      apply str_in_false_iff in Ed. tauto. }
  unfold features_and_target.
  destruct (dict_mem (target_column self) _) eqn:Et; cbn [fst].
  - unfold drop_columns at 1.
    rewrite (keys_filter_fst (fun c => negb (str_in c [target_column self]))).
    rewrite Hdropped, filter_filter_and.
    apply filter_ext. intros c. unfold is_feature.
    change (str_in c [target_column self])
      with (String.eqb c (target_column self) || false).
    now rewrite orb_false_r.
  - rewrite Hdropped. apply filter_ext_in. intros c Hc. unfold is_feature.
    destruct (str_in c drop_cols) eqn:Ed; [reflexivity |]. cbn [negb andb].
    destruct (String.eqb_spec c (target_column self)) as [-> | Hne]; [| reflexivity].
    exfalso. assert (Hmem : dict_mem (target_column self)
      (drop_columns (filter (fun c => dict_mem c df) drop_cols) df) = true).
    { apply dict_mem_iff. rewrite Hdropped. apply filter_In. now rewrite Ed. }
    congruence.
Qed.

(** X1.  [preprocess(df, fit=True)] stores as [feature_columns] the columns
    of [df], in their order, without [sample_id], [timestamp],
    [other_notes], [severity] and the target column; the scaled frame it
    returns has the same columns, and [y] is the target column of [df]. *)
Theorem fit_captures_feature_columns
    (self self' : PlantDiseaseModel) (df : DataFrame)
    (X : ScaledFrame) (y : option Series) :
  NoDup (keys df) ->
  preprocess self df true = Ok (self', (X, y)) ->
  feature_columns self' = Some (filter (is_feature self) (keys df)) /\
  sf_columns X = filter (is_feature self) (keys df) /\
  y = (if str_in (target_column self) drop_cols then None
       else dict_get (target_column self) df).
Proof.
  intros Hnd Hpre.
  destruct (preprocess_fit_inv _ _ _ _ Hpre)
    as (self1 & X1 & y1 & sc & arr & Henc & _ & -> & HXy).
  destruct (encode_features_fit self df Hnd) as (encs' & X' & Henc' & Hkeys & _ & _).
  rewrite Henc' in Henc. inversion Henc; subst self1 X1 y1. inversion HXy; subst X y.
  cbn [feature_columns sf_columns]. rewrite Hkeys, features_keys.
  repeat split.
  unfold features_and_target.
  assert (Hdrop : forall k,
    dict_get k (drop_columns (filter (fun c => dict_mem c df) drop_cols) df) =
      if str_in k drop_cols then None else dict_get k df).
  { intros k. pose proof (features_and_target_get self df k) as Hget.
    rewrite dict_get_drop_columns.
    destruct (str_in k (filter _ drop_cols)) eqn:E1; destruct (str_in k drop_cols) eqn:E2; auto.
    - apply str_in_iff in E1. apply filter_In in E1. destruct E1 as [E1 _].
      apply str_in_iff in E1. congruence.
    - apply str_in_false_iff in E1. apply str_in_iff in E2.
      destruct (dict_get k df) eqn:E3; auto.
      exfalso. apply E1. apply filter_In. split; auto. unfold dict_mem. now rewrite E3. }
  unfold dict_mem. rewrite Hdrop.
  destruct (str_in (target_column self) drop_cols); cbn [snd]; [reflexivity |].
  destruct (dict_get (target_column self) df) eqn:Ey; cbn [snd]; reflexivity.
Qed.

Lemma position_inj (l : list string) (v w : string) :
  In v l -> LabelEncoder.position v l = LabelEncoder.position w l -> v = w.
Proof.
  induction l as [| x r IH]; cbn [In LabelEncoder.position]; [tauto |].
  intros Hin Heq.
  destruct (String.eqb_spec x v) as [Hv | Hv]; destruct (String.eqb_spec x w) as [Hw | Hw];
    try discriminate; [congruence |].
  apply IH; [destruct Hin; congruence | congruence].
Qed.

Lemma astype_str_length (s : Series) : List.length (astype_str s) = Series_len s.
Proof. destruct s; cbn [astype_str Series_len]; apply length_map. Qed.

Lemma sentinel_codes_of_training_values (ys : list string) :
  map (sentinel_code (LabelEncoder.fit ys)) ys = snd (LabelEncoder.fit_transform ys).
Proof.
  unfold LabelEncoder.fit_transform. cbn [snd].
  apply map_ext_in. intros v Hv. unfold sentinel_code.
  assert (Hin : In v (LabelEncoder.classes_ (LabelEncoder.fit ys)))
    by (now apply sorted_set_In).
  apply str_in_iff in Hin. now rewrite Hin.
Qed.

Lemma not_categorical_col (X : DataFrame) (col : string) (s : Series) :
  NoDup (keys X) ->
  dict_get col X = Some s ->
  is_categorical s = false ->
  ~ In col (categorical_cols X).
Proof.
  intros Hnd Hget Hcat Hin. apply categorical_cols_In in Hin.
  destruct Hin as (s' & Hs' & Hcat'). rewrite (In_dict_get _ _ _ Hnd Hs') in Hget.
  congruence.
Qed.

(** The frame [preprocess(df, fit=True)] fits the scaler on. *)
Lemma preprocess_fit_frame
    (self self' : PlantDiseaseModel) (df : DataFrame) (r : ScaledFrame * option Series) :
  NoDup (keys df) ->
  preprocess self df true = Ok (self', r) ->
  exists X',
    scaler_fit_transform (scaler self) X' = Ok (scaler self', sf_values (fst r)) /\
    keys X' = sf_columns (fst r) /\
    keys X' = keys (fst (features_and_target self df)) /\
    snd r = snd (features_and_target self df) /\
    target_column self' = target_column self /\
    (forall col s, dict_get col df = Some s -> is_feature self col = true ->
       is_categorical s = true ->
       dict_get col (label_encoders self') = Some (LabelEncoder.fit (astype_str s)) /\
       dict_get col X' =
         Some (SInt (snd (LabelEncoder.fit_transform (astype_str s))))) /\
    (forall col s, dict_get col df = Some s -> is_feature self col = true ->
       is_categorical s = false -> dict_get col X' = Some s).
Proof.
  intros Hnd Hpre.
  destruct (preprocess_fit_inv _ _ _ _ Hpre)
    as (self1 & X1 & y1 & sc & arr & Henc & Hsc & -> & ->).
  destruct (encode_features_fit self df Hnd) as (encs' & X' & Henc' & Hkeys & Hdone & Hrest).
  rewrite Henc' in Henc. inversion Henc; subst self1 X1 y1.
  cbn [scaler label_encoders target_column fst snd sf_values sf_columns] in *.
  exists X'. repeat split; auto.
  - now apply Hdone.
  - now apply Hdone.
  - intros col s Hget Hfeat Hcat.
    assert (HX : dict_get col (fst (features_and_target self df)) = Some s)
      by (rewrite features_and_target_get, Hfeat; exact Hget).
    destruct (Hrest col) as [_ Hsame]; [| now rewrite Hsame].
    eapply not_categorical_col; eauto. now apply features_and_target_NoDup.
Qed.

(** X2.  In the frame [preprocess(df, fit=True)] fits the scaler on, a
    categorical feature column holds one code per row, every code lies in
    [0..k-1] for the [k] classes of the column's encoder, and two rows have
    the same code exactly when they have the same text; a numeric feature
    column is handed over unchanged. *)
Theorem fit_encodes_training_rows
    (self self' : PlantDiseaseModel) (df : DataFrame)
    (r : ScaledFrame * option Series) (col : string) (s : Series) :
  NoDup (keys df) ->
  preprocess self df true = Ok (self', r) ->
  dict_get col df = Some s ->
  is_feature self col = true ->
  exists X',
    scaler_fit_transform (scaler self) X' = Ok (scaler self', sf_values (fst r)) /\
    if is_categorical s then
      exists le codes,
        dict_get col (label_encoders self') = Some le /\
        dict_get col X' = Some (SInt codes) /\
        List.length codes = Series_len s /\
        Forall (fun c => 0 <= c < Z.of_nat (List.length (LabelEncoder.classes_ le))) codes /\
        (forall i j vi vj ci cj,
           nth_error (astype_str s) i = Some vi ->
           nth_error (astype_str s) j = Some vj ->
           nth_error codes i = Some ci ->
           nth_error codes j = Some cj ->
           (ci = cj <-> vi = vj))
    else dict_get col X' = Some s.
Proof.
  intros Hnd Hpre Hget Hfeat.
  destruct (preprocess_fit_frame _ _ _ _ Hnd Hpre)
    as (X' & Hsc & _ & _ & _ & _ & Hcat & Hnum).
  exists X'. split; [exact Hsc |].
  destruct (is_categorical s) eqn:Hs; [| now apply Hnum].
  destruct (Hcat col s Hget Hfeat Hs) as [Hle HX].
  set (classes := LabelEncoder.sorted_set (astype_str s)).
  assert (Hmem : forall v, In v (astype_str s) -> In v classes)
    by (intros v; apply sorted_set_In).
  exists (LabelEncoder.fit (astype_str s)),
         (snd (LabelEncoder.fit_transform (astype_str s))).
  split; [exact Hle |]. split; [exact HX |].
  unfold LabelEncoder.fit_transform. cbn [snd LabelEncoder.fit LabelEncoder.classes_].
  fold classes. split; [| split].
  - now rewrite length_map, astype_str_length.
  - apply Forall_forall. intros c Hc. apply in_map_iff in Hc.
    destruct Hc as (v & <- & Hv). pose proof (position_lt _ _ (Hmem v Hv)). lia.
  - intros i j vi vj ci cj Hi Hj Hci Hcj.
    rewrite nth_error_map, Hi in Hci. rewrite nth_error_map, Hj in Hcj.
    cbn [option_map] in Hci, Hcj. inversion Hci; inversion Hcj; subst ci cj.
    split.
    + intros Heq. apply Nat2Z.inj in Heq.
      eapply position_inj; [| exact Heq]. apply Hmem. eapply nth_error_In; eauto.
    + now intros ->.
Qed.

(** X3.  Applying the fitted pipeline to the frame it was fitted on
    ([preprocess(df, fit=False)] after [preprocess(df, fit=True)]) hands
    [scaler.transform] exactly the frame the scaler was fitted on: every
    training value is encoded to its training code, none to the sentinel. *)
Theorem transform_reproduces_fit_frame
    (self self' : PlantDiseaseModel) (df : DataFrame) (r : ScaledFrame * option Series) :
  NoDup (keys df) ->
  preprocess self df true = Ok (self', r) ->
  exists X',
    scaler_fit_transform (scaler self) X' = Ok (scaler self', sf_values (fst r)) /\
    preprocess self' df false =
      (X_scaled <- scaler_transform (scaler self') X' ;;
       Ok (self', (MkScaled (sf_columns (fst r)) X_scaled, snd r))).
Proof.
  intros Hnd Hpre.
  destruct (preprocess_fit_frame _ _ _ _ Hnd Hpre)
    as (X' & Hsc & Hcols & Hkeys & Hy & Htarget & Hcat & Hnum).
  exists X'. split; [exact Hsc |].
  assert (Hsame : features_and_target self' df = features_and_target self df)
    by (unfold features_and_target; now rewrite Htarget).
  assert (Hfeat_same : forall c, is_feature self' c = is_feature self c)
    by (intros c; unfold is_feature; now rewrite Htarget).
  destruct (encode_features_nofit self' df Hnd) as (X'' & Henc & Hkeys'' & Hcol).
  rewrite Hsame in Henc, Hkeys''.
  assert (HX : X'' = X').
  { apply dict_ext.
    - congruence.
    - rewrite Hkeys''. now apply features_and_target_NoDup.
    - intros c Hc. rewrite Hkeys'' in Hc.
      destruct (in_keys_get c _ Hc) as [s Hs].
      rewrite features_and_target_get in Hs.
      destruct (is_feature self c) eqn:Hf; [| discriminate].
      rewrite (Hcol c s Hs) by (now rewrite Hfeat_same).
      destruct (is_categorical s) eqn:Hs_cat.
      + destruct (Hcat c s Hs Hf Hs_cat) as [Hle HX']. rewrite Hle, HX'.
        now rewrite sentinel_codes_of_training_values.
      + now rewrite (Hnum c s Hs Hf Hs_cat). }
  subst X''. rewrite (preprocess_nofit_eq self' df X' _ Henc).
  now rewrite Hcols, Hy.
Qed.

Lemma encode_column_nofit_encoders (encoders encoders' : dict LabelEncoder.t)
    (X X' : DataFrame) (col : string) :
  encode_column false (encoders, X) col = Ok (encoders', X') -> encoders' = encoders.
Proof.
  unfold encode_column. destruct (dict_get col X) as [s |]; [| discriminate].
  destruct (dict_get col encoders) as [le |].
  - destruct (mapM (transform_or_sentinel le) (astype_str s)); cbn [bind];
      [| discriminate]. intros H. now inversion H.
  - intros H. now inversion H.
Qed.

Lemma foldM_encode_nofit_encoders (cols : list string) :
  forall (encoders encoders' : dict LabelEncoder.t) (X X' : DataFrame),
    foldM (encode_column false) cols (encoders, X) = Ok (encoders', X') ->
    encoders' = encoders.
Proof.
  induction cols as [| col rest IH]; intros encoders encoders' X X' H.
  - cbn in H. now inversion H.
  - cbn [foldM] in H.
    destruct (encode_column false (encoders, X) col) as [[e1 X1] |] eqn:Hstep;
      [| discriminate].
    cbn [bind] in H. apply encode_column_nofit_encoders in Hstep. subst e1.
    eapply IH; eauto.
Qed.

(** X4.  [preprocess(df, fit=False)] never changes the model: the encoders,
    the scaler, the column list and the classifier it returns with are the
    ones it was called with, whatever the frame. *)
Theorem inference_preprocess_keeps_model
    (self self' : PlantDiseaseModel) (df : DataFrame) (r : ScaledFrame * option Series) :
  preprocess self df false = Ok (self', r) -> self' = self.
Proof.
  unfold preprocess, encode_features. intros H.
  destruct (features_and_target self df) as [X y].
  destruct (foldM (encode_column false) (categorical_cols X) (label_encoders self, X))
    as [[encoders X'] |] eqn:Hfold; [| discriminate].
  cbn [bind] in H. apply foldM_encode_nofit_encoders in Hfold. subst encoders.
  cbn [scaler] in H.
  destruct (scaler_transform (scaler self) X'); [| discriminate].
  cbn [bind] in H. inversion H. now destruct self.
Qed.

(** ** From the trainer to the server *)

Lemma keys_dict_set_absent {V : Type} (k : string) (v : V) (d : dict V) :
  ~ In k (keys d) -> keys (dict_set k v d) = (keys d ++ [k])%list.
Proof.
  unfold keys. induction d as [| [k' v'] d IH]; cbn [dict_set map fst In app]; intros H.
  - reflexivity.
  - destruct (String.eqb_spec k' k) as [-> | Hne]; [tauto |].
    cbn [map fst]. rewrite <- app_comm_cons. f_equal. apply IH. tauto.
Qed.

Lemma NoDup_keys_dict_set {V : Type} (k : string) (v : V) (d : dict V) :
  NoDup (keys d) -> NoDup (keys (dict_set k v d)).
Proof.
  intros Hnd. destruct (in_dec string_dec k (keys d)) as [Hin | Hout].
  - now rewrite keys_dict_set_present.
  - rewrite keys_dict_set_absent by exact Hout.
    apply NoDup_app; [exact Hnd | repeat constructor; intros [] |].
    intros x Hx [<- | []]. contradiction.
Qed.

Lemma foldM_encode_fit_NoDup (cols : list string) :
  forall (encoders encoders' : dict LabelEncoder.t) (X X' : DataFrame),
    foldM (encode_column true) cols (encoders, X) = Ok (encoders', X') ->
    NoDup (keys encoders) -> NoDup (keys encoders').
Proof.
  induction cols as [| col rest IH]; intros encoders encoders' X X' H Hnd.
  - cbn in H. inversion H; subst. exact Hnd.
  - cbn [foldM] in H. unfold encode_column at 1 in H.
    destruct (dict_get col X) as [s |]; [| discriminate].
    cbn [LabelEncoder.fit_transform bind] in H.
    eapply IH; [exact H |]. now apply NoDup_keys_dict_set.
Qed.

Lemma preprocess_fit_model
    (self self' : PlantDiseaseModel) (df : DataFrame) (r : ScaledFrame * option Series) :
  preprocess self df true = Ok (self', r) ->
  feature_columns self' = Some (sf_columns (fst r)) /\
  model self' = model self /\
  (NoDup (keys (label_encoders self)) -> NoDup (keys (label_encoders self'))).
Proof.
  intros Hpre.
  destruct (preprocess_fit_inv _ _ _ _ Hpre)
    as (self1 & X1 & y1 & sc & arr & Henc & _ & -> & ->).
  unfold encode_features in Henc.
  destruct (features_and_target self df) as [X y].
  destruct (foldM (encode_column true) (categorical_cols X) (label_encoders self, X))
    as [[encoders X'] |] eqn:Hfold; [| discriminate].
  cbn [bind] in Henc. inversion Henc; subst self1 X1 y1.
  cbn [feature_columns model label_encoders fst sf_columns].
  assert (Hkeys : keys X' = keys X).
  { clear - Hfold. revert Hfold. generalize (label_encoders self).
    generalize (categorical_cols X). intros cols. revert X.
    induction cols as [| col rest IH]; intros X encs H.
    - cbn in H. now inversion H.
    - cbn [foldM] in H. unfold encode_column at 1 in H.
      destruct (dict_get col X) as [s |] eqn:Hs; [| discriminate].
      cbn [LabelEncoder.fit_transform bind] in H.
      rewrite (IH _ _ H). apply keys_dict_set_present.
      eapply dict_get_Some_key; eauto. }
  rewrite Hkeys. repeat split; auto.
  intros Hnd. eapply foldM_encode_fit_NoDup; eauto.
Qed.

(** X5.  An artifact that a completed training run saved is one the server
    accepts: it carries a classifier and a column list, so [GET /diseases]
    answers with the classifier's classes and their count, and for every
    request the server's preprocessing reaches [scaler.transform] with a
    frame whose columns are the saved column list. *)
Theorem trained_artifact_is_servable
    (df : DataFrame) (art : Artifact) (rep : TrainingReport) :
  main df = Ok (art, rep) ->
  exists cols clf,
    art_feature_columns art = Some cols /\
    art_model art = Some clf /\
    get_diseases (Some art) = Ok (clf_classes_ clf, List.length (clf_classes_ clf)) /\
    forall input_data,
      exists frame,
        encode_input input_data art = Ok frame /\
        keys frame = cols /\
        preprocess_input input_data art = scaler_transform (art_scaler art) frame.
Proof.
  intros Hmain.
  destruct (main_inv _ _ _ Hmain)
    as (model1 & X & y & tr & te & clf & Hpre & _ & _ & -> & _ & _).
  destruct (preprocess_fit_model _ _ _ _ Hpre) as (Hcols & _ & _).
  exists (sf_columns X), clf. cbn [art_feature_columns art_model fst] in *.
  split; [exact Hcols |]. split; [reflexivity |]. split; [reflexivity |].
  intros input_data.
  destruct (select_features_ok input_data
              (MkArtifact (Some clf) (label_encoders model1) (scaler model1)
                          (feature_columns model1)) (sf_columns X) Hcols)
    as (frame0 & Hsel & Hkeys & _).
  destruct (foldM_encode_input_keys (label_encoders model1) frame0)
    as (frame & Hrun & Hkeys').
  assert (Henc : encode_input input_data
                   (MkArtifact (Some clf) (label_encoders model1) (scaler model1)
                               (feature_columns model1)) = Ok frame).
  { unfold encode_input. rewrite Hsel. exact Hrun. }
  exists frame. split; [exact Henc |]. split; [congruence |].
  unfold preprocess_input. now rewrite Henc.
Qed.

(** X6.  A request value that occurred in the training column gets from the
    server the code the training rows with that text got: after
    [preprocess(df, fit=True)], for a categorical feature column [col] and a
    request whose [col] has the text of some training row, the server's
    encoded frame holds at [col] the non-negative code that the frame the
    scaler was fitted on holds in every row with that text. *)
Theorem seen_value_gets_training_code
    (self self' : PlantDiseaseModel) (df : DataFrame)
    (r : ScaledFrame * option Series) (col : string) (s : Series)
    (input_data : dict value) (v : value) :
  NoDup (keys df) ->
  NoDup (keys (label_encoders self)) ->
  preprocess self df true = Ok (self', r) ->
  dict_get col df = Some s ->
  is_feature self col = true ->
  is_categorical s = true ->
  dict_get col input_data = Some v ->
  In (value_str v) (astype_str s) ->
  exists X_fit codes frame code,
    scaler_fit_transform (scaler self) X_fit = Ok (scaler self', sf_values (fst r)) /\
    dict_get col X_fit = Some (SInt codes) /\
    encode_input input_data (save_model self') = Ok frame /\
    dict_get col frame = Some (SInt [code]) /\
    0 <= code /\
    forall i, nth_error (astype_str s) i = Some (value_str v) ->
              nth_error codes i = Some code.
Proof.
  intros Hnd Hnde Hpre Hget Hfeat Hcat Hv Hseen.
  destruct (preprocess_fit_frame _ _ _ _ Hnd Hpre)
    as (X' & Hsc & Hcols & _ & _ & _ & Hcat_cols & _).
  destruct (preprocess_fit_model _ _ _ _ Hpre) as (Hfc & _ & Hnde').
  destruct (Hcat_cols col s Hget Hfeat Hcat) as [Hle HX].
  set (le := LabelEncoder.fit (astype_str s)) in *.
  assert (Hin_cls : In (value_str v) (LabelEncoder.classes_ le))
    by (now apply sorted_set_In).
  destruct (select_features_ok input_data (save_model self') _ Hfc)
    as (frame0 & Hsel & _ & Hget0).
  destruct (foldM_encode_input (art_label_encoders (save_model self')) frame0 (Hnde' Hnde))
    as (frame & Hrun & _ & Hget').
  exists X', (snd (LabelEncoder.fit_transform (astype_str s))), frame,
         (Z.of_nat (LabelEncoder.position (value_str v) (LabelEncoder.classes_ le))).
  split; [exact Hsc |]. split; [exact HX |].
  split; [unfold encode_input; rewrite Hsel; exact Hrun |].
  split; [| split; [lia |]].
  - rewrite Hget'. cbn [save_model art_label_encoders]. rewrite Hle.
    assert (Hcol_in : In col (sf_columns (fst r))).
    { rewrite <- Hcols. eapply dict_get_Some_key; eauto. }
    rewrite (Hget0 col Hcol_in), Hv, encode_input_series_single.
    unfold sentinel_code. apply str_in_iff in Hin_cls. now rewrite Hin_cls.
  - intros i Hi. unfold LabelEncoder.fit_transform. cbn [snd].
    now rewrite nth_error_map, Hi.
Qed.

Lemma mapM_ext_in {A B : Type} (f g : A -> result B) (l : list A) :
  (forall x, In x l -> f x = g x) -> mapM f l = mapM g l.
Proof.
  induction l as [| x l IH]; intros H; [reflexivity |].
  cbn [mapM]. rewrite (H x (or_introl eq_refl)), IH; [reflexivity |].
  intros y Hy. apply H. now right.
Qed.

(** X7.  The server reads a request only through its feature columns: two
    requests that agree on every column of the artifact's column list (they
    may differ in field order and in any other field) are preprocessed to
    the same result. *)
Theorem preprocess_input_reads_only_feature_columns
    (md : Artifact) (cols : list string) (input1 input2 : dict value) :
  art_feature_columns md = Some cols ->
  (forall col, In col cols -> dict_get col input1 = dict_get col input2) ->
  encode_input input1 md = encode_input input2 md /\
  preprocess_input input1 md = preprocess_input input2 md.
Proof.
  intros Hcols Hagree.
  assert (Hsel : select_features input1 md = select_features input2 md).
  { unfold select_features. rewrite Hcols. unfold select_columns.
    apply mapM_ext_in. intros c Hc.
    rewrite !ensure_columns_get, !dict_get_of_record, (Hagree c Hc). reflexivity. }
  assert (Henc : encode_input input1 md = encode_input input2 md)
    by (unfold encode_input; now rewrite Hsel).
  split; [exact Henc |]. unfold preprocess_input. now rewrite Henc.
Qed.

(** ** The prediction handler with an artifact *)

Lemma bind_inv {A B : Type} (r : result A) (k : A -> result B) (b : B) :
  bind r k = Ok b -> exists a, r = Ok a /\ k a = Ok b.
Proof.
  destruct r as [a | e]; cbn [bind]; [eauto | discriminate].
Qed.

Lemma predict_body_inv
    (md : Artifact) (treatments : dict TreatmentInfo) (input_data : PredictionInput)
    (r : PredictionResponse) :
  predict_body md treatments input_data = Ok r ->
  exists X clf predictions probas probabilities,
    preprocess_input (model_dump input_data) md = Ok X /\
    art_model md = Some clf /\
    clf_predict clf X = Ok (prediction r :: predictions) /\
    clf_predict_proba clf X = Ok (probabilities :: probas) /\
    max_float probabilities = Ok (confidence r) /\
    all_probabilities r = prob_dict_of (clf_classes_ clf) probabilities /\
    treatment r =
      Some (match dict_get (prediction r) treatments with
            | Some t => t
            | None => default_treatment
            end) /\
    timestamp r = now_isoformat.
Proof.
  unfold predict_body. intros H.
  apply bind_inv in H. destruct H as (X & HX & H).
  destruct (art_model md) as [clf |]; [| discriminate].
  apply bind_inv in H. destruct H as (preds & Hpreds & H).
  apply bind_inv in H. destruct H as (pred & Hpred & H).
  apply bind_inv in H. destruct H as (probas & Hprobas & H).
  apply bind_inv in H. destruct H as (probs & Hprobs & H).
  apply bind_inv in H. destruct H as (conf & Hconf & H).
  inversion H; subst r. clear H.
  destruct preds as [| p0 preds]; [discriminate |]. inversion Hpred; subst p0.
  destruct probas as [| q0 probas]; [discriminate |]. inversion Hprobs; subst q0.
  cbn [prediction confidence all_probabilities treatment timestamp].
  exists X, clf, preds, probas, probs. repeat split; auto.
Qed.

Lemma predict_body_rebuild
    (md : Artifact) (treatments : dict TreatmentInfo) (input_data : PredictionInput)
    (X : ndarray) (clf : Classifier) (pred : string) (predictions : list string)
    (probabilities : list float) (probas : list (list float)) (conf : float) :
  preprocess_input (model_dump input_data) md = Ok X ->
  art_model md = Some clf ->
  clf_predict clf X = Ok (pred :: predictions) ->
  clf_predict_proba clf X = Ok (probabilities :: probas) ->
  max_float probabilities = Ok conf ->
  predict_body md treatments input_data =
    Ok (MkResponse pred conf (prob_dict_of (clf_classes_ clf) probabilities)
          (Some (match dict_get pred treatments with
                 | Some t => t
                 | None => default_treatment
                 end)) now_isoformat).
Proof.
  intros HX Hclf Hpred Hprobas Hconf. unfold predict_body.
  rewrite HX. cbn [bind]. rewrite Hclf, Hpred. cbn [bind getitem0].
  rewrite Hprobas. cbn [bind getitem0]. rewrite Hconf. reflexivity.
Qed.

(** X8.  A prediction never fails for want of a treatment entry: when
    [POST /predict] succeeds, the treatment it returns is the table's entry
    for the predicted label, or the generic fallback entry when the table
    has none, and with any other treatment table the same request succeeds
    with the same label, confidence, probabilities and timestamp. *)
Theorem treatment_lookup_falls_back
    (md : Artifact) (treatments : dict TreatmentInfo) (input_data : PredictionInput)
    (r : PredictionResponse) :
  predict_disease (Some md) treatments input_data = Ok r ->
  treatment r =
    Some (match dict_get (prediction r) treatments with
          | Some t => t
          | None => default_treatment
          end) /\
  forall treatments',
    predict_disease (Some md) treatments' input_data =
      Ok (MkResponse (prediction r) (confidence r) (all_probabilities r)
            (Some (match dict_get (prediction r) treatments' with
                   | Some t => t
                   | None => default_treatment
                   end)) (timestamp r)).
Proof.
  unfold predict_disease. intros H.
  destruct (predict_body md treatments input_data) as [r0 |] eqn:Hbody; [| discriminate].
  inversion H; subst r0. clear H.
  destruct (predict_body_inv _ _ _ _ Hbody)
    as (X & clf & preds & probas & probs & HX & Hclf & Hpred & Hprobas & Hconf
        & Hall & Htreat & Hts).
  split; [exact Htreat |]. intros treatments'.
  rewrite (predict_body_rebuild md treatments' input_data _ _ _ _ _ _ _
             HX Hclf Hpred Hprobas Hconf).
  now rewrite Hall, Hts.
Qed.

Lemma dict_of_items_fresh {V : Type} (items acc : dict V) :
  NoDup (keys items) ->
  (forall k, In k (keys items) -> ~ In k (keys acc)) ->
  fold_left (fun d kv => dict_set (fst kv) (snd kv) d) items acc = (acc ++ items)%list.
Proof.
  revert acc. induction items as [| [k v] items IH]; intros acc Hnd Hfresh.
  - cbn. now rewrite app_nil_r.
  - unfold keys in Hnd. cbn [map fst] in Hnd.
    inversion Hnd as [| ? ? Hnotin Hnd']; subst.
    cbn [fold_left fst snd].
    assert (Hset : dict_set k v acc = (acc ++ [(k, v)])%list).
    { assert (Hk : ~ In k (keys acc)) by (apply Hfresh; now left).
      clear - Hk. unfold keys in Hk.
      induction acc as [| [k' v'] acc IHa]; cbn [dict_set]; [reflexivity |].
      cbn [map fst In] in Hk.
      destruct (String.eqb_spec k' k) as [-> | Hne]; [tauto |].
      rewrite <- app_comm_cons. f_equal. apply IHa. tauto. }
    rewrite Hset, IH; [now rewrite <- app_assoc | exact Hnd' |].
    intros k0 Hk0 Hin. unfold keys in Hin. rewrite map_app in Hin.
    apply in_app_or in Hin. destruct Hin as [Hin | [<- | []]].
    + apply (Hfresh k0); [now right | exact Hin].
    + contradiction.
Qed.

Lemma max_float_In (l : list float) (m : float) :
  max_float l = Ok m -> In m l.
Proof.
  destruct l as [| x r]; [discriminate |]. cbn [max_float]. intros H.
  inversion H; subst m. clear H.
  revert x. induction r as [| y r IH]; intros x; cbn [fold_left]; [now left |].
  destruct (IH (if PrimFloat.ltb x y then y else x)) as [Heq | Hin].
  - rewrite <- Heq. destruct (PrimFloat.ltb x y); [right; now left | now left].
  - right. now right.
Qed.

(** X9.  When [POST /predict] succeeds, the confidence it reports is one of
    the probabilities the classifier gave for the request, and, the
    classifier's classes being distinct, [all_probabilities] pairs the
    classes with those probabilities position by position. *)
Theorem response_reports_the_class_probabilities
    (md : Artifact) (treatments : dict TreatmentInfo) (input_data : PredictionInput)
    (r : PredictionResponse) :
  predict_disease (Some md) treatments input_data = Ok r ->
  exists X clf probabilities rest,
    preprocess_input (model_dump input_data) md = Ok X /\
    art_model md = Some clf /\
    clf_predict_proba clf X = Ok (probabilities :: rest) /\
    In (confidence r) probabilities /\
    (NoDup (clf_classes_ clf) ->
     all_probabilities r = combine (clf_classes_ clf) probabilities).
Proof.
  unfold predict_disease. intros H.
  destruct (predict_body md treatments input_data) as [r0 |] eqn:Hbody; [| discriminate].
  inversion H; subst r0. clear H.
  destruct (predict_body_inv _ _ _ _ Hbody)
    as (X & clf & preds & probas & probs & HX & Hclf & _ & Hprobas & Hconf & Hall & _).
  exists X, clf, probs, probas.
  repeat split; auto; [now apply max_float_In |].
  intros Hnd. rewrite Hall. unfold prob_dict_of.
  rewrite dict_of_items_fresh; [reflexivity | | intros k _ []].
  clear - Hnd. unfold keys. revert probs.
  induction (clf_classes_ clf) as [| c cs IH]; intros probs; [constructor |].
  destruct probs as [| p probs]; [constructor |].
  inversion Hnd as [| ? ? Hnotin Hnd']; subst. cbn [combine map fst].
  constructor; [| now apply IH].
  intros Hin. apply in_map_iff in Hin. destruct Hin as ([c' p'] & Hc & Hin).
  cbn in Hc. subst c'. apply in_combine_l in Hin. contradiction.
Qed.

(** ** Random computations, read backwards *)

Lemma draw_inv {A : Type} (f : G -> A * G) (a : A) (g g' : G) :
  draw f g = Ok (a, g') -> f g = (a, g').
Proof.
  unfold draw. intros H. now inversion H.
Qed.

Lemma getitem_inv {V : Type} (k : string) (d : dict V) (v : V) (g g' : G) :
  getitem k d g = Ok (v, g') -> dict_get k d = Some v.
Proof.
  unfold getitem. destruct (dict_get k d); [| discriminate].
  intros H. apply ret_inv in H. destruct H as [-> _]. reflexivity.
Qed.

Lemma random_randint_range (a b z : Z) (g g' : G) :
  random_randint a b g = Ok (z, g') -> a <= z <= b.
Proof.
  unfold random_randint. destruct (Z.ltb_spec b a) as [Hlt | Hle]; [discriminate |].
  intros H. apply rbind_inv in H. destruct H as (k & g1 & _ & H).
  apply ret_inv in H. destruct H as [<- _].
  assert (Hpos : Z.to_nat (b - a + 1) <> O) by lia.
  pose proof (Nat.mod_upper_bound k _ Hpos). lia.
Qed.

Lemma for_each_nth {A B : Type} (f : A -> Rand B) (l : list A) :
  forall (g g' : G) (ys : list B),
    for_each f l g = Ok (ys, g') ->
    List.length ys = List.length l /\
    forall i x y, nth_error l i = Some x -> nth_error ys i = Some y ->
                  exists g1 g2, f x g1 = Ok (y, g2).
Proof.
  induction l as [| x0 l IH]; intros g g' ys H.
  - apply ret_inv in H. destruct H as [<- _]. split; [reflexivity |].
    intros [| i] x y Hx; discriminate.
  - cbn [for_each] in H.
    apply rbind_inv in H. destruct H as (y0 & g1 & Hy0 & H).
    apply rbind_inv in H. destruct H as (ys0 & g2 & Hys0 & H).
    apply ret_inv in H. destruct H as [<- _].
    destruct (IH _ _ _ Hys0) as [Hlen Hnth].
    split; [cbn; now rewrite Hlen |].
    intros [| i] x y Hx Hy; cbn [nth_error] in Hx, Hy.
    + inversion Hx; inversion Hy; subst. eauto.
    + eapply Hnth; eauto.
Qed.

(** ** The augmenter, row by row *)

Lemma sample_row_In (df : list Sample.t) (row : Sample.t) (g g' : G) :
  sample_row df g = Ok (row, g') -> In row df.
Proof.
  unfold sample_row. destruct df as [| r0 rest]; [discriminate |].
  intros H. apply rbind_inv in H. destruct H as (k & g1 & _ & H).
  destruct (nth_error (r0 :: rest) _) as [row' |] eqn:Hnth; [| discriminate].
  apply ret_inv in H. destruct H as [-> _]. eapply nth_error_In; eauto.
Qed.

Lemma vary_lesions_spec (base_sample : Sample.t) (lc : Z) (sz : float) (g g' : G) :
  vary_lesions base_sample g = Ok ((lc, sz), g') ->
  if Sample.lesion_present base_sample
  then 0 <= lc /\ Sample.lesion_count base_sample - 3 <= lc
       /\ lc <= Z.max 0 (Sample.lesion_count base_sample + 3)
  else lc = Sample.lesion_count base_sample /\ sz = Sample.spot_size_mm base_sample.
Proof.
  unfold vary_lesions. destruct (Sample.lesion_present base_sample); intros H.
  - apply rbind_inv in H. destruct H as (dc & g1 & Hdc & H).
    apply rbind_inv in H. destruct H as (ds & g2 & _ & H).
    apply ret_inv in H. destruct H as [H _]. inversion H; subst.
    apply random_randint_range in Hdc. lia.
  - apply ret_inv in H. destruct H as [H _]. now inversion H.
Qed.

Lemma augment_one_spec (df : list Sample.t) (n i : nat) (row : Sample.t) (g g' : G) :
  augment_one df n i g = Ok (row, g') ->
  Sample.sample_id row = "SAMPLE_" ++ format_06d (Z.of_nat n + Z.of_nat i + 1) /\
  exists base_sample, In base_sample df /\ derived_from base_sample row.
Proof.
  unfold augment_one. intros H.
  apply rbind_inv in H. destruct H as (base_sample & g1 & Hbase & H).
  apply rbind_inv in H. destruct H as (days & g2 & _ & H).
  apply rbind_inv in H. destruct H as (ts & g3 & _ & H).
  apply rbind_inv in H. destruct H as (d_age & g4 & Hage & H).
  do 4 (apply rbind_inv in H; destruct H as (? & ? & _ & H)).
  apply rbind_inv in H. destruct H as ([lc sz] & g9 & Hles & H).
  apply ret_inv in H. destruct H as [<- _].
  split; [reflexivity |].
  exists base_sample. split; [eapply sample_row_In; eauto |].
  apply random_randint_range in Hage. apply vary_lesions_spec in Hles.
  unfold derived_from.
  cbn [Sample.crop_type Sample.location_region Sample.leaf_color Sample.lesion_present
       Sample.nutrient_deficiency_signs Sample.other_notes Sample.label_disease
       Sample.severity Sample.plant_age_days Sample.lesion_count Sample.spot_size_mm].
  repeat split; try reflexivity; try lia.
  destruct (Sample.lesion_present base_sample); [lia | exact Hles].
Qed.

Lemma nth_error_seq_eq (a n i x : nat) :
  nth_error (seq a n) i = Some x -> x = (a + i)%nat.
Proof.
  revert a i. induction n as [| n IH]; intros a i H.
  - destruct i; discriminate.
  - destruct i as [| i]; cbn [seq nth_error] in H.
    + inversion H. lia.
    + apply IH in H. lia.
Qed.

Lemma augment_dataset_inv (df out : list Sample.t) (target_size : Z) (g g' : G) :
  augment_dataset df target_size g = Ok (Some out, g') ->
  Z.of_nat (List.length df) < target_size /\
  exists augmented_samples g1,
    for_each (augment_one df (List.length df))
      (seq 0 (Z.to_nat (target_size - Z.of_nat (List.length df)))) g
      = Ok (augmented_samples, g1) /\
    out = (df ++ augmented_samples)%list.
Proof.
  unfold augment_dataset.
  destruct (Z.of_nat (List.length df) >=? target_size) eqn:Hge.
  - intros H. apply ret_inv in H. destruct H as [H _]. discriminate.
  - intros H. rewrite Z.geb_leb in Hge. apply Z.leb_gt in Hge.
    split; [exact Hge |].
    apply rbind_inv in H. destruct H as (ys & g1 & Hys & H).
    apply ret_inv in H. destruct H as [H _]. inversion H. eauto.
Qed.

(** X10.  For a non-empty dataset smaller than the target,
    [augment_dataset] writes the input rows followed by new rows up to
    exactly [target_size] rows, and numbers the new rows onward from the
    input size: the [i]-th new row (from 0) has id [SAMPLE_] followed by
    [original_size + i + 1] on six digits. *)
Theorem augment_fills_to_target (df : list Sample.t) (target_size : Z) (g : G) :
  df <> [] ->
  Z.of_nat (List.length df) < target_size ->
  exists augmented_samples g',
    augment_dataset df target_size g = Ok (Some (df ++ augmented_samples)%list, g') /\
    Z.of_nat (List.length (df ++ augmented_samples)) = target_size /\
    forall i row,
      nth_error augmented_samples i = Some row ->
      Sample.sample_id row =
        "SAMPLE_" ++ format_06d (Z.of_nat (List.length df) + Z.of_nat i + 1).
Proof.
  intros Hne Hlt.
  destruct (augment_dataset_appends df target_size g Hne Hlt)
    as (new & g' & Hrun & Hlen).
  exists new, g'. split; [exact Hrun |]. split; [rewrite length_app; lia |].
  destruct (augment_dataset_inv _ _ _ _ _ Hrun) as (_ & ys & g1 & Heach & Happ).
  apply app_inv_head in Happ. subst ys.
  destruct (for_each_nth _ _ _ _ _ Heach) as [Hlen' Hnth].
  intros i row Hrow.
  assert (Hi : (i < List.length new)%nat)
    by (apply nth_error_Some; rewrite Hrow; discriminate).
  destruct (nth_error (seq 0 (Z.to_nat (target_size - Z.of_nat (List.length df)))) i)
    as [x |] eqn:Hx.
  - pose proof (nth_error_seq_eq _ _ _ _ Hx) as ->.
    destruct (Hnth i _ row Hx Hrow) as (g1' & g2' & Hone).
    apply augment_one_spec in Hone. destruct Hone as [Hid _].
    exact Hid.
  - apply nth_error_None in Hx. lia.
Qed.

(** X11.  Augmentation invents no observation from nothing: every row
    [augment_dataset] writes is an input row or is derived from one,
    keeping its crop, region, leaf colour, lesion flag, deficiency sign,
    notes, disease label and severity, with a plant age of at least 20
    within 10 days of the original (or 20), a lesion count that is never
    negative when the original has lesions, and the original's lesion count
    and spot size when it has none. *)
Theorem augmented_rows_derive_from_input
    (df out : list Sample.t) (target_size : Z) (g g' : G) :
  augment_dataset df target_size g = Ok (Some out, g') ->
  forall row, In row out ->
    In row df \/ exists base_sample, In base_sample df /\ derived_from base_sample row.
Proof.
  intros Hrun row Hrow.
  destruct (augment_dataset_inv _ _ _ _ _ Hrun) as (_ & ys & g1 & Heach & ->).
  apply in_app_or in Hrow. destruct Hrow as [Hold | Hnew]; [now left | right].
  destruct (for_each_nth _ _ _ _ _ Heach) as [Hlen Hnth].
  apply In_nth_error in Hnew. destruct Hnew as [i Hi].
  assert (Hlt : (i < List.length ys)%nat)
    by (apply nth_error_Some; rewrite Hi; discriminate).
  destruct (nth_error (seq 0 (Z.to_nat (target_size - Z.of_nat (List.length df)))) i)
    as [x |] eqn:Hx.
  - destruct (Hnth i x row Hx Hi) as (g1' & g2' & Hone).
    apply augment_one_spec in Hone. tauto.
  - apply nth_error_None in Hx. lia.
Qed.

(** X12.  The two ways [augment_dataset] ends without writing: on a dataset
    that already has [target_size] rows or more it returns at once, having
    drawn no random number; on an empty dataset with a positive target it
    raises the [ValueError] of [df.sample]. *)
Theorem augment_without_output (target_size : Z) (g : G) :
  (forall df, target_size <= Z.of_nat (List.length df) ->
     augment_dataset df target_size g = Ok (None, g)) /\
  (0 < target_size ->
   exists msg, augment_dataset [] target_size g = Raise (ValueError msg)).
Proof.
  split.
  - intros df Hle. unfold augment_dataset.
    replace (Z.of_nat (List.length df) >=? target_size) with true
      by (symmetry; rewrite Z.geb_leb; apply Z.leb_le; lia).
    reflexivity.
  - intros Hpos. unfold augment_dataset. cbn [List.length].
    replace (Z.of_nat 0 >=? target_size) with false
      by (symmetry; rewrite Z.geb_leb; apply Z.leb_gt; lia).
    replace (Z.to_nat (target_size - Z.of_nat 0)) with (S (Z.to_nat (target_size - 1)))
      by lia.
    eexists. reflexivity.
Qed.

(** ** The generator, field by field *)

Lemma visual_observations_spec (is_healthy : bool) (g g' : G)
    (leaf : string) (lesion : bool) (lc : Z) (sz : float) (nd sev : string) :
  visual_observations is_healthy g = Ok ((leaf, lesion, lc, sz, nd, sev), g') ->
  In nd NUTRIENT_DEFICIENCY /\
  0 <= lc <= 25 /\
  (lesion = false -> lc = 0 /\ sz = 0%float) /\
  (if is_healthy
   then lesion = false /\ sev = "None" /\ In leaf ["Dark_Green"; "Green"]
   else In sev SEVERITY /\
        In leaf ["Yellow"; "Yellow_Green"; "Brown"; "Light_Green"; "Pale_Green";
                 "Dark_Green"; "Green"]).
Proof.
  unfold visual_observations. destruct is_healthy; intros H.
  - apply rbind_inv in H. destruct H as (colors & g1 & Hcolors & H).
    apply getitem_inv in Hcolors. inversion Hcolors; subst colors.
    apply rbind_inv in H. destruct H as (leaf0 & g2 & Hleaf & H).
    apply rbind_inv in H. destruct H as (deficiency & g3 & Hdef & H).
    apply rbind_inv in H. destruct H as (nutrient & g4 & Hnut & H).
    apply ret_inv in H. destruct H as [H _]. inversion H; subst.
    apply random_choice_In in Hleaf, Hdef, Hnut.
    split; [| split; [lia | split; [tauto | tauto]]].
    cbn in Hdef, Hnut |- *. intuition congruence.
  - apply rbind_inv in H. destruct H as (diseased & g1 & Hd & H).
    apply getitem_inv in Hd. inversion Hd; subst diseased.
    apply rbind_inv in H. destruct H as (healthy & g2 & Hh & H).
    apply getitem_inv in Hh. inversion Hh; subst healthy.
    apply rbind_inv in H. destruct H as (leaf0 & g3 & Hleaf & H).
    apply rbind_inv in H. destruct H as (lesion0 & g4 & _ & H).
    apply rbind_inv in H. destruct H as (lc0 & g5 & Hlc & H).
    apply rbind_inv in H. destruct H as (sz0 & g6 & Hsz & H).
    apply rbind_inv in H. destruct H as (nutrient & g7 & Hnut & H).
    apply rbind_inv in H. destruct H as (sev0 & g8 & Hsev & H).
    apply ret_inv in H. destruct H as [H _]. inversion H; subst.
    apply random_choice_In in Hleaf, Hnut, Hsev.
    split; [exact Hnut |].
    destruct lesion.
    + apply random_randint_range in Hlc.
      split; [exact Hlc |]. split; [discriminate |]. split; [exact Hsev | exact Hleaf].
    + apply ret_inv in Hlc. destruct Hlc as [<- _].
      apply ret_inv in Hsz. destruct Hsz as [<- _].
      split; [lia |]. split; [auto |]. split; [exact Hsev | exact Hleaf].
Qed.

Lemma generate_sample_spec (sample_id : Z) (g g' : G) (s : Sample.t) :
  generate_sample sample_id g = Ok (s, g') ->
  Sample.sample_id s = "SAMPLE_" ++ format_06d sample_id /\
  Sample.other_notes s = "" /\
  (exists diseases,
     dict_get (Sample.crop_type s) CROPS_DISEASES = Some diseases /\
     In (Sample.label_disease s) diseases) /\
  20 <= Sample.plant_age_days s <= 150 /\
  In (Sample.location_region s) REGIONS /\
  exists g1 g2,
    visual_observations (String.eqb (Sample.label_disease s) "Healthy") g1 =
      Ok ((Sample.leaf_color s, Sample.lesion_present s, Sample.lesion_count s,
           Sample.spot_size_mm s, Sample.nutrient_deficiency_signs s,
           Sample.severity s), g2).
Proof.
  unfold generate_sample. intros H.
  apply rbind_inv in H. destruct H as (crop & g1 & _ & H).
  apply rbind_inv in H. destruct H as (diseases & g2 & Hdis & H).
  apply rbind_inv in H. destruct H as (disease & g3 & Hdisease & H).
  apply rbind_inv in H. destruct H as (days & g4 & _ & H).
  apply rbind_inv in H. destruct H as (ts & g5 & _ & H).
  apply rbind_inv in H. destruct H as (age & g6 & Hage & H).
  apply rbind_inv in H. destruct H as (region & g7 & Hregion & H).
  do 4 (apply rbind_inv in H; destruct H as (? & ? & _ & H)).
  apply rbind_inv in H.
  destruct H as ([[[[[leaf lesion] lc] sz] nd] sev] & g12 & Hvis & H).
  apply ret_inv in H. destruct H as [<- _].
  cbn [Sample.sample_id Sample.other_notes Sample.crop_type Sample.label_disease
       Sample.plant_age_days Sample.location_region Sample.leaf_color
       Sample.lesion_present Sample.lesion_count Sample.spot_size_mm
       Sample.nutrient_deficiency_signs Sample.severity].
  split; [reflexivity |]. split; [reflexivity |].
  split; [exists diseases; split;
          [eapply getitem_inv; eauto | eapply random_choice_In; eauto] |].
  split; [eapply random_randint_range; eauto |].
  split; [eapply random_choice_In; eauto |].
  eauto.
Qed.

(** X13.  Every sample [generate_sample] returns is well formed: its
    disease is one of those listed for its crop in [CROPS_DISEASES], its
    region one of [REGIONS], its deficiency sign one of
    [NUTRIENT_DEFICIENCY], its plant age within 20..150 and its lesion count
    within 0..25, its notes empty and its id [SAMPLE_] followed by the
    sample number on six digits. *)
Theorem generated_sample_is_well_formed (sample_id : Z) (g g' : G) (s : Sample.t) :
  generate_sample sample_id g = Ok (s, g') ->
  (exists diseases,
     dict_get (Sample.crop_type s) CROPS_DISEASES = Some diseases /\
     In (Sample.label_disease s) diseases) /\
  In (Sample.location_region s) REGIONS /\
  In (Sample.nutrient_deficiency_signs s) NUTRIENT_DEFICIENCY /\
  20 <= Sample.plant_age_days s <= 150 /\
  0 <= Sample.lesion_count s <= 25 /\
  Sample.other_notes s = "" /\
  Sample.sample_id s = "SAMPLE_" ++ format_06d sample_id.
Proof.
  intros H. apply generate_sample_spec in H.
  destruct H as (Hid & Hnotes & Hdisease & Hage & Hregion & g1 & g2 & Hvis).
  apply visual_observations_spec in Hvis. destruct Hvis as (Hnd & Hlc & _ & _).
  repeat split; auto; lia.
Qed.

(** X14.  In every generated sample, diseased or not, the lesion fields are
    consistent: without lesions ([lesion_present] false) the lesion count
    is 0 and the spot size 0.0. *)
Theorem no_lesion_means_no_count (sample_id : Z) (g g' : G) (s : Sample.t) :
  generate_sample sample_id g = Ok (s, g') ->
  Sample.lesion_present s = false ->
  Sample.lesion_count s = 0 /\ Sample.spot_size_mm s = 0%float.
Proof.
  intros H Hles. apply generate_sample_spec in H.
  destruct H as (_ & _ & _ & _ & _ & g1 & g2 & Hvis).
  apply visual_observations_spec in Hvis. destruct Hvis as (_ & _ & Hnone & _).
  now apply Hnone.
Qed.

(** X15.  In every generated sample the severity is ["None"] exactly when
    the label is ["Healthy"]: a diseased sample has severity Mild, Moderate
    or Severe and any of the seven leaf colours, a healthy one a green leaf
    ([Dark_Green] or [Green]). *)
Theorem severity_none_iff_healthy (sample_id : Z) (g g' : G) (s : Sample.t) :
  generate_sample sample_id g = Ok (s, g') ->
  (Sample.severity s = "None" <-> Sample.label_disease s = "Healthy") /\
  (Sample.label_disease s = "Healthy" ->
   In (Sample.leaf_color s) ["Dark_Green"; "Green"]) /\
  (Sample.label_disease s <> "Healthy" ->
   In (Sample.severity s) SEVERITY /\
   In (Sample.leaf_color s)
      ["Yellow"; "Yellow_Green"; "Brown"; "Light_Green"; "Pale_Green";
       "Dark_Green"; "Green"]).
Proof.
  intros H. apply generate_sample_spec in H.
  destruct H as (_ & _ & _ & _ & _ & g1 & g2 & Hvis).
  apply visual_observations_spec in Hvis. destruct Hvis as (_ & _ & _ & Hcase).
  destruct (String.eqb_spec (Sample.label_disease s) "Healthy") as [Hh | Hd].
  - destruct Hcase as (_ & Hsev & Hleaf). repeat split; auto; contradiction.
  - destruct Hcase as (Hsev & Hleaf). repeat split; auto; try contradiction.
    intros Hnone. exfalso. rewrite Hnone in Hsev. cbn in Hsev.
    intuition discriminate.
Qed.

(** ** Writing a dataset *)

Lemma generate_samples_return (n : nat) (g : G) :
  exists samples g',
    for_each (fun i => generate_sample (Z.of_nat i + 1)) (seq 0 n) g = Ok (samples, g').
Proof.
  destruct (returns_for_each (fun i => generate_sample (Z.of_nat i + 1)) (seq 0 n)
              (fun i => generate_sample_returns _) g) as (ys & g' & Hrun & _).
  eauto.
Qed.

Lemma generate_dataset_inv
    (num_samples : Z) (output_file : string) (g g' : G) (samples : list Sample.t) :
  generate_dataset num_samples output_file g = Ok (Some samples, g') ->
  for_each (fun i => generate_sample (Z.of_nat i + 1))
           (seq 0 (Z.to_nat num_samples)) g = Ok (samples, g') /\
  write_and_report num_samples output_file samples = Ok tt.
Proof.
  unfold generate_dataset. intros H.
  apply bind_inv in H. destruct H as (u & _ & H).
  apply bind_inv in H. destruct H as (u' & _ & H).
  apply bind_inv in H. destruct H as ([ys g1] & Heach & H).
  destruct (write_and_report num_samples output_file ys) as [[] | e0] eqn:Hw.
  - inversion H; subst ys g1. split; [exact Heach | exact Hw].
  - apply bind_inv in H. destruct H as (u'' & _ & H). discriminate H.
Qed.

(** X16.  When [generate_dataset] returns samples, it returns exactly
    [num_samples] of them (none for a negative number), and the [i]-th one
    (from 0) is a sample [generate_sample(i + 1)] returned, so its id is
    [SAMPLE_] followed by [i + 1] on six digits. *)
Theorem generate_dataset_numbers_its_samples
    (num_samples : Z) (output_file : string) (g g' : G) (samples : list Sample.t) :
  generate_dataset num_samples output_file g = Ok (Some samples, g') ->
  List.length samples = Z.to_nat num_samples /\
  forall i s,
    nth_error samples i = Some s ->
    Sample.sample_id s = "SAMPLE_" ++ format_06d (Z.of_nat i + 1) /\
    exists g1 g2, generate_sample (Z.of_nat i + 1) g1 = Ok (s, g2).
Proof.
  intros H. apply generate_dataset_inv in H. destruct H as [Heach _].
  destruct (for_each_nth _ _ _ _ _ Heach) as [Hlen Hnth].
  split; [now rewrite Hlen, length_seq |].
  intros i s Hs.
  assert (Hi : (i < List.length samples)%nat)
    by (apply nth_error_Some; rewrite Hs; discriminate).
  destruct (nth_error (seq 0 (Z.to_nat num_samples)) i) as [x |] eqn:Hx.
  - pose proof (nth_error_seq_eq _ _ _ _ Hx) as ->.
    destruct (Hnth i _ s Hx Hs) as (ga & gb & Hone).
    change (0 + i)%nat with i in Hone.
    split; [| exists ga, gb; exact Hone].
    apply generate_sample_spec in Hone. destruct Hone as [Hid _]. exact Hid.
  - apply nth_error_None in Hx. rewrite length_seq in Hx, Hlen. lia.
Qed.

(** X17.  How [generate_dataset] ends.  An exception leaves it in three
    ways only: raised by [os.makedirs] on a non-empty directory name, raised
    by the first [print], or raised by the [print] of the [except] handler
    after the [try] block (writing the file, then reporting it in two
    printed lines) has failed.  When the handler can print, a failure of the
    [try] block is answered with [None]; when the [try] block succeeds, the
    samples are returned.  Generating the samples themselves never fails. *)
Theorem generate_dataset_failure_modes
    (num_samples : Z) (output_file : string) (g : G) :
  match generate_dataset num_samples output_file g with
  | Raise e =>
      (dirname output_file <> "" /\ makedirs (dirname output_file) = Raise e) \/
      print ("Generating " ++ str_int num_samples ++ " samples...") = Raise e \/
      exists samples e0,
        write_and_report num_samples output_file samples = Raise e0 /\
        print ("✗ Error writing file: " ++ str_exn e0) = Raise e
  | Ok (None, _) =>
      exists samples e0,
        write_and_report num_samples output_file samples = Raise e0 /\
        print ("✗ Error writing file: " ++ str_exn e0) = Ok tt
  | Ok (Some samples, _) =>
      write_and_report num_samples output_file samples = Ok tt
  end.
Proof.
  unfold generate_dataset.
  destruct (generate_samples_return (Z.to_nat num_samples) g) as (ys & g' & Heach).
  assert (Hrest :
    match
      (_ <- print ("Generating " ++ str_int num_samples ++ " samples...") ;;
       '(samples, g1) <-
          for_each (fun i => generate_sample (Z.of_nat i + 1))
                   (seq 0 (Z.to_nat num_samples)) g ;;
       match write_and_report num_samples output_file samples with
       | Ok _ => Ok (Some samples, g1)
       | Raise e =>
           _ <- print ("✗ Error writing file: " ++ str_exn e) ;;
           Ok (None, g1)
       end)
    with
    | Raise e =>
        print ("Generating " ++ str_int num_samples ++ " samples...") = Raise e \/
        exists samples e0,
          write_and_report num_samples output_file samples = Raise e0 /\
          print ("✗ Error writing file: " ++ str_exn e0) = Raise e
    | Ok (None, _) =>
        exists samples e0,
          write_and_report num_samples output_file samples = Raise e0 /\
          print ("✗ Error writing file: " ++ str_exn e0) = Ok tt
    | Ok (Some samples, _) =>
        write_and_report num_samples output_file samples = Ok tt
    end).
  { destruct (print ("Generating " ++ str_int num_samples ++ " samples..."))
      as [[] | e1] eqn:Hp1; cbn [bind]; [| now left].
    rewrite Heach. cbn [bind].
    destruct (write_and_report num_samples output_file ys) as [[] | e0] eqn:Hw;
      [exact Hw |].
    destruct (print ("✗ Error writing file: " ++ str_exn e0)) as [[] | e2] eqn:Hp2;
      cbn [bind]; [| right]; exists ys, e0; auto. }
  destruct (String.eqb_spec (dirname output_file) "") as [Hempty | Hdir].
  - cbn [bind].
    destruct (_ <- print _ ;; _) as [[[samples |] g1] | e]; auto.
  - destruct (makedirs (dirname output_file)) as [[] | e] eqn:Hmk; cbn [bind].
    + destruct (_ <- print _ ;; _) as [[[samples |] g1] | e]; auto.
    + left. split; [exact Hdir | reflexivity].
Qed.

(** ** The record store *)

Lemma find_one_app (record_id : string) (db1 db2 : Collection) :
  find_one record_id (db1 ++ db2)%list =
    match find_one record_id db1 with
    | Some doc => Some doc
    | None => find_one record_id db2
    end.
Proof.
  unfold find_one. induction db1 as [| d db1 IH]; [reflexivity |].
  rewrite <- app_comm_cons. cbn [find].
  destruct (String.eqb (Document.id d) record_id); [reflexivity | exact IH].
Qed.

Lemma find_one_Some (record_id : string) (db : Collection) (doc : Document.t) :
  find_one record_id db = Some doc ->
  exists before after,
    db = (before ++ doc :: after)%list /\
    Document.id doc = record_id /\
    find_one record_id before = None /\
    delete_one record_id db = (1%nat, (before ++ after)%list).
Proof.
  unfold find_one. induction db as [| d db IH]; [discriminate |].
  cbn [find delete_one].
  destruct (String.eqb_spec (Document.id d) record_id) as [Hid | Hne]; intros H.
  - inversion H; subst d. exists [], db. repeat split; auto.
  - destruct (IH H) as (before & after & -> & Hdoc & Hnone & Hdel).
    exists (d :: before), after. rewrite Hdel. repeat split; auto.
    cbn [find]. destruct (String.eqb_spec (Document.id d) record_id); [contradiction | exact Hnone].
Qed.

Lemma delete_one_missing (record_id : string) (db : Collection) :
  find_one record_id db = None -> delete_one record_id db = (O, db).
Proof.
  unfold find_one. induction db as [| d db IH]; [reflexivity |].
  cbn [find delete_one].
  destruct (String.eqb (Document.id d) record_id); [discriminate |].
  intros H. now rewrite (IH H).
Qed.

Lemma get_record_missing (db : Collection) (record_id : string) :
  find_one record_id db = None ->
  get_record None db record_id = Raise (HTTPException 404 "Record not found").
Proof.
  intros H. unfold get_record, driver. cbn [bind]. now rewrite H.
Qed.

Lemma get_record_found (db : Collection) (record_id : string) (doc : Document.t) :
  find_one record_id db = Some doc ->
  get_record None db record_id =
    reraise_or_500 "Failed to fetch record: "
      (ts <- fromisoformat (Document.timestamp doc) ;;
       Ok (SubmissionRecord.Build (Document.id doc) (Document.fields doc) ts)).
Proof.
  intros H. unfold get_record, driver. cbn [bind]. now rewrite H.
Qed.

(** X18.  A record that was created can be fetched: when the new id is not
    yet in the collection and the timestamp survives its ISO text,
    [POST /records] appends one document and [GET /records/{id}] with the
    new id then returns the record that was created; the answer for every
    other id is what it was before. *)
Theorem created_record_can_be_fetched
    (db : Collection) (input_data : Submission.t) (new_id : string) (now : datetime) :
  find_one new_id db = None ->
  fromisoformat (isoformat now) = Ok now ->
  exists record db',
    create_record None db input_data new_id now = Ok (record, db') /\
    record = SubmissionRecord.Build new_id input_data now /\
    List.length db' = S (List.length db) /\
    get_record None db' new_id = Ok record /\
    forall other, other <> new_id ->
      get_record None db' other = get_record None db other.
Proof.
  intros Hfresh Hiso.
  set (doc := Document.Build new_id input_data (isoformat now)).
  exists (SubmissionRecord.Build new_id input_data now), (db ++ [doc])%list.
  split; [reflexivity |]. split; [reflexivity |].
  split; [rewrite length_app; cbn; lia |].
  assert (Hfind : forall k, find_one k (db ++ [doc])%list =
                   match find_one k db with
                   | Some d => Some d
                   | None => if String.eqb new_id k then Some doc else None
                   end).
  { intros k. rewrite find_one_app. destruct (find_one k db); [reflexivity |].
    unfold find_one. cbn [find Document.id doc].
    now destruct (String.eqb new_id k). }
  split.
  - rewrite (get_record_found _ _ doc).
    + cbn [Document.timestamp Document.id Document.fields doc]. now rewrite Hiso.
    + now rewrite Hfind, Hfresh, String.eqb_refl.
  - intros other Hne. unfold get_record, driver. cbn [bind]. rewrite Hfind.
    destruct (find_one other db); [reflexivity |].
    destruct (String.eqb_spec new_id other); [congruence | reflexivity].
Qed.

(** X19.  [DELETE /records/{id}] removes exactly one document: without a
    document of that id it raises the 404 "Record not found"; otherwise it
    answers with the id and leaves the collection without the first
    document of that id, every other document in place, so every other id
    is found as before, and, the id having been stored once, fetching it
    afterwards raises the 404. *)
Theorem delete_removes_one_record (db : Collection) (record_id : string) :
  match find_one record_id db with
  | None =>
      delete_record None db record_id = Raise (HTTPException 404 "Record not found")
  | Some doc =>
      exists before after,
        db = (before ++ doc :: after)%list /\
        find_one record_id before = None /\
        delete_record None db record_id =
          Ok ("Record deleted successfully", record_id, (before ++ after)%list) /\
        (forall other, other <> record_id ->
           find_one other (before ++ after)%list = find_one other db) /\
        (find_one record_id after = None ->
         get_record None (before ++ after)%list record_id =
           Raise (HTTPException 404 "Record not found"))
  end.
Proof.
  destruct (find_one record_id db) as [doc |] eqn:Hfind.
  - destruct (find_one_Some _ _ _ Hfind) as (before & after & -> & Hid & Hnone & Hdel).
    exists before, after. split; [reflexivity |]. split; [exact Hnone |].
    split; [| split].
    + unfold delete_record, driver. cbn [bind]. rewrite Hdel. reflexivity.
    + intros other Hne. rewrite !find_one_app.
      destruct (find_one other before); [reflexivity |].
      unfold find_one at 2. cbn [find]. rewrite Hid.
      destruct (String.eqb_spec record_id other); [congruence | reflexivity].
    + intros Hafter. apply get_record_missing.
      now rewrite find_one_app, Hnone.
  - unfold delete_record, driver. cbn [bind].
    now rewrite (delete_one_missing _ _ Hfind).
Qed.

(** ** The statistics *)







(** ** Sample ids *)

Lemma concat_zeros_S (k : nat) :
  String.concat "" (repeat "0" (S k)) = String "0" (String.concat "" (repeat "0" k)).
Proof. destruct k; reflexivity. Qed.

Lemma uint_of_zeros (k : nat) (s : string) :
  NilEmpty.uint_of_string (String.concat "" (repeat "0" k) ++ s)
    = option_map (Nat.iter k D0) (NilEmpty.uint_of_string s).
Proof.
  induction k as [| k IH].
  - cbn. now destruct (NilEmpty.uint_of_string s).
  - rewrite concat_zeros_S. cbn [append NilEmpty.uint_of_string Nat.iter nat_rect].
    rewrite IH. now destruct (NilEmpty.uint_of_string s).
Qed.

Lemma of_uint_zeros (k : nat) (d : uint) : N.of_uint (Nat.iter k D0 d) = N.of_uint d.
Proof. induction k as [| k IH]; [reflexivity | exact IH]. Qed.

Lemma to_uint_not_Nil (n : N) : N.to_uint n <> Nil.
Proof.
  intros H. assert (H' : N.of_uint (N.to_uint n) = 0%N) by now rewrite H.
  rewrite DecimalN.Unsigned.of_to in H'. subst n. discriminate H.
Qed.

(** Reading the digits of [f"{n:06d}"] back gives [n]. *)
Lemma format_06d_decode (n : Z) :
  0 <= n ->
  option_map N.of_uint (NilEmpty.uint_of_string (format_06d n)) = Some (Z.to_N n).
Proof.
  intros Hn. unfold format_06d.
  replace (n <? 0) with false by (symmetry; apply Z.ltb_ge; lia).
  rewrite uint_of_zeros. rewrite Z.abs_eq by lia.
  pose proof (to_uint_not_Nil (Z.to_N n)) as Hnil.
  assert (Hd : NilEmpty.uint_of_string (NilZero.string_of_uint (N.to_uint (Z.to_N n)))
               = Some (N.to_uint (Z.to_N n))).
  { pose proof (NilZero.usu _ Hnil) as Hu. unfold NilZero.uint_of_string in Hu.
    destruct (NilZero.string_of_uint (N.to_uint (Z.to_N n))) eqn:Hs;
      [discriminate Hu | exact Hu]. }
  rewrite Hd. cbn [option_map]. now rewrite of_uint_zeros, DecimalN.Unsigned.of_to.
Qed.

Lemma format_06d_inj (n m : Z) :
  0 <= n -> 0 <= m -> format_06d n = format_06d m -> n = m.
Proof.
  intros Hn Hm Heq.
  pose proof (format_06d_decode n Hn) as H1.
  rewrite Heq, (format_06d_decode m Hm) in H1.
  inversion H1. lia.
Qed.

Lemma numbered_NoDup (df : list Sample.t) :
  numbered df -> NoDup (map Sample.sample_id df).
Proof.
  intros Hnum. apply NoDup_nth_error. intros i j Hi Hij.
  rewrite length_map in Hi.
  rewrite !nth_error_map in Hij.
  destruct (nth_error df i) as [ri |] eqn:Hri;
    [| apply nth_error_None in Hri; lia].
  destruct (nth_error df j) as [rj |] eqn:Hrj; [| discriminate Hij].
  cbn [option_map] in Hij. inversion Hij as [Hid].
  rewrite (Hnum _ _ Hri), (Hnum _ _ Hrj) in Hid.
  cbn [append] in Hid. inversion Hid as [Hfmt].
  apply format_06d_inj in Hfmt; lia.
Qed.

Lemma generate_dataset_numbered
    (num_samples : Z) (output_file : string) (g g' : G) (samples : list Sample.t) :
  generate_dataset num_samples output_file g = Ok (Some samples, g') ->
  numbered samples.
Proof.
  intros H. apply generate_dataset_inv in H. destruct H as [Heach _].
  destruct (for_each_nth _ _ _ _ _ Heach) as [Hlen Hnth].
  intros i s Hs.
  assert (Hi : (i < List.length samples)%nat)
    by (apply nth_error_Some; rewrite Hs; discriminate).
  destruct (nth_error (seq 0 (Z.to_nat num_samples)) i) as [x |] eqn:Hx.
  - pose proof (nth_error_seq_eq _ _ _ _ Hx) as ->.
    destruct (Hnth i _ s Hx Hs) as (ga & gb & Hone).
    change (0 + i)%nat with i in Hone.
    apply generate_sample_spec in Hone. destruct Hone as [Hid _]. exact Hid.
  - apply nth_error_None in Hx. rewrite length_seq in Hx, Hlen. lia.
Qed.

(** X21.  The samples [generate_dataset] returns are numbered from 1 in
    their order and have pairwise distinct ids, whatever their number (also
    beyond the 999999 that fit on six digits). *)
Theorem generated_ids_are_distinct
    (num_samples : Z) (output_file : string) (g g' : G) (samples : list Sample.t) :
  generate_dataset num_samples output_file g = Ok (Some samples, g') ->
  numbered samples /\ NoDup (map Sample.sample_id samples).
Proof.
  intros H. apply generate_dataset_numbered in H.
  split; [exact H | now apply numbered_NoDup].
Qed.

(** X22.  Augmentation continues the numbering of the dataset it is given:
    when the input rows are numbered as [generate_dataset] numbers them
    (row [i] from 0 has id [SAMPLE_] followed by [i + 1]), so are the rows
    [augment_dataset] writes, and their ids are pairwise distinct. *)
Theorem augment_continues_the_numbering
    (df out : list Sample.t) (target_size : Z) (g g' : G) :
  numbered df ->
  augment_dataset df target_size g = Ok (Some out, g') ->
  numbered out /\ NoDup (map Sample.sample_id out).
Proof.
  intros Hnum Hrun.
  assert (Hout : numbered out).
  { destruct (augment_dataset_inv _ _ _ _ _ Hrun) as (_ & ys & g1 & Heach & ->).
    destruct (for_each_nth _ _ _ _ _ Heach) as [Hlen Hnth].
    intros i row Hrow.
    destruct (Nat.lt_ge_cases i (List.length df)) as [Hlt | Hge].
    - rewrite nth_error_app1 in Hrow by exact Hlt. now apply Hnum.
    - rewrite nth_error_app2 in Hrow by exact Hge.
      assert (Hi : (i - List.length df < List.length ys)%nat)
        by (apply nth_error_Some; rewrite Hrow; discriminate).
      destruct (nth_error (seq 0 (Z.to_nat (target_size - Z.of_nat (List.length df))))
                          (i - List.length df)) as [x |] eqn:Hx.
      + pose proof (nth_error_seq_eq _ _ _ _ Hx) as ->.
        destruct (Hnth _ _ row Hx Hrow) as (ga & gb & Hone).
        apply augment_one_spec in Hone. destruct Hone as [Hid _].
        rewrite Hid. do 2 f_equal. lia.
      + apply nth_error_None in Hx. lia. }
  split; [exact Hout | now apply numbered_NoDup].
Qed.

End MoreProperties.

(* ================================================================== *)
(** * Part III: the properties on concrete runs                        *)
(* ================================================================== *)

#[local] Existing Instance Demo.libraries.
#[local] Existing Instance Demo.randomness.

(** C1, as stated, fails.  [Demo.field_df] has twenty rows, ten of each
    label, and a [location_region] that differs from row to row.  Whatever
    the libraries do (whichever rows the splitter holds out, whatever the
    scaler and the grid search return), in every run on it that completes
    the saved encoder of [location_region] knows the plot of every held-out
    row, and the encoder that [preprocess(fit=True)] fits on the rows of the
    train split alone does not: the saved encoders are not those of a fit
    on the train split.  That such runs exist is shown with the stand-in
    libraries. *)
Lemma fit_on_train_split_only_counterexample :
  (forall (L : Libraries) (art : @Artifact L) (rep : @TrainingReport L),
     @main L Demo.field_df = Ok (art, rep) ->
     exists model1 X y train_idx test_idx,
       @preprocess L PlantDiseaseModel_init Demo.field_df true = Ok (model1, (X, y)) /\
       stratified_split (List.length (sf_values X)) y = Ok (train_idx, test_idx) /\
       art_label_encoders art = label_encoders model1 /\
       forall i model_t Xy_t,
         In i test_idx ->
         ~ In i train_idx ->
         (i < 20)%nat ->
         @preprocess L PlantDiseaseModel_init
           (DataFrame_take train_idx Demo.field_df) true = Ok (model_t, Xy_t) ->
         (exists v le le_t,
            nth_error (@astype_str L Demo.field_plots) i = Some v /\
            dict_get "location_region" (art_label_encoders art) = Some le /\
            dict_get "location_region" (label_encoders model_t) = Some le_t /\
            In v (LabelEncoder.classes_ le) /\
            ~ In v (LabelEncoder.classes_ le_t)) /\
         art_label_encoders art <> label_encoders model_t) /\
  (exists art rep train_idx test_idx i model_t Xy_t,
     main Demo.field_df = Ok (art, rep) /\
     stratified_split 20 (dict_get "label_disease" Demo.field_df)
       = Ok (train_idx, test_idx) /\
     In i test_idx /\
     ~ In i train_idx /\
     (i < 20)%nat /\
     preprocess PlantDiseaseModel_init (DataFrame_take train_idx Demo.field_df) true
       = Ok (model_t, Xy_t) /\
     art_label_encoders art <> label_encoders model_t).
Proof.
  split.
  - intros L art rep Hmain.
    apply (@held_out_value_marks_the_fit L Demo.field_df art rep
             "location_region" Demo.field_plots).
    + apply nodupb_sound. reflexivity.
    + exact Hmain.
    + reflexivity.
    + reflexivity.
    + reflexivity.
    + apply nodupb_sound. reflexivity.
  - exists (fst Demo.field_run), (snd Demo.field_run).
    exists (filter (fun i => negb (Demo.held_out i)) (seq 0 20)).
    exists (filter Demo.held_out (seq 0 20)), 4%nat.
    exists (fst (Demo.fit_of
                   (DataFrame_take (filter (fun i => negb (Demo.held_out i)) (seq 0 20))
                                   Demo.field_df))).
    exists (snd (Demo.fit_of
                   (DataFrame_take (filter (fun i => negb (Demo.held_out i)) (seq 0 20))
                                   Demo.field_df))).
    split; [vm_compute; reflexivity |].
    split; [vm_compute; reflexivity |].
    split; [vm_compute; tauto |].
    split; [vm_compute; intuition discriminate |].
    split; [lia |].
    split; [vm_compute; reflexivity |].
    vm_compute. discriminate.
Qed.

(** C1 (amended) on the run on [Demo.field_df] with the stand-in libraries:
    the saved encoder of [location_region] knows the plots of rows 4 and 19,
    which this run holds out. *)
Lemma main_fits_on_whole_dataset_witness :
  main Demo.field_df = Ok Demo.field_run /\
  exists le,
    dict_get "location_region" (art_label_encoders (fst Demo.field_run)) = Some le /\
    In "Plot_05" (LabelEncoder.classes_ le) /\
    In "Plot_20" (LabelEncoder.classes_ le).
Proof.
  split; [vm_compute; reflexivity |].
  destruct (main_fits_on_whole_dataset Demo.field_df
              (fst Demo.field_run) (snd Demo.field_run))
    as (model1 & X_all & y & X_scaled & train_idx & test_idx
        & Henc & Hsc & Hsplit & _ & _ & Hvocab).
  { apply nodupb_sound. reflexivity. }
  { vm_compute. reflexivity. }
  vm_compute in Henc. inversion Henc; subst model1 X_all y. clear Henc.
  vm_compute in Hsc. inversion Hsc; subst X_scaled. clear Hsc.
  vm_compute in Hsplit. inversion Hsplit; subst train_idx test_idx. clear Hsplit.
  destruct (Hvocab "location_region" Demo.field_plots eq_refl eq_refl eq_refl)
    as (le & Hget & _ & Htest).
  exists le. split; [exact Hget |].
  split; apply Htest; vm_compute; tauto.
Defined.

(** C2 on a request against the model fitted on [Demo.train_df]. *)
Lemma train_serve_preprocessing_agree_witness :
  preprocess_input Demo.request (save_model Demo.train_model)
    = Ok [[1; 40; 3; 1]%float] /\
  fmap (fun r => sf_values (fst (snd r)))
       (preprocess Demo.train_model (DataFrame_of_record Demo.request) false)
    = Ok [[1; 40; 3; 1]%float].
Proof.
  split; [vm_compute; reflexivity |].
  rewrite <- (train_serve_preprocessing_agree Demo.train_model Demo.request).
  - vm_compute. reflexivity.
  - apply nodupb_sound. reflexivity.
  - apply nodupb_sound. reflexivity.
  - reflexivity.
  - intros col Hin. cbn in Hin.
    repeat (destruct Hin as [<- | Hin]; [reflexivity |]). contradiction.
  - intros col v Hget Hmem. cbn [dict_get Demo.request] in Hget.
    repeat match type of Hget with
           | (if String.eqb ?k col then _ else _) = _ =>
               destruct (String.eqb_spec k col) as [<- | _];
               [inversion Hget; subst v; (reflexivity || discriminate Hmem) |]
           end.
    discriminate Hget.
Defined.

(** C3 on the scenario of the spec: [leaf_color = "Purple"] against the
    encoder fitted on ["Green"] and ["Yellow"]. *)
Lemma unseen_category_encodes_to_sentinel_witness :
  (exists df',
     encode_input Demo.purple_request (save_model Demo.scenario_model) = Ok df' /\
     dict_get "leaf_color" df' = Some (SInt [-1])) /\
  (exists X' y,
     encode_features Demo.scenario_model
       (DataFrame_of_record Demo.purple_request) false
       = Ok (Demo.scenario_model, X', y) /\
     dict_get "leaf_color" X' = Some (SInt [-1])).
Proof.
  destruct (unseen_category_encodes_to_sentinel Demo.scenario_model
              Demo.purple_request ["leaf_color"] "leaf_color"
              (LabelEncoder.Build ["Green"; "Yellow"]) (VStr "Purple"))
    as [Hserver Htrain].
  - apply nodupb_sound. reflexivity.
  - apply nodupb_sound. reflexivity.
  - reflexivity.
  - now left.
  - reflexivity.
  - reflexivity.
  - cbn. intuition discriminate.
  - split; [exact Hserver | apply Htrain; reflexivity].
Defined.

(** C4 on the scenario of the spec: ["Green"] gets 0 and ["Yellow"] gets 1. *)
Lemma label_encoder_sorted_codes_witness :
  preprocess PlantDiseaseModel_init Demo.scenario_df true
    = Ok (Demo.fit_of Demo.scenario_df) /\
  exists le,
    dict_get "leaf_color" (label_encoders Demo.scenario_model) = Some le /\
    LabelEncoder.transform le ["Green"] = Ok [0] /\
    LabelEncoder.transform le ["Yellow"] = Ok [1].
Proof.
  destruct (label_encoder_sorted_codes PlantDiseaseModel_init Demo.scenario_model
              Demo.scenario_df (snd (Demo.fit_of Demo.scenario_df)) "leaf_color"
              (Demo.strs ["Green"; "Yellow"; "Green"; "Yellow"; "Yellow"; "Green"]))
    as (le & Hget & _ & _ & Hrank & _).
  - apply nodupb_sound. reflexivity.
  - vm_compute. reflexivity.
  - reflexivity.
  - reflexivity.
  - reflexivity.
  - split; [vm_compute; reflexivity |].
    exists le. split; [exact Hget |].
    vm_compute in Hget. inversion Hget; subst le.
    split; [apply (Hrank 0%nat) | apply (Hrank 1%nat)]; reflexivity.
Defined.

(** C5 on the same scenario. *)
Lemma label_encoding_round_trip_witness :
  exists le i,
    dict_get "leaf_color" (label_encoders Demo.scenario_model) = Some le /\
    LabelEncoder.transform le ["Yellow"] = Ok [i] /\
    LabelEncoder.inverse_transform le [i] = Ok ["Yellow"].
Proof.
  destruct (label_encoding_round_trip PlantDiseaseModel_init Demo.scenario_model
              Demo.scenario_df (snd (Demo.fit_of Demo.scenario_df)) "leaf_color"
              (Demo.strs ["Green"; "Yellow"; "Green"; "Yellow"; "Yellow"; "Green"]))
    as (le & Hget & Hvalues & _).
  - apply nodupb_sound. reflexivity.
  - vm_compute. reflexivity.
  - reflexivity.
  - reflexivity.
  - reflexivity.
  - destruct (Hvalues "Yellow") as (i & Henc & Hdec); [vm_compute; tauto |].
    exists le, i. auto.
Defined.

(** C6 on a request that carries three of the four feature columns, out
    of order. *)
Lemma preprocess_input_fills_missing_in_order_witness :
  exists df df',
    select_features Demo.partial_request (save_model Demo.train_model) = Ok df /\
    keys df = ["crop_type"; "plant_age_days"; "leaf_color"; "lesion_present"] /\
    dict_get "plant_age_days" df = Some (SInt [0]) /\
    dict_get "crop_type" df = Some (SObject [VStr "Corn"]) /\
    encode_input Demo.partial_request (save_model Demo.train_model) = Ok df' /\
    keys df' = ["crop_type"; "plant_age_days"; "leaf_color"; "lesion_present"] /\
    preprocess_input Demo.partial_request (save_model Demo.train_model)
      = scaler_transform (art_scaler (save_model Demo.train_model)) df'.
Proof.
  destruct (preprocess_input_fills_missing_in_order Demo.partial_request
              (save_model Demo.train_model)
              ["crop_type"; "plant_age_days"; "leaf_color"; "lesion_present"])
    as (df & df' & Hsel & Hkeys & Hmissing & Hgiven & Henc & Hkeys' & Hrun).
  - reflexivity.
  - exists df, df'. repeat split; auto.
    + apply Hmissing; [cbn; tauto | reflexivity].
    + apply (Hgiven "crop_type" (VStr "Corn")); [cbn; tauto | reflexivity].
Defined.

(** C7 on a frame with a text column the model has no encoder for. *)
Lemma unfitted_categorical_column_passes_through_witness :
  exists X' y,
    encode_features Demo.scenario_model Demo.regional_df false
      = Ok (Demo.scenario_model, X', y) /\
    dict_get "location_region" X' = Some (Demo.strs ["North"; "South"]) /\
    preprocess Demo.scenario_model Demo.regional_df false =
      (X_scaled <- scaler_transform (scaler Demo.scenario_model) X' ;;
       Ok (Demo.scenario_model, (MkScaled (keys X') X_scaled, y))).
Proof.
  apply (unfitted_categorical_column_passes_through Demo.scenario_model
           Demo.regional_df "location_region" (Demo.strs ["North"; "South"])).
  - apply nodupb_sound. reflexivity.
  - reflexivity.
  - reflexivity.
  - reflexivity.
  - reflexivity.
Defined.

(** C9 on a dataset of 100 copies of one row. *)
Lemma augment_100_to_150_witness :
  exists final_df g',
    augment_dataset (repeat Demo.base_row 100) 150 (0%nat : G) = Ok (Some final_df, g') /\
    List.length final_df = 150%nat /\
    firstn 100 final_df = repeat Demo.base_row 100.
Proof.
  apply (augment_100_to_150 (R := Demo.randomness) (repeat Demo.base_row 100) 0%nat).
  apply repeat_length.
Defined.

(** C9, as stated, fails.  Take a file of 100 rows that dataset.py wrote
    for a healthy plant ([Demo.healthy_row], severity ["None"]).  Whatever
    the libraries and the random draws, the run with target size 150 writes
    a file of a header and 150 rows, and its first 100 rows are not, byte
    for byte, the 100 rows of the input file: [to_csv] ends a line with LF
    where the [csv] module wrote CR LF, and writes the severity that
    [read_csv] read as missing as an empty cell. *)
Lemma first_100_rows_not_byte_identical_counterexample :
  List.length (repeat Demo.healthy_row 100) = 100%nat /\
  forall (L : Libraries) (R : Randomness) (g : @G R),
    exists output_lines g',
      @augment_file L R (repeat Demo.healthy_row 100) 150 g
        = Ok (Some output_lines, g') /\
      List.length output_lines = 151%nat /\
      firstn 100 (tl output_lines)
        <> tl (@written_lines L (repeat Demo.healthy_row 100)).
Proof.
  split; [reflexivity |].
  intros L R g.
  apply (@augment_file_rewrites_the_rows L R (repeat Demo.healthy_row 100)
           Demo.healthy_row g); reflexivity.
Qed.

(** C10 on a run of the generator that draws a healthy rice plant. *)
Lemma healthy_sample_has_no_lesions_witness :
  exists s g',
    generate_sample 1 (3%nat : G) = Ok (s, g') /\
    Sample.label_disease s = "Healthy" /\
    Sample.lesion_present s = false /\
    Sample.lesion_count s = 0 /\
    Sample.spot_size_mm s = 0%float /\
    Sample.severity s = "None".
Proof.
  destruct (healthy_sample_has_no_lesions (R := Demo.randomness) 1 3%nat)
    as [(s & g' & Hrun) Hhealthy].
  exists s, g'. split; [exact Hrun |].
  assert (Hlabel : Sample.label_disease s = "Healthy").
  { vm_compute in Hrun. inversion Hrun. reflexivity. }
  split; [exact Hlabel |]. exact (Hhealthy s g' Hrun Hlabel).
Defined.

(** ** Further properties on concrete runs *)

#[local] Existing Instance DemoStore.environment.

(** X1 on the fit of [Demo.train_df]: [sample_id], [severity] and the target
    are left out, the other columns kept in their order. *)
Lemma fit_captures_feature_columns_witness :
  feature_columns Demo.train_model
    = Some ["crop_type"; "plant_age_days"; "leaf_color"; "lesion_present"] /\
  sf_columns (fst (snd (Demo.fit_of Demo.train_df)))
    = ["crop_type"; "plant_age_days"; "leaf_color"; "lesion_present"].
Proof.
  destruct (fit_captures_feature_columns PlantDiseaseModel_init Demo.train_model
              Demo.train_df (fst (snd (Demo.fit_of Demo.train_df)))
              (snd (snd (Demo.fit_of Demo.train_df))))
    as (Hcols & Hframe & _).
  - apply nodupb_sound. reflexivity.
  - vm_compute. reflexivity.
  - split; [exact Hcols | exact Hframe].
Defined.

(** X2 on the scenario of the spec: six codes for the six rows. *)
Lemma fit_encodes_training_rows_witness :
  exists X' le codes,
    scaler_fit_transform (scaler PlantDiseaseModel_init) X'
      = Ok (scaler Demo.scenario_model,
            sf_values (fst (snd (Demo.fit_of Demo.scenario_df)))) /\
    dict_get "leaf_color" (label_encoders Demo.scenario_model) = Some le /\
    dict_get "leaf_color" X' = Some (SInt codes) /\
    List.length codes = 6%nat.
Proof.
  destruct (fit_encodes_training_rows PlantDiseaseModel_init Demo.scenario_model
              Demo.scenario_df (snd (Demo.fit_of Demo.scenario_df)) "leaf_color"
              (Demo.strs ["Green"; "Yellow"; "Green"; "Yellow"; "Yellow"; "Green"]))
    as (X' & Hfit & Hcol).
  - apply nodupb_sound. reflexivity.
  - vm_compute. reflexivity.
  - reflexivity.
  - reflexivity.
  - cbn [is_categorical Demo.strs] in Hcol.
    destruct Hcol as (le & codes & Hle & Hcodes & Hlen & _).
    exists X', le, codes. repeat split; assumption.
Defined.

(** X3 on the same scenario. *)
Lemma transform_reproduces_fit_frame_witness :
  exists X',
    scaler_fit_transform (scaler PlantDiseaseModel_init) X'
      = Ok (scaler Demo.scenario_model,
            sf_values (fst (snd (Demo.fit_of Demo.scenario_df)))) /\
    preprocess Demo.scenario_model Demo.scenario_df false =
      (X_scaled <- scaler_transform (scaler Demo.scenario_model) X' ;;
       Ok (Demo.scenario_model,
           (MkScaled (sf_columns (fst (snd (Demo.fit_of Demo.scenario_df)))) X_scaled,
            snd (snd (Demo.fit_of Demo.scenario_df))))).
Proof.
  apply (transform_reproduces_fit_frame PlantDiseaseModel_init Demo.scenario_model
           Demo.scenario_df (snd (Demo.fit_of Demo.scenario_df))).
  - apply nodupb_sound. reflexivity.
  - vm_compute. reflexivity.
Defined.

(** X4 on the scenario model applied to its own training frame. *)
Lemma inference_preprocess_keeps_model_witness :
  exists self' r,
    preprocess Demo.scenario_model Demo.scenario_df false = Ok (self', r) /\
    self' = Demo.scenario_model.
Proof.
  destruct (preprocess Demo.scenario_model Demo.scenario_df false)
    as [[self' r] | e] eqn:Hrun.
  - exists self', r. split; [reflexivity |].
    exact (inference_preprocess_keeps_model Demo.scenario_model self'
             Demo.scenario_df r Hrun).
  - vm_compute in Hrun. discriminate Hrun.
Defined.

(** X5 on the run on [Demo.field_df]. *)
Lemma trained_artifact_is_servable_witness :
  get_diseases (Some (fst Demo.field_run)) = Ok (["Early_Blight"; "Healthy"], 2%nat) /\
  exists frame,
    encode_input Demo.request (fst Demo.field_run) = Ok frame /\
    keys frame = ["crop_type"; "plant_age_days"; "location_region"; "leaf_color";
                  "lesion_present"].
Proof.
  destruct (trained_artifact_is_servable Demo.field_df
              (fst Demo.field_run) (snd Demo.field_run))
    as (cols & clf & Hcols & Hclf & Hdiseases & Hrequest).
  - vm_compute. reflexivity.
  - vm_compute in Hcols. inversion Hcols; subst cols. clear Hcols.
    vm_compute in Hclf. inversion Hclf; subst clf. clear Hclf.
    split; [exact Hdiseases |].
    destruct (Hrequest Demo.request) as (frame & Hframe & Hkeys & _).
    exists frame. split; assumption.
Defined.

(** X6 on the scenario of the spec: a request with a ["Yellow"] leaf. *)
Lemma seen_value_gets_training_code_witness :
  exists frame code,
    encode_input [("leaf_color", VStr "Yellow")] (save_model Demo.scenario_model)
      = Ok frame /\
    dict_get "leaf_color" frame = Some (SInt [code]) /\
    0 <= code.
Proof.
  destruct (seen_value_gets_training_code PlantDiseaseModel_init Demo.scenario_model
              Demo.scenario_df (snd (Demo.fit_of Demo.scenario_df)) "leaf_color"
              (Demo.strs ["Green"; "Yellow"; "Green"; "Yellow"; "Yellow"; "Green"])
              [("leaf_color", VStr "Yellow")] (VStr "Yellow"))
    as (X_fit & codes & frame & code & _ & _ & Hframe & Hcode & Hpos & _).
  - apply nodupb_sound. reflexivity.
  - apply nodupb_sound. reflexivity.
  - vm_compute. reflexivity.
  - reflexivity.
  - reflexivity.
  - reflexivity.
  - reflexivity.
  - vm_compute. tauto.
  - exists frame, code. repeat split; assumption.
Defined.

(** X7 on [Demo.request] and the same request reordered, with a [soil_ph]
    the model has no column for. *)
Lemma preprocess_input_reads_only_feature_columns_witness :
  encode_input Demo.request (save_model Demo.train_model)
    = encode_input DemoStore.request' (save_model Demo.train_model) /\
  preprocess_input Demo.request (save_model Demo.train_model)
    = preprocess_input DemoStore.request' (save_model Demo.train_model).
Proof.
  apply (preprocess_input_reads_only_feature_columns (save_model Demo.train_model)
           ["crop_type"; "plant_age_days"; "leaf_color"; "lesion_present"]).
  - reflexivity.
  - intros col Hin. cbn in Hin.
    repeat (destruct Hin as [<- | Hin]; [reflexivity |]). contradiction.
Defined.

(** X8 on a request to the artifact of [Demo.field_run], with an empty
    treatment table. *)
Lemma treatment_lookup_falls_back_witness :
  exists r,
    predict_disease (Some (fst Demo.field_run)) [] DemoStore.input = Ok r /\
    treatment r = Some default_treatment.
Proof.
  destruct (predict_disease (Some (fst Demo.field_run)) [] DemoStore.input)
    as [r | e] eqn:Hrun.
  - exists r. split; [reflexivity |].
    exact (proj1 (treatment_lookup_falls_back (fst Demo.field_run) []
                    DemoStore.input r Hrun)).
  - vm_compute in Hrun. discriminate Hrun.
Defined.

(** X9 on the same request. *)
Lemma response_reports_the_class_probabilities_witness :
  exists r probabilities,
    predict_disease (Some (fst Demo.field_run)) [] DemoStore.input = Ok r /\
    In (confidence r) probabilities /\
    all_probabilities r = combine ["Early_Blight"; "Healthy"] probabilities.
Proof.
  destruct (predict_disease (Some (fst Demo.field_run)) [] DemoStore.input)
    as [r | e] eqn:Hrun.
  - destruct (response_reports_the_class_probabilities (fst Demo.field_run) []
                DemoStore.input r Hrun)
      as (X & clf & probabilities & rest & _ & Hclf & _ & Hin & Hall).
    vm_compute in Hclf. inversion Hclf; subst clf. clear Hclf.
    exists r, probabilities. split; [reflexivity |]. split; [exact Hin |].
    apply Hall. apply nodupb_sound. reflexivity.
  - vm_compute in Hrun. discriminate Hrun.
Defined.

(** X10 on three copies of one row and a target of five. *)
Lemma augment_fills_to_target_witness :
  exists augmented_samples g',
    augment_dataset (repeat Demo.base_row 3) 5 (0%nat : G)
      = Ok (Some (repeat Demo.base_row 3 ++ augmented_samples)%list, g') /\
    Z.of_nat (List.length (repeat Demo.base_row 3 ++ augmented_samples)) = 5.
Proof.
  destruct (augment_fills_to_target (R := Demo.randomness)
              (repeat Demo.base_row 3) 5 0%nat)
    as (augmented_samples & g' & Hrun & Hlen & _).
  - cbn. discriminate.
  - vm_compute. reflexivity.
  - exists augmented_samples, g'. split; assumption.
Defined.

(** X11 on one row and a target of three: every row written is a tomato
    observation, as the input row is. *)
Lemma augmented_rows_derive_from_input_witness :
  exists out g',
    augment_dataset [Demo.base_row] 3 (0%nat : G) = Ok (Some out, g') /\
    Forall (fun row => Sample.crop_type row = "Tomato") out.
Proof.
  destruct (augment_dataset (R := Demo.randomness) [Demo.base_row] 3 0%nat)
    as [[[out |] g'] | e] eqn:Hrun;
    [ | vm_compute in Hrun; discriminate Hrun ..].
  exists out, g'. split; [reflexivity |].
  apply Forall_forall. intros row Hin.
  destruct (augmented_rows_derive_from_input (R := Demo.randomness)
              [Demo.base_row] out 3 0%nat g' Hrun row Hin)
    as [Hold | (base_sample & Hbase & Hderived)].
  - destruct Hold as [<- | []]. reflexivity.
  - destruct Hbase as [<- | []]. exact (proj1 Hderived).
Defined.

(** X13 on a run of the generator. *)
Lemma generated_sample_is_well_formed_witness :
  exists s g',
    generate_sample 7 (0%nat : G) = Ok (s, g') /\
    In (Sample.location_region s) REGIONS /\
    20 <= Sample.plant_age_days s <= 150 /\
    Sample.sample_id s = "SAMPLE_000007".
Proof.
  destruct (generate_sample (R := Demo.randomness) 7 0%nat) as [[s g'] | e] eqn:Hrun;
    [ | vm_compute in Hrun; discriminate Hrun].
  exists s, g'. split; [reflexivity |].
  destruct (generated_sample_is_well_formed (R := Demo.randomness) 7 0%nat g' s Hrun)
    as (_ & Hregion & _ & Hage & _ & _ & Hid).
  repeat split; try assumption; apply Hage.
Defined.

(** X14 on a run of the generator that draws a plant without lesions. *)
Lemma no_lesion_means_no_count_witness :
  exists s g',
    generate_sample 1 (3%nat : G) = Ok (s, g') /\
    Sample.lesion_present s = false /\
    Sample.lesion_count s = 0 /\
    Sample.spot_size_mm s = 0%float.
Proof.
  destruct (generate_sample (R := Demo.randomness) 1 3%nat) as [[s g'] | e] eqn:Hrun;
    [ | vm_compute in Hrun; discriminate Hrun].
  assert (Hlesion : Sample.lesion_present s = false).
  { pose proof Hrun as Hvalue. vm_compute in Hvalue. inversion Hvalue. reflexivity. }
  exists s, g'. split; [reflexivity |]. split; [exact Hlesion |].
  exact (no_lesion_means_no_count (R := Demo.randomness) 1 3%nat g' s Hrun Hlesion).
Defined.

(** X15 on the same run. *)
Lemma severity_none_iff_healthy_witness :
  exists s g',
    generate_sample 1 (3%nat : G) = Ok (s, g') /\
    (Sample.severity s = "None" <-> Sample.label_disease s = "Healthy").
Proof.
  destruct (generate_sample (R := Demo.randomness) 1 3%nat) as [[s g'] | e] eqn:Hrun;
    [ | vm_compute in Hrun; discriminate Hrun].
  exists s, g'. split; [reflexivity |].
  exact (proj1 (severity_none_iff_healthy (R := Demo.randomness) 1 3%nat g' s Hrun)).
Defined.

(** X16 on a dataset of two samples. *)
Lemma generate_dataset_numbers_its_samples_witness :
  exists samples g',
    generate_dataset 2 "data/dataset.csv" (0%nat : G) = Ok (Some samples, g') /\
    List.length samples = 2%nat.
Proof.
  destruct (generate_dataset (R := Demo.randomness) (E := DemoStore.environment)
              2 "data/dataset.csv" 0%nat)
    as [[[samples |] g'] | e] eqn:Hrun;
    [ | vm_compute in Hrun; discriminate Hrun ..].
  exists samples, g'. split; [reflexivity |].
  exact (proj1 (generate_dataset_numbers_its_samples (R := Demo.randomness)
                  (E := DemoStore.environment) 2 "data/dataset.csv" 0%nat g' samples Hrun)).
Defined.

(** X18 on a fourth record for the store [DemoStore.db]. *)
Lemma created_record_can_be_fetched_witness :
  exists record db',
    create_record (E := DemoStore.environment) None DemoStore.db
      (DemoStore.submission "Corn" "Healthy") "r4" "2024-01-10T00:00:00"
      = Ok (record, db') /\
    List.length db' = 4%nat /\
    get_record None db' "r4" = Ok record.
Proof.
  destruct (created_record_can_be_fetched (E := DemoStore.environment) DemoStore.db
              (DemoStore.submission "Corn" "Healthy") "r4" "2024-01-10T00:00:00")
    as (record & db' & Hcreate & _ & Hlen & Hget & _).
  - reflexivity.
  - reflexivity.
  - exists record, db'. repeat split; assumption.
Defined.

(** X21 on a dataset of two samples. *)
Lemma generated_ids_are_distinct_witness :
  exists samples g',
    generate_dataset 2 "data/dataset.csv" (1%nat : G) = Ok (Some samples, g') /\
    NoDup (map Sample.sample_id samples).
Proof.
  destruct (generate_dataset (R := Demo.randomness) (E := DemoStore.environment)
              2 "data/dataset.csv" 1%nat)
    as [[[samples |] g'] | e] eqn:Hrun;
    [ | vm_compute in Hrun; discriminate Hrun ..].
  exists samples, g'. split; [reflexivity |].
  exact (proj2 (generated_ids_are_distinct (R := Demo.randomness)
                  (E := DemoStore.environment) 2 "data/dataset.csv" 1%nat g' samples Hrun)).
Defined.

(** X22 on the one-row dataset [[Demo.base_row]], whose row has id
    [SAMPLE_000001], and a target of three. *)
Lemma augment_continues_the_numbering_witness :
  exists out g',
    augment_dataset [Demo.base_row] 3 (0%nat : G) = Ok (Some out, g') /\
    map Sample.sample_id out = ["SAMPLE_000001"; "SAMPLE_000002"; "SAMPLE_000003"] /\
    NoDup (map Sample.sample_id out).
Proof.
  destruct (augment_dataset (R := Demo.randomness) [Demo.base_row] 3 0%nat)
    as [[[out |] g'] | e] eqn:Hrun;
    [ | vm_compute in Hrun; discriminate Hrun ..].
  exists out, g'. split; [reflexivity |].
  split.
  - pose proof Hrun as Hvalue. vm_compute in Hvalue. inversion Hvalue. reflexivity.
  - apply (augment_continues_the_numbering (R := Demo.randomness)
             [Demo.base_row] out 3 0%nat g').
    + intros [| [| i]] row Hrow; cbn in Hrow; inversion Hrow; reflexivity.
    + exact Hrun.
Defined.
